(** * adk_short_bot and its deployment manager: a shallow embedding

    The development follows the two flows of the repository.

    - [Py]: the few operations of Python's [str] the sources call
      ([split], [strip], [in], [startswith], [join], [str] of an integer).
    - [Json]: the values handed to [json.dumps] and the text it produces
      for [indent=n], as the tools and the chat printer use it.
    - [Tools]: [format_as_json] of [adk_short_bot/tools/json_formattter.py]
      and the character counter.
    - [Reader]: readers of a serialized text (the names of the members of
      the outermost object, the indentation of the lines), against which
      the output of [format_as_json] is checked.
    - [Deployment]: [AgentManager] of [deployment/remote.py]; printing,
      process exit, exceptions and the calls to the remote platform are
      recorded in an explicit trace.
    - [Sample]: one environment and one platform, for the examples.
    - [Console]: [list], [create_session] and [list_sessions] of
      [deployment/remote.py], with the calls and prints of their own.
    - [Cases]: further platforms and streams, for the examples.

    A Python [str] is a sequence of code points; here it is a [string],
    so the code points are those below 256. *)

From Stdlib Require Import ZArith Ascii String List Bool Lia.
From Stdlib Require Import Numbers.DecimalString.
From stdpp Require Import base option list gmap strings.

Local Open Scope Z_scope.
Set Warnings "-register-all".

(** ** Operations of Python's [str] *)
Module Py.

(** [str.isspace] on one code point below 256: tab to carriage return,
    the four separators 0x1c-0x1f, the space, NEL and the no-break space. *)
Definition is_space (c : ascii) : bool :=
  let n := N_of_ascii c in
  ((9 <=? n) && (n <=? 13))%N || ((28 <=? n) && (n <=? 32))%N
  || (n =? 133)%N || (n =? 160)%N.

(** [s.lstrip()] *)
Fixpoint lstrip (s : string) : string :=
  match s with
  | String c s' => if is_space c then lstrip s' else s
  | EmptyString => EmptyString
  end.

(** [s.rstrip()] *)
Definition rstrip (s : string) : string := String.rev (lstrip (String.rev s)).

(** [s.strip()] *)
Definition strip (s : string) : string := rstrip (lstrip s).

(** [s.split(sep)] for a separator of one character: never empty, one
    more piece than there are separators. *)
Fixpoint split (sep : ascii) (s : string) : list string :=
  match s with
  | EmptyString => [EmptyString]
  | String c s' =>
      if Ascii.eqb c sep then EmptyString :: split sep s'
      else match split sep s' with
           | piece :: pieces => String c piece :: pieces
           | [] => [String c EmptyString]
           end
  end.

(** [sep.join(pieces)] *)
Definition join (sep : string) (pieces : list string) : string :=
  String.concat sep pieces.

(** [s.startswith(p)] *)
Definition startswith (p s : string) : bool := String.prefix p s.

(** [needle in hay] *)
Fixpoint contains (needle hay : string) : bool :=
  String.prefix needle hay
  || match hay with
     | EmptyString => false
     | String _ hay' => contains needle hay'
     end.

(** [pieces[-1]] of a list that [split] returned. *)
Definition last_piece (pieces : list string) : string :=
  List.last pieces EmptyString.

(** [str(n)] of an integer: decimal digits, a minus sign when negative. *)
Definition str_of_int (n : Z) : string := NilZero.string_of_int (Z.to_int n).

(** How many times the character occurs. *)
Fixpoint count_char (c : ascii) (s : string) : nat :=
  match s with
  | EmptyString => O
  | String a s' => (if Ascii.eqb a c then 1 else 0)%nat + count_char c s'
  end.

(** [' ' * n] *)
Fixpoint spaces (n : nat) : string :=
  match n with
  | O => EmptyString
  | S n' => String " " (spaces n')
  end.

End Py.

(** ** [json.dumps(obj, indent=n)] *)
Module Json.

(** The objects a caller can hand over. Floats are left out: their text
    is [float.__repr__]. A tuple is written like a list. [PObject] is any
    other object, with the name of its class; the encoder has no text
    for it. *)
Inductive pyval : Type :=
| PNone
| PBool (b : bool)
| PInt (n : Z)
| PStr (s : string)
| PList (items : list pyval)
| PDict (items : list (pyval * pyval))
| PObject (type_name : string).

(** The double quote. *)
Definition dquote : ascii := "034"%char.

Definition hex_digit (n : N) : ascii :=
  match n with
  | 0 => "0" | 1 => "1" | 2 => "2" | 3 => "3" | 4 => "4" | 5 => "5"
  | 6 => "6" | 7 => "7" | 8 => "8" | 9 => "9" | 10 => "a" | 11 => "b"
  | 12 => "c" | 13 => "d" | 14 => "e" | _ => "f"
  end%N%char.

(** One character inside a string literal, [ensure_ascii=True]: the
    quote, the backslash and the five short escapes; every other
    character outside space..tilde is written as a [\u] escape of four
    hexadecimal digits. *)
Definition escape_char (c : ascii) : string :=
  let n := N_of_ascii c in
  if (n =? 34)%N then String "\" (String dquote EmptyString)
  else if (n =? 92)%N then String "\" (String "\" EmptyString)
  else if (n =? 10)%N then String "\" (String "n" EmptyString)
  else if (n =? 13)%N then String "\" (String "r" EmptyString)
  else if (n =? 9)%N then String "\" (String "t" EmptyString)
  else if (n =? 8)%N then String "\" (String "b" EmptyString)
  else if (n =? 12)%N then String "\" (String "f" EmptyString)
  else if ((32 <=? n) && (n <=? 126))%N then String c EmptyString
  else String "\" (String "u" (String "0" (String "0"
         (String (hex_digit (n / 16)) (String (hex_digit (n mod 16)) EmptyString))))).

Fixpoint escape_body (s : string) : string :=
  match s with
  | EmptyString => EmptyString
  | String c s' => escape_char c +:+ escape_body s'
  end.

(** [py_encode_basestring_ascii] *)
Definition encode_basestring_ascii (s : string) : string :=
  String dquote (escape_body s +:+ String dquote EmptyString).

(** The newline and the indentation of one nesting level. *)
Definition newline : ascii := "010"%char.

Definition newline_indent (indent level : nat) : string :=
  String newline (Py.spaces (indent * level)).

(** [o.__class__.__name__] *)
Definition class_name (o : pyval) : string :=
  match o with
  | PNone => "NoneType"
  | PBool _ => "bool"
  | PInt _ => "int"
  | PStr _ => "str"
  | PList _ => "list"
  | PDict _ => "dict"
  | PObject type_name => type_name
  end.

(** What the encoder gives: the text, or the message of the
    [TypeError] it raises. *)
Inductive result : Type :=
| Encoded (text : string)
| NotSerializable (message : string).

(** The text of a dictionary key: a [str] as it is, [True], [False] and
    [None] by name, an integer in decimal; any other key is a
    [TypeError]. *)
Definition key_text (k : pyval) : option string :=
  match k with
  | PStr s => Some s
  | PBool true => Some "true"
  | PBool false => Some "false"
  | PNone => Some "null"
  | PInt n => Some (Py.str_of_int n)
  | _ => None
  end.

(** The loop over the items of a non-empty list or dictionary:
    [newline_indent] before the first item, the item separator and
    [newline_indent] before every later one. *)
Section Items.
Context {A : Type} (encode_item : A -> result) (newline_indent : string).

Fixpoint encode_items (first : bool) (l : list A) : result :=
  match l with
  | [] => Encoded EmptyString
  | x :: l' =>
      match encode_item x with
      | NotSerializable m => NotSerializable m
      | Encoded chunk =>
          match encode_items false l' with
          | NotSerializable m => NotSerializable m
          | Encoded rest =>
              Encoded ((if first then newline_indent
                        else String "," newline_indent) +:+ chunk +:+ rest)
          end
      end
  end.
End Items.

(** One [key: value] member, given the text of the value. *)
Definition encode_member (key : pyval) (value : result) : result :=
  match key_text key with
  | None =>
      NotSerializable
        ("keys must be str, int, float, bool or None, not " +:+ class_name key)
  | Some k =>
      match value with
      | NotSerializable m => NotSerializable m
      | Encoded chunk => Encoded (encode_basestring_ascii k +:+ ": " +:+ chunk)
      end
  end.

(** [_iterencode], with the chunks it yields joined. *)
Fixpoint iterencode (indent level : nat) (o : pyval) {struct o} : result :=
  match o with
  | PNone => Encoded "null"
  | PBool true => Encoded "true"
  | PBool false => Encoded "false"
  | PInt n => Encoded (Py.str_of_int n)
  | PStr s => Encoded (encode_basestring_ascii s)
  | PList [] => Encoded "[]"
  | PList items =>
      match encode_items (iterencode indent (S level))
              (newline_indent indent (S level)) true items with
      | Encoded body =>
          Encoded (String "[" (body +:+ newline_indent indent level +:+ "]"))
      | NotSerializable m => NotSerializable m
      end
  | PDict [] => Encoded "{}"
  | PDict items =>
      match encode_items
              (fun kv => match kv with
                         | (key, value) =>
                             encode_member key (iterencode indent (S level) value)
                         end)
              (newline_indent indent (S level)) true items with
      | Encoded body =>
          Encoded (String "{" (body +:+ newline_indent indent level +:+ "}"))
      | NotSerializable m => NotSerializable m
      end
  | PObject type_name =>
      NotSerializable
        ("Object of type " +:+ type_name +:+ " is not JSON serializable")
  end.

(** [json.dumps(obj, indent=indent)] *)
Definition dumps (indent : nat) (obj : pyval) : result :=
  iterencode indent 0 obj.

(** The objects [json.dumps] has a text for. *)
Fixpoint serializable (o : pyval) : bool :=
  match o with
  | PNone | PBool _ | PInt _ | PStr _ => true
  | PList items => forallb serializable items
  | PDict items =>
      forallb (fun kv => match kv with
                         | (key, value) => bool_decide (is_Some (key_text key))
                                           && serializable value
                         end) items
  | PObject _ => false
  end.

(** Truth value of an object: [bool(o)]. *)
Definition truthy (o : pyval) : bool :=
  match o with
  | PNone => false
  | PBool b => b
  | PInt n => negb (n =? 0)
  | PStr s => negb (String.eqb s EmptyString)
  | PList items => match items with [] => false | _ => true end
  | PDict items => match items with [] => false | _ => true end
  | PObject _ => true
  end.

(** [d.get(name)] on the items of a dictionary. *)
Fixpoint dict_get (name : string) (items : list (pyval * pyval)) : option pyval :=
  match items with
  | [] => None
  | (PStr k, v) :: items' => if String.eqb k name then Some v else dict_get name items'
  | _ :: items' => dict_get name items'
  end.

End Json.

(** ** The agent's tools *)
Module Tools.
Import Json.

(** The keyword arguments in the order the caller wrote
    them; the names are strings. *)
Definition kwargs := list (string * pyval).

Definition as_dict (kw : kwargs) : pyval :=
  PDict (map (fun kv => (PStr (fst kv), snd kv)) kw).

(** [format_as_json]: [json.dumps(kwargs, indent=4)] of the keyword
    arguments. *)
Definition format_as_json (kw : kwargs) : result :=
  dumps 4 (as_dict kw).

(** Modelled from the spec: [count_characters], which [agent.py] imports
    from the tools package next to [format_as_json]; its module is not
    among the sources. The contract: given a text string, returns its
    length as a non-negative integer. *)
Definition count_characters (text : string) : Z :=
  Z.of_nat (String.length text).

End Tools.

(** ** Reading a serialized object back

    A reader of the text, written without reference to the encoder: it
    walks the characters once and collects the string literal of every
    line that starts with exactly four spaces and a double quote, which
    is where a member of the outermost object stands when the
    indentation is four. *)
Module Reader.
Import Json.

Inductive state : Type :=
| LineStart (n : nat)      (* [n] spaces since the line began *)
| InBody                   (* past the first other character of the line *)
| InKey (acc : string)     (* inside the literal; [acc] is reversed *)
| InKeyEsc (acc : string). (* inside the literal, after a backslash *)

Definition next (st : state) (c : ascii) : state :=
  match st with
  | LineStart n =>
      if Ascii.eqb c " " then LineStart (S n)
      else if Ascii.eqb c newline then LineStart 0
      else if Ascii.eqb c dquote && Nat.eqb n 4 then InKey EmptyString
      else InBody
  | InBody => if Ascii.eqb c newline then LineStart 0 else InBody
  | InKey acc =>
      if Ascii.eqb c dquote then InBody
      else if Ascii.eqb c "\" then InKeyEsc (String c acc)
      else InKey (String c acc)
  | InKeyEsc acc => InKey (String c acc)
  end.

Definition emit (st : state) (c : ascii) : list string :=
  match st with
  | InKey acc => if Ascii.eqb c dquote then [String.rev acc] else []
  | _ => []
  end.

Fixpoint final (st : state) (s : string) : state :=
  match s with
  | EmptyString => st
  | String c s' => final (next st c) s'
  end.

Fixpoint literals (st : state) (s : string) : list string :=
  match s with
  | EmptyString => []
  | String c s' => emit st c ++ literals (next st c) s'
  end.

Definition hex_value (c : ascii) : N :=
  let n := N_of_ascii c in
  if ((48 <=? n) && (n <=? 57))%N then (n - 48)%N
  else if ((97 <=? n) && (n <=? 102))%N then (n - 87)%N
  else if ((65 <=? n) && (n <=? 70))%N then (n - 55)%N
  else 0%N.

Definition unescape_short (e : ascii) : ascii :=
  if Ascii.eqb e "n" then "010"
  else if Ascii.eqb e "r" then "013"
  else if Ascii.eqb e "t" then "009"
  else if Ascii.eqb e "b" then "008"
  else if Ascii.eqb e "f" then "012"
  else e.

(** The characters a string literal stands for. *)
Fixpoint unescape (s : string) : string :=
  match s with
  | EmptyString => EmptyString
  | String c s' =>
      if Ascii.eqb c "\" then
        match s' with
        | EmptyString => EmptyString
        | String e s'' =>
            if Ascii.eqb e "u" then
              match s'' with
              | String h1 (String h2 (String h3 (String h4 r))) =>
                  String (ascii_of_N (((hex_value h1 * 16 + hex_value h2) * 16
                                       + hex_value h3) * 16 + hex_value h4)%N)
                         (unescape r)
              | _ => EmptyString
              end
            else String (unescape_short e) (unescape s'')
        end
      else String c (unescape s')
  end.

(** The names of the members of the outermost object, in the order
    they stand in the text. *)
Definition top_level_keys (out : string) : list string :=
  map unescape (literals (LineStart 0) out).

(** A text without a line break. *)
Fixpoint one_line (s : string) : bool :=
  match s with
  | EmptyString => true
  | String c s' => negb (Ascii.eqb c newline) && one_line s'
  end.

(** A text without a line break that starts with a character other than
    the space. *)
Definition token (s : string) : bool :=
  match s with
  | EmptyString => false
  | String c s' => negb (Ascii.eqb c " ") && one_line s
  end.

(** The states in which no member name can start. *)
Definition calm (st : state) : bool :=
  match st with
  | InBody => true
  | LineStart n => negb (Nat.eqb n 4)
  | _ => false
  end.

(** A text the reader passes, from the body of a line, without
    collecting anything and ending in the body of a line. *)
Definition steady (s : string) : Prop :=
  final InBody s = InBody /\ literals InBody s = [].

(** The same from every calm state. *)
Definition quiet (s : string) : Prop :=
  forall st, calm st = true -> final st s = InBody /\ literals st s = [].

(** Where the reader of indentation stands in a line: after [n] spaces
    at its start, or past its first other character. *)
Inductive column : Type :=
| AtStart (n : nat)
| Inside.

Definition column_next (col : column) (c : ascii) : column :=
  if Ascii.eqb c newline then AtStart 0
  else match col with
       | AtStart n => if Ascii.eqb c " " then AtStart (S n) else Inside
       | Inside => Inside
       end.

(** The first character of a line other than a space stands after a
    multiple of [indent] spaces. *)
Definition column_ok (indent : nat) (col : column) (c : ascii) : bool :=
  match col with
  | AtStart n =>
      Ascii.eqb c " " || Ascii.eqb c newline || Nat.eqb (n mod indent) 0
  | Inside => true
  end.

Fixpoint column_final (col : column) (s : string) : column :=
  match s with
  | EmptyString => col
  | String c s' => column_final (column_next col c) s'
  end.

(** Every line of the text is indented by a multiple of [indent]. *)
Fixpoint indented (indent : nat) (col : column) (s : string) : bool :=
  match s with
  | EmptyString => true
  | String c s' => column_ok indent col c && indented indent (column_next col c) s'
  end.

(** The columns at which a value can start when the indentation is four. *)
Definition on_grid (col : column) : Prop :=
  col = Inside \/ exists k, col = AtStart (4 * k).

(** A text that stays inside its line. *)
Definition inside (s : string) : Prop :=
  indented 4 Inside s = true /\ column_final Inside s = Inside.

(** A text that keeps to the grid from every such column and ends inside
    a line. *)
Definition aligned (s : string) : Prop :=
  forall col, on_grid col ->
    indented 4 col s = true /\ column_final col s = Inside.

(** Every character of the text is ASCII. *)
Fixpoint ascii_only (s : string) : bool :=
  match s with
  | EmptyString => true
  | String c s' => (N_of_ascii c <? 128)%N && ascii_only s'
  end.

End Reader.

(** ** [deployment/remote.py] *)
Module Deployment.
Import Json.

(** *** Exceptions *)

(** The classes of [google.api_core.exceptions] the handlers name;
    [FailedPrecondition] and [NotFound] are subclasses of
    [GoogleAPICallError]. *)
Inductive api_class : Type := FailedPrecondition | NotFound | GoogleAPICallError.

(** Every exception here is a subclass of [Exception]. An API error
    carries its [code] attribute as text, [e.message] and [str(e)]; the
    others carry [str(e)]. *)
Inductive exn : Type :=
| ApiError (cls : api_class) (code message text : string)
| ImportError (text : string)
| NameError (name : string)
| TypeError (text : string)
| AttributeError (text : string)
| OtherError (text : string).

(** [str(e)] *)
Definition exn_str (e : exn) : string :=
  match e with
  | ApiError _ _ _ text => text
  | ImportError text => text
  | NameError name => "name '" +:+ name +:+ "' is not defined"
  | TypeError text => text
  | AttributeError text => text
  | OtherError text => text
  end.

(** *** What a run does: the trace *)

Inductive fd : Type := Stdout | Stderr.

(** A value bound to a name of the module, as far as [create] uses it. *)
Inductive pyobj : Type :=
| ObjModule (name : string)
| ObjClass (name : string)
| ObjStr (s : string)
| ObjStrList (l : list string).

Inductive event : Type :=
| Print (file : fd) (text : string) (end_ : string)
    (* [print(text, end=end_, file=file)] *)
| PrintObj (o : pyval) (end_ : string)
    (* [print(o, end=end_)] of an object of the stream *)
| PrintExc
    (* [traceback.print_exc()] *)
| LoadDotenv
| VertexaiInit (project location staging_bucket : option string)
| ImportRootAgent
| AdkApp
| EnginesCreate (display_name description : pyobj) (requirements : pyobj)
    (extra_packages : list string)
| EnginesDelete (resource_name : string) (force : bool)
| EnginesGet (engine_id : string)
| StreamQuery (user_id session_id message : string)
| StreamNext.
    (* the loop takes the next chunk of the stream *)

(** The calls that reach the remote platform. *)
Definition is_remote_call (e : event) : bool :=
  match e with
  | VertexaiInit _ _ _ | EnginesCreate _ _ _ _ | EnginesDelete _ _
  | EnginesGet _ | StreamQuery _ _ _ | StreamNext => true
  | _ => false
  end.

Inductive outcome (A : Type) : Type :=
| Returned (a : A)
| Raised (e : exn)
| Exited (code : Z).
Arguments Returned {A} a.
Arguments Raised {A} e.
Arguments Exited {A} code.

(** A computation: the events so far and how it ended. *)
Definition M (A : Type) : Type := list event * outcome A.

Definition ret {A : Type} (a : A) : M A := ([], Returned a).

Definition bind {A B : Type} (m : M A) (k : A -> M B) : M B :=
  match m with
  | (t, Returned a) => match k a with (t', r) => (t ++ t', r) end
  | (t, Raised e) => (t, Raised e)
  | (t, Exited code) => (t, Exited code)
  end.

#[global] Instance M_ret : MRet M := @ret.
#[global] Instance M_bind : MBind M := fun A B k m => bind m k.

Definition tell (e : event) : M unit := ([e], Returned tt).
Definition raise {A : Type} (e : exn) : M A := ([], Raised e).

(** [sys.exit(code)]: [SystemExit] is not an [Exception], no handler of
    this file catches it. *)
Definition sys_exit {A : Type} (code : Z) : M A := ([], Exited code).

(** [try: body / except ...: handler], the handler choosing by the
    exception. *)
Definition try_except {A : Type} (body : M A) (handler : exn -> M A) : M A :=
  match body with
  | (t, Raised e) => match handler e with (t', r) => (t ++ t', r) end
  | other => other
  end.

Definition trace {A : Type} (m : M A) : list event := fst m.
Definition result_of {A : Type} (m : M A) : outcome A := snd m.

Definition nl : string := String newline EmptyString.

(** [print(text)] and [print(text, file=sys.stderr)] *)
Definition print (text : string) : M unit := tell (Print Stdout text nl).
Definition print_err (text : string) : M unit := tell (Print Stderr text nl).

(** A call whose answer the platform decides: success or an exception. *)
Definition call {A : Type} (e : event) (answer : exn + A) : M A :=
  tell e;;
  match answer with
  | inl err => raise err
  | inr a => ret a
  end.

(** *** The world outside *)

(** The chunks a stream yields, and whether it then ends or raises. *)
Record stream : Type := {
  chunks : list pyval;
  closing : option exn
}.

Record platform : Type := {
  vertexai_init : option string -> option string -> option string -> exn + unit;
  import_root_agent : exn + unit;
  adk_app : exn + unit;
  engines_create : pyobj -> pyobj -> pyobj -> list string -> exn + string;
  engines_delete : string -> bool -> exn + unit;
  engines_get : string -> exn + unit;
  stream_query : string -> string -> string -> string -> exn + stream
}.

(** A command-line argument as [fire] hands it over: the text, or the
    integer it reads a numeral as. *)
Inductive arg : Type := AStr (s : string) | AInt (n : Z).

(** [str(a)], also what an f-string writes for it. *)
Definition str (a : arg) : string :=
  match a with
  | AStr s => s
  | AInt n => Py.str_of_int n
  end.

(** [bool(a)] *)
Definition arg_truthy (a : arg) : bool :=
  match a with
  | AStr s => negb (String.eqb s EmptyString)
  | AInt n => negb (n =? 0)
  end.

(** What an f-string writes for a value of [os.getenv]. *)
Definition fmt (o : option string) : string := default "None" o.

(** [not value] for a value of [os.getenv]. *)
Definition falsy (o : option string) : bool :=
  match o with
  | None => true
  | Some s => String.eqb s EmptyString
  end.

(** *** [AgentManager] *)

Record AgentManager : Type := {
  project_id : option string;
  location : option string;
  bucket : option string;
  agent_package_name : option string;
  agent_display_name : option string;
  agent_description : string;
  agent_requirements : list string
}.

(** [[req.strip() for req in s.split(',')]] *)
Definition parse_requirements (agent_requirements_str : string) : list string :=
  map Py.strip (Py.split "," agent_requirements_str).

Definition default_requirements : string :=
  "google-cloud-aiplatform[adk,agent_engines]".

(** The attributes [__init__] sets from the environment. *)
Definition read_config (env : gmap string string) : AgentManager :=
  {| project_id := env !! "GOOGLE_CLOUD_PROJECT";
     location := env !! "GOOGLE_CLOUD_LOCATION";
     bucket := env !! "GOOGLE_CLOUD_STAGING_BUCKET";
     agent_package_name := env !! "AGENT_PACKAGE_NAME";
     agent_display_name := env !! "AGENT_DISPLAY_NAME";
     agent_description := default "" (env !! "AGENT_DESCRIPTION");
     agent_requirements :=
       parse_requirements (default default_requirements (env !! "AGENT_REQUIREMENTS")) |}.

Definition required_vars (self : AgentManager) : list (string * option string) :=
  [ ("GOOGLE_CLOUD_PROJECT", project_id self);
    ("GOOGLE_CLOUD_LOCATION", location self);
    ("GOOGLE_CLOUD_STAGING_BUCKET", bucket self);
    ("AGENT_PACKAGE_NAME", agent_package_name self);
    ("AGENT_DISPLAY_NAME", agent_display_name self) ].

(** The keys of [required_vars]. *)
Definition required_names : list string :=
  [ "GOOGLE_CLOUD_PROJECT"; "GOOGLE_CLOUD_LOCATION"; "GOOGLE_CLOUD_STAGING_BUCKET";
    "AGENT_PACKAGE_NAME"; "AGENT_DISPLAY_NAME" ].

Definition missing_vars (self : AgentManager) : list string :=
  map fst (List.filter (fun kv => falsy (snd kv)) (required_vars self)).

(** [__init__]. [load_dotenv()] adds the variables of the [.env] file
    that the environment does not set. *)
Definition __init__ (environ dotenv : gmap string string) (P : platform)
  : M AgentManager :=
  tell LoadDotenv;;
  let self := read_config (environ ∪ dotenv) in
  match missing_vars self with
  | _ :: _ =>
      print_err ("Error: Missing required environment variables: "
                 +:+ Py.join ", " (missing_vars self));;
      sys_exit 1
  | [] =>
      try_except
        (print "Initializing Vertex AI...";;
         call (VertexaiInit (project_id self) (location self) (bucket self))
              (vertexai_init P (project_id self) (location self) (bucket self));;
         print ("   Project: " +:+ fmt (project_id self));;
         print ("   Location: " +:+ fmt (location self));;
         print ("   Staging Bucket: " +:+ fmt (bucket self) +:+ nl);;
         ret self)
        (fun e =>
           print_err ("Error initializing Vertex AI: " +:+ exn_str e);;
           sys_exit 1)
  end.

(** [_get_full_resource_name] *)
Definition _get_full_resource_name (self : AgentManager) (engine_id : arg) : string :=
  let engine_id := str engine_id in
  if Py.contains "projects/" engine_id then engine_id
  else "projects/" +:+ fmt (project_id self) +:+ "/locations/"
       +:+ fmt (location self) +:+ "/reasoningEngines/" +:+ engine_id.

(** The names bound at the top of [remote.py]: its imports and its one
    class. No statement of the file binds another global name. *)
Definition module_globals : gmap string pyobj :=
  list_to_map
    [ ("os", ObjModule "os"); ("sys", ObjModule "sys"); ("json", ObjModule "json");
      ("traceback", ObjModule "traceback"); ("fire", ObjModule "fire");
      ("vertexai", ObjModule "vertexai"); ("load_dotenv", ObjModule "dotenv.load_dotenv");
      ("api_exceptions", ObjModule "google.api_core.exceptions");
      ("agent_engines", ObjModule "vertexai.agent_engines");
      ("reasoning_engines", ObjModule "vertexai.preview.reasoning_engines");
      ("AgentManager", ObjClass "AgentManager") ].

(** Reading a global name: [NameError] when the module does not bind it
    (none of the names read this way is a builtin). *)
Definition load_global (name : string) : M pyobj :=
  match module_globals !! name with
  | Some o => ret o
  | None => raise (NameError name)
  end.

(** What an f-string writes for an object. *)
Definition format_obj (o : pyobj) : string :=
  match o with
  | ObjStr s => s
  | ObjModule name => "<module '" +:+ name +:+ "'>"
  | ObjClass name => "<class '" +:+ name +:+ "'>"
  | ObjStrList l => "[" +:+ Py.join ", " (map (fun s => "'" +:+ s +:+ "'") l) +:+ "]"
  end.

(** [e.code()] of an API error. In [google.api_core] the [code] of an
    exception is an attribute that holds the HTTP status (a member of
    [http.HTTPStatus] for the classes of the library), not a method:
    calling it raises [TypeError] while the f-string is still being put
    together, so the handler prints nothing and lets that error out. The
    message names the type of the attribute; the theorems about the
    operations rely on the class of the error only ([is_type_error]). *)
Definition not_callable : exn := TypeError "'HTTPStatus' object is not callable".

Definition e_code (e : exn) : M string := raise not_callable.

(** The outcome is an uncaught [TypeError]. *)
Definition is_type_error {A : Type} (r : outcome A) : bool :=
  match r with
  | Raised (TypeError _) => true
  | _ => false
  end.

(** The API errors, which a clause [except GoogleAPICallError] catches. *)
Definition is_api_error (e : exn) : bool :=
  match e with
  | ApiError _ _ _ _ => true
  | _ => false
  end.

(** The exceptions that reach the clause [except GoogleAPICallError] when
    a clause [except NotFound] stands before it: the API errors other
    than a missing resource. *)
Definition reads_code (e : exn) : bool :=
  match e with
  | ApiError NotFound _ _ _ => false
  | ApiError _ _ _ _ => true
  | _ => false
  end.

(** [create] *)
Definition create (self : AgentManager) (P : platform) : M unit :=
  imported ←
    try_except
      (call ImportRootAgent (import_root_agent P) ;; ret true)
      (fun e =>
         match e with
         | ImportError _ =>
             print_err "Error: Could not import 'root_agent' from 'adk_short_bot.agent'.";;
             print_err "Ensure the agent package is in the correct path and installed in editable mode (pip install -e .).";;
             ret false
         | _ => raise e
         end);
  if negb imported then ret tt
  else
    print "Packaging agent...";;
    call AdkApp (adk_app P);;
    print "Deploying agent to Vertex AI...";;
    try_except
      (display_name ← load_global "AGENT_DISPLAY_NAME";
       description ← load_global "AGENT_DESCRIPTION";
       requirements ← load_global "AGENT_REQUIREMENTS";
       package_name ← load_global "AGENT_PACKAGE_NAME";
       let extra_packages := ["./" +:+ format_obj package_name] in
       resource_name ←
         call (EnginesCreate display_name description requirements extra_packages)
              (engines_create P display_name description requirements extra_packages);
       let engine_id := Py.last_piece (Py.split "/" resource_name) in
       display_name' ← load_global "AGENT_DISPLAY_NAME";
       print (nl +:+ "Successfully created agent '" +:+ format_obj display_name' +:+ "'");;
       print ("   Full Resource Name: " +:+ resource_name);;
       print ("   Engine ID: " +:+ engine_id))
      (fun e =>
         match e with
         | ApiError _ _ message _ =>
             status ← e_code e;
             print_err (nl +:+ "Error deploying agent: API call failed with status " +:+ status);;
             print_err ("Details: " +:+ message)
         | _ =>
             print_err (nl +:+ "An unexpected error occurred during deployment: " +:+ exn_str e)
         end).

(** [delete]; [argv] is [sys.argv]. *)
Definition delete (self : AgentManager) (P : platform) (argv : list string)
    (engine_id : arg) (force : bool) : M unit :=
  if negb (arg_truthy engine_id) then
    print_err "Error: engine_id is required."
  else
    let full_resource_name := _get_full_resource_name self engine_id in
    print ("Deleting agent: " +:+ full_resource_name +:+ "...");;
    (if force then print "   --force flag set. Deleting agent and all child resources."
     else ret tt);;
    try_except
      (call (EnginesDelete full_resource_name force)
            (engines_delete P full_resource_name force);;
       print (nl +:+ "Agent deleted successfully."))
      (fun e =>
         match e with
         | ApiError FailedPrecondition _ _ _ =>
             print_err (nl +:+ "Error: Agent '" +:+ str engine_id
                        +:+ "' cannot be deleted because it has existing sessions or other child resources.");;
             print_err "To proceed, you must delete the agent and all its resources by using the --force flag.";;
             let command_args :=
               List.filter (fun a => negb (Py.startswith "--force" a)) argv in
             let suggested_command := Py.join " " command_args +:+ " --force=True" in
             print_err (nl +:+ "Example command:");;
             print_err ("   " +:+ suggested_command)
         | ApiError NotFound _ _ _ =>
             print_err (nl +:+ "Error: Agent with ID '" +:+ str engine_id +:+ "' not found.")
         | ApiError GoogleAPICallError _ message _ =>
             status ← e_code e;
             print_err (nl +:+ "Error deleting agent: API call failed with status " +:+ status);;
             print_err ("Details: " +:+ message)
         | _ =>
             print_err (nl +:+ "An unexpected error occurred during deletion: " +:+ exn_str e)
         end).

(** [_get_remote_agent]: whether the agent was found. *)
Definition _get_remote_agent (P : platform) (engine_id : arg) : M bool :=
  try_except
    (call (EnginesGet (str engine_id)) (engines_get P (str engine_id)) ;; ret true)
    (fun e =>
       match e with
       | ApiError NotFound _ _ _ =>
           print_err ("Error: Agent with ID '" +:+ str engine_id +:+ "' not found.");;
           ret false
       | ApiError _ _ message _ =>
           status ← e_code e;
           print_err ("Error retrieving agent: API call failed with status " +:+ status);;
           print_err ("Details: " +:+ message);;
           ret false
       | _ =>
           print_err ("An unexpected error occurred while retrieving agent: " +:+ exn_str e);;
           ret false
       end).

(** [for chunk in stream: body(chunk)] *)
Fixpoint for_each (body : pyval -> M unit) (l : list pyval) (closing : option exn)
  : M unit :=
  match l with
  | [] =>
      match closing with
      | None => ret tt
      | Some e => raise e
      end
  | chunk :: l' => tell StreamNext ;; body chunk ;; for_each body l' closing
  end.

(** [print(json.dumps(chunk, indent=2))] *)
Definition print_raw (chunk : pyval) : M unit :=
  match dumps 2 chunk with
  | Encoded text => print text
  | NotSerializable message => raise (TypeError message)
  end.

(** The body of the loop of the text mode. *)
Definition print_text (chunk : pyval) : M unit :=
  match chunk with
  | PDict items =>
      match dict_get "content" items with
      | Some (PDict content) =>
          match content with
          | [] => ret tt
          | _ =>
              match dict_get "parts" content with
              | Some (PList (part :: parts)) =>
                  match part with
                  | PDict part_items =>
                      match dict_get "text" part_items with
                      | Some text =>
                          if truthy text then tell (PrintObj text EmptyString)
                          else ret tt
                      | None => ret tt
                      end
                  | _ =>
                      raise (AttributeError
                               ("'" +:+ class_name part +:+ "' object has no attribute 'get'"))
                  end
              | _ => ret tt
              end
          end
      | _ => ret tt
      end
  | _ => ret tt
  end.

(** The [except] clauses of [chat]. *)
Definition chat_except (debug : bool) (e : exn) : M unit :=
  match e with
  | ApiError NotFound _ message _ =>
      print_err (nl +:+ "Error during chat: Resource not found. Check your session ID.");;
      print_err ("Details: " +:+ message)
  | ApiError _ _ message _ =>
      status ← e_code e;
      print_err (nl +:+ "Error during chat: API call failed with status " +:+ status);;
      print_err ("Details: " +:+ message)
  | _ =>
      print_err (nl +:+ "An unexpected error occurred during chat session: "
                 +:+ exn_str e);;
      if debug then tell PrintExc else ret tt
  end.

(** [chat] *)
Definition chat (self : AgentManager) (P : platform) (engine_id session_id : arg)
    (message user_id : string) (raw_output debug : bool) : M unit :=
  print ("Sending message to session '" +:+ str session_id +:+ "'...");;
  print ("   User: '" +:+ message +:+ "'");;
  remote_agent ← _get_remote_agent P engine_id;
  if negb remote_agent then ret tt
  else
    try_except
      (s ← call (StreamQuery user_id (str session_id) message)
                 (stream_query P (str engine_id) user_id (str session_id) message);
       if raw_output then
         print (nl +:+ "--- RAW AGENT STREAM ---");;
         for_each print_raw (chunks s) (closing s);;
         print "--- END RAW AGENT STREAM ---"
       else
         print (nl +:+ "Agent:");;
         for_each print_text (chunks s) (closing s);;
         print EmptyString)
      (chat_except debug).

(** The commands of the command line this development covers. *)
Inductive command : Type :=
| Create
| Delete (engine_id : arg) (force : bool)
| Chat (engine_id session_id : arg) (message user_id : string) (raw_output debug : bool).

(** [fire.Fire(AgentManager)]: the manager is built, then the command
    runs on it. *)
Definition main (environ dotenv : gmap string string) (P : platform)
    (argv : list string) (cmd : command) : M unit :=
  self ← __init__ environ dotenv P;
  match cmd with
  | Create => create self P
  | Delete engine_id force => delete self P argv engine_id force
  | Chat engine_id session_id message user_id raw_output debug =>
      chat self P engine_id session_id message user_id raw_output debug
  end.

End Deployment.

(** ** A sample world, for the examples *)
Module Sample.
Import Json Deployment.

(** A complete environment. *)
Definition environ : gmap string string :=
  list_to_map
    [ ("GOOGLE_CLOUD_PROJECT", "demo-project");
      ("GOOGLE_CLOUD_LOCATION", "us-central1");
      ("GOOGLE_CLOUD_STAGING_BUCKET", "gs://demo-bucket");
      ("AGENT_PACKAGE_NAME", "adk_short_bot");
      ("AGENT_DISPLAY_NAME", "short-bot") ].

Definition has_sessions : exn :=
  ApiError FailedPrecondition "412" "The agent has sessions."
           "412 The agent has sessions.".

Definition two_chunks : stream :=
  {| chunks :=
       [ PDict [(PStr "content",
                 PDict [(PStr "parts", PList [PDict [(PStr "text", PStr "Hi")]])])];
         PDict [(PStr "actions", PDict [])] ];
     closing := None |}.

(** A platform on which every call succeeds, except that an agent is
    only deleted with [force]. *)
Definition cloud : platform :=
  {| vertexai_init := fun _ _ _ => inr tt;
     import_root_agent := inr tt;
     adk_app := inr tt;
     engines_create := fun _ _ _ _ =>
       inr "projects/demo-project/locations/us-central1/reasoningEngines/42";
     engines_delete := fun _ force => if force then inr tt else inl has_sessions;
     engines_get := fun _ => inr tt;
     stream_query := fun _ _ _ _ => inr two_chunks |}.

Definition manager : AgentManager := read_config environ.

(** The envelope of the agent's instruction. *)
Definition envelope : Tools.kwargs :=
  [ ("original_character_count", PInt 72);
    ("new_character_count", PInt 30);
    ("new_message", PStr "Long message needing big cuts") ].

(** The text of the envelope, as [json.dumps(..., indent=4)] lays it out. *)
Definition envelope_text : string :=
  "{" +:+ nl
  +:+ "    " +:+ Json.encode_basestring_ascii "original_character_count" +:+ ": 72," +:+ nl
  +:+ "    " +:+ Json.encode_basestring_ascii "new_character_count" +:+ ": 30," +:+ nl
  +:+ "    " +:+ Json.encode_basestring_ascii "new_message" +:+ ": "
  +:+ Json.encode_basestring_ascii "Long message needing big cuts" +:+ nl
  +:+ "}".

(** The same environment without a display name. *)
Definition environ_without_name : gmap string string :=
  base.delete "AGENT_DISPLAY_NAME" environ.

End Sample.

(** ** [deployment/remote.py]: listing and sessions

    The three operations of [AgentManager] that the trace above has no
    events for. Their runs are lists of actions: the events above, and
    the calls and prints that only these operations make. *)
Module Console.
Import Json Deployment.

(** A deployment as [agent_engines.list()] yields it: its resource name,
    its display name, and the text that
    [create_time.strftime('%Y-%m-%d %H:%M:%S')] gives. *)
Record deployment : Type := {
  name : string;
  display_name : string;
  created : string
}.

Inductive action : Type :=
| Did (e : event)
    (* an event of the operations above *)
| EnginesList
    (* [agent_engines.list()] *)
| CreateSession (engine_id user_id : string)
    (* [remote_agent.create_session(user_id=user_id)] *)
| ListSessions (engine_id user_id : string)
    (* [remote_agent.list_sessions(user_id=user_id)] *)
| PrintField (label : string) (o : pyval).
    (* [print(f"{label}{o}")], the object written by an f-string *)

Definition is_remote (a : action) : bool :=
  match a with
  | Did e => is_remote_call e
  | EnginesList | CreateSession _ _ | ListSessions _ _ => true
  | PrintField _ _ => false
  end.

(** What the platform answers to the three calls. *)
Record api : Type := {
  engines_list : exn + list deployment;
  agent_create_session : string -> string -> exn + pyval;
  agent_list_sessions : string -> string -> exn + pyval
}.

(** A computation of this part: the actions so far and how it ended. *)
Definition Run (A : Type) : Type := Datatypes.list action * outcome A.

Definition done_ {A : Type} (a : A) : Run A := ([], Returned a).

Definition then_ {A B : Type} (m : Run A) (k : A -> Run B) : Run B :=
  match m with
  | (t, Returned a) => match k a with (t', r) => (t ++ t', r) end
  | (t, Raised e) => (t, Raised e)
  | (t, Exited code) => (t, Exited code)
  end.

#[global] Instance Run_ret : MRet Run := @done_.
#[global] Instance Run_bind : MBind Run := fun A B k m => then_ m k.

(** A computation of the operations above, run here. *)
Definition lift {A : Type} (m : M A) : Run A := (map Did (fst m), snd m).

Definition act (a : action) : Run unit := ([a], Returned tt).
Definition fail {A : Type} (e : exn) : Run A := ([], Raised e).
Definition say (text : string) : Run unit := lift (print text).
Definition say_err (text : string) : Run unit := lift (print_err text).

Definition ask {A : Type} (a : action) (answer : exn + A) : Run A :=
  act a;;
  match answer with
  | inl err => fail err
  | inr x => done_ x
  end.

Definition guarded {A : Type} (body : Run A) (handler : exn -> Run A) : Run A :=
  match body with
  | (t, Raised e) => match handler e with (t', r) => (t ++ t', r) end
  | other => other
  end.

Definition actions {A : Type} (m : Run A) : Datatypes.list action := fst m.
Definition ending {A : Type} (m : Run A) : outcome A := snd m.

(** [o.get(key, default)]: of the objects here only a dictionary has
    [get]. *)
Definition py_get (o : pyval) (key : string) (default_ : pyval) : Run pyval :=
  match o with
  | PDict items => done_ (default default_ (dict_get key items))
  | _ => fail (AttributeError ("'" +:+ class_name o +:+ "' object has no attribute 'get'"))
  end.

(** The characters of a text, each a text of its own. *)
Fixpoint characters (s : string) : Datatypes.list pyval :=
  match s with
  | EmptyString => []
  | String c s' => PStr (String c EmptyString) :: characters s'
  end.

(** [for x in o]: the items of a list, the keys of a dictionary, the
    characters of a text; the other objects here are not iterable. *)
Definition py_iter (o : pyval) : Run (Datatypes.list pyval) :=
  match o with
  | PList items => done_ items
  | PDict items => done_ (map fst items)
  | PStr s => done_ (characters s)
  | _ => fail (TypeError ("'" +:+ class_name o +:+ "' object is not iterable"))
  end.

(** The loop of [list]: [i] is the index [enumerate] is at. *)
Fixpoint show_deployments (i : Z) (l : Datatypes.list deployment) : Run unit :=
  match l with
  | [] => done_ tt
  | d :: l' =>
      let engine_id := Py.last_piece (Py.split "/" (name d)) in
      say ("[" +:+ Py.str_of_int (i + 1) +:+ "] " +:+ display_name d);;
      say ("    Engine ID: " +:+ engine_id);;
      say ("    Created: " +:+ created d +:+ nl);;
      show_deployments (i + 1) l'
  end.

(** [create_session] *)
Definition create_session (self : AgentManager) (P : platform) (Q : api)
    (engine_id : arg) (user_id : string) : Run unit :=
  say ("Creating new session for user '" +:+ user_id +:+ "'...");;
  remote_agent ← lift (_get_remote_agent P engine_id);
  if negb remote_agent then done_ tt
  else
    guarded
      (session ← ask (CreateSession (str engine_id) user_id)
                     (agent_create_session Q (str engine_id) user_id);
       say (nl +:+ "Session created:");;
       session_id ← py_get session "id" (PStr "N/A");
       act (PrintField "   Session ID: " session_id);;
       say ("   User ID: " +:+ user_id))
      (fun e => say_err (nl +:+ "Error creating session: " +:+ exn_str e)).

(** The loop of [list_sessions]. *)
Fixpoint show_sessions (l : Datatypes.list pyval) : Run unit :=
  match l with
  | [] => done_ tt
  | session_object :: l' =>
      session_id ← py_get session_object "id" PNone;
      act (PrintField "- " session_id);;
      show_sessions l'
  end.

(** [list_sessions] *)
Definition list_sessions (self : AgentManager) (P : platform) (Q : api)
    (engine_id : arg) (user_id : string) : Run unit :=
  say ("Listing sessions for user '" +:+ user_id +:+ "'...");;
  remote_agent ← lift (_get_remote_agent P engine_id);
  if negb remote_agent then done_ tt
  else
    guarded
      (response_data ← ask (ListSessions (str engine_id) user_id)
                           (agent_list_sessions Q (str engine_id) user_id);
       sessions_list ← py_get response_data "sessions" (PList []);
       if negb (truthy sessions_list) then
         say ("No sessions found for user '" +:+ user_id +:+ "'.")
       else
         say (nl +:+ "--- Sessions for " +:+ user_id +:+ " ---");;
         sessions ← py_iter sessions_list;
         show_sessions sessions;;
         say "--------------------------")
      (fun e => say_err (nl +:+ "Error listing sessions: " +:+ exn_str e)).

(** [list] *)
Definition list (self : AgentManager) (Q : api) : Run unit :=
  say "Listing available agent deployments...";;
  guarded
    (deployments ← ask EnginesList (engines_list Q);
     match deployments with
     | [] => say "No deployments found."
     | _ =>
         say (nl +:+ "--- Available Agents ---");;
         show_deployments 0 deployments;;
         say "------------------------"
     end)
    (fun e =>
       match e with
       | ApiError _ _ message _ =>
           status ← lift (e_code e);
           say_err (nl +:+ "Error listing agents: API call failed with status " +:+ status);;
           say_err ("Details: " +:+ message)
       | _ =>
           say_err (nl +:+ "An unexpected error occurred while listing agents: "
                    +:+ exn_str e)
       end).

End Console.

(** ** More sample worlds *)
Module Cases.
Import Json Deployment.

(** The sample platform with one answer changed. *)
Definition without_agent_package : platform :=
  {| vertexai_init := vertexai_init Sample.cloud;
     import_root_agent := inl (ImportError "No module named 'adk_short_bot'");
     adk_app := adk_app Sample.cloud;
     engines_create := engines_create Sample.cloud;
     engines_delete := engines_delete Sample.cloud;
     engines_get := engines_get Sample.cloud;
     stream_query := stream_query Sample.cloud |}.

Definition not_found : exn :=
  ApiError NotFound "404" "Agent not found." "404 Agent not found.".

Definition without_agent : platform :=
  {| vertexai_init := vertexai_init Sample.cloud;
     import_root_agent := import_root_agent Sample.cloud;
     adk_app := adk_app Sample.cloud;
     engines_create := engines_create Sample.cloud;
     engines_delete := engines_delete Sample.cloud;
     engines_get := fun _ => inl not_found;
     stream_query := stream_query Sample.cloud |}.

(** An API error of a class without a handler of its own, and a platform
    that refuses every lookup and deletion with it. *)
Definition forbidden : exn :=
  ApiError GoogleAPICallError "403" "Permission denied." "403 Permission denied.".

Definition without_permission : platform :=
  {| vertexai_init := vertexai_init Sample.cloud;
     import_root_agent := import_root_agent Sample.cloud;
     adk_app := adk_app Sample.cloud;
     engines_create := engines_create Sample.cloud;
     engines_delete := fun _ _ => inl forbidden;
     engines_get := fun _ => inl forbidden;
     stream_query := stream_query Sample.cloud |}.

(** A chunk holding one text part. *)
Definition text_chunk (text : string) : pyval :=
  PDict [(PStr "content", PDict [(PStr "parts", PList [PDict [(PStr "text", PStr text)]])])].

(** A stream whose second chunk cannot be serialized. *)
Definition broken_stream : stream :=
  {| chunks := [text_chunk "Hi"; PDict [(PStr "raw", PObject "bytes")]; text_chunk "there"];
     closing := None |}.

Definition with_broken_stream : platform :=
  {| vertexai_init := vertexai_init Sample.cloud;
     import_root_agent := import_root_agent Sample.cloud;
     adk_app := adk_app Sample.cloud;
     engines_create := engines_create Sample.cloud;
     engines_delete := engines_delete Sample.cloud;
     engines_get := engines_get Sample.cloud;
     stream_query := fun _ _ _ _ => inr broken_stream |}.

Definition text_stream : stream :=
  {| chunks := map text_chunk ["Short"; "er."]; closing := None |}.

Definition with_text_stream : platform :=
  {| vertexai_init := vertexai_init Sample.cloud;
     import_root_agent := import_root_agent Sample.cloud;
     adk_app := adk_app Sample.cloud;
     engines_create := engines_create Sample.cloud;
     engines_delete := engines_delete Sample.cloud;
     engines_get := engines_get Sample.cloud;
     stream_query := fun _ _ _ _ => inr text_stream |}.

(** Two deployments and the answers about sessions. *)
Definition two_deployments : list Console.deployment :=
  [ {| Console.name := "projects/demo-project/locations/us-central1/reasoningEngines/42";
       Console.display_name := "short-bot";
       Console.created := "2025-01-02 03:04:05" |};
    {| Console.name := "projects/demo-project/locations/us-central1/reasoningEngines/43";
       Console.display_name := "other-bot";
       Console.created := "2025-02-03 04:05:06" |} ].

Definition console : Console.api :=
  {| Console.engines_list := inr two_deployments;
     Console.agent_create_session := fun _ _ =>
       inr (PDict [(PStr "id", PStr "s-1"); (PStr "userId", PStr "default-user")]);
     Console.agent_list_sessions := fun _ _ =>
       inr (PDict [(PStr "sessions",
                    PList [PDict [(PStr "id", PStr "s-1")]; PDict [(PStr "id", PStr "s-2")]])]) |}.

Definition empty_console : Console.api :=
  {| Console.engines_list := inr [];
     Console.agent_create_session := fun _ _ => inr (PStr "s-1");
     Console.agent_list_sessions := fun _ _ => inr (PDict []) |}.

End Cases.

(** * Facts *)

(** ** Strings *)
Section StringFacts.

Lemma append_cons (c : ascii) (a b : string) :
  String c a +:+ b = String c (a +:+ b).
Proof. reflexivity. Qed.

Lemma append_empty_l (b : string) : EmptyString +:+ b = b.
Proof. reflexivity. Qed.

Lemma append_empty_r (a : string) : a +:+ EmptyString = a.
Proof. induction a as [|c a IH]; [reflexivity|]. rewrite append_cons, IH. reflexivity. Qed.

Lemma append_assoc (a b c : string) : (a +:+ b) +:+ c = a +:+ (b +:+ c).
Proof.
  induction a as [|x a IH]; [reflexivity|].
  rewrite !append_cons, IH. reflexivity.
Qed.

Lemma rev_app_append (a b acc : string) :
  String.rev_app (a +:+ b) acc = String.rev_app b (String.rev_app a acc).
Proof.
  revert acc. induction a as [|x a IH]; intros acc; [reflexivity|].
  rewrite append_cons. simpl. apply IH.
Qed.

Lemma rev_app_rev_app (s a b : string) :
  String.rev_app (String.rev_app s a) b = String.rev_app a (s +:+ b).
Proof.
  revert a b. induction s as [|x s IH]; intros a b; [reflexivity|].
  simpl. rewrite IH. reflexivity.
Qed.

Lemma rev_rev (s : string) : String.rev (String.rev s) = s.
Proof.
  unfold String.rev. rewrite rev_app_rev_app. simpl. apply append_empty_r.
Qed.

Lemma length_append (a b : string) :
  String.length (a +:+ b) = (String.length a + String.length b)%nat.
Proof.
  induction a as [|x a IH]; [reflexivity|].
  rewrite append_cons. simpl. rewrite IH. reflexivity.
Qed.

Lemma prefix_append (p rest : string) : String.prefix p (p +:+ rest) = true.
Proof.
  induction p as [|x p IH]; [destruct rest; reflexivity|].
  rewrite append_cons. simpl.
  destruct (ascii_dec x x) as [_|Hne]; [exact IH | contradiction].
Qed.

End StringFacts.

(** ** The operations of [str] *)
Section PyFacts.

Lemma contains_prefix (p s : string) :
  String.prefix p s = true -> Py.contains p s = true.
Proof. intros H. destruct s; cbn [Py.contains]; rewrite H; reflexivity. Qed.

Lemma contains_append (p rest : string) : Py.contains p (p +:+ rest) = true.
Proof. apply contains_prefix, prefix_append. Qed.

Lemma split_not_nil (sep : ascii) (s : string) : Py.split sep s <> [].
Proof.
  destruct s as [|c s]; simpl; [discriminate|].
  destruct (Ascii.eqb c sep); [discriminate|].
  destruct (Py.split sep s); discriminate.
Qed.

(** One more piece than separators. *)
Lemma split_length (sep : ascii) (s : string) :
  length (Py.split sep s) = S (Py.count_char sep s).
Proof.
  induction s as [|c s IH]; simpl; [reflexivity|].
  destruct (Ascii.eqb c sep); simpl.
  - rewrite IH. reflexivity.
  - destruct (Py.split sep s) as [|piece pieces] eqn:E; simpl in *; [discriminate|].
    exact IH.
Qed.

(** No piece holds the separator. *)
Lemma split_pieces_free (sep : ascii) (s : string) :
  Forall (fun piece => Py.count_char sep piece = O) (Py.split sep s).
Proof.
  induction s as [|c s IH]; simpl.
  - constructor; [reflexivity | constructor].
  - destruct (Ascii.eqb c sep) eqn:Ec.
    + constructor; [reflexivity | exact IH].
    + destruct (Py.split sep s) as [|piece pieces].
      * constructor; [simpl; rewrite Ec; reflexivity | constructor].
      * inversion IH as [|? ? Hp Hps]; subst.
        constructor; [simpl; rewrite Ec; exact Hp | exact Hps].
Qed.

Lemma count_char_append (c : ascii) (a b : string) :
  Py.count_char c (a +:+ b) = (Py.count_char c a + Py.count_char c b)%nat.
Proof.
  induction a as [|x a IH]; [reflexivity|].
  rewrite append_cons. simpl. rewrite IH. lia.
Qed.

Lemma count_char_rev_app (c : ascii) (s acc : string) :
  Py.count_char c (String.rev_app s acc)
  = (Py.count_char c s + Py.count_char c acc)%nat.
Proof.
  revert acc. induction s as [|x s IH]; intros acc; [reflexivity|].
  simpl. rewrite IH. simpl. lia.
Qed.

Lemma count_char_rev (c : ascii) (s : string) :
  Py.count_char c (String.rev s) = Py.count_char c s.
Proof. unfold String.rev. rewrite count_char_rev_app. simpl. lia. Qed.

Lemma count_char_lstrip (c : ascii) (s : string) :
  (Py.count_char c (Py.lstrip s) <= Py.count_char c s)%nat.
Proof.
  induction s as [|x s IH]; simpl; [lia|].
  destruct (Py.is_space x); simpl; lia.
Qed.

Lemma count_char_strip (c : ascii) (s : string) :
  (Py.count_char c (Py.strip s) <= Py.count_char c s)%nat.
Proof.
  unfold Py.strip, Py.rstrip.
  rewrite count_char_rev.
  etransitivity; [apply count_char_lstrip|].
  rewrite count_char_rev. apply count_char_lstrip.
Qed.

End PyFacts.

(** ** The deployment manager *)
Section DeploymentFacts.
Import Deployment.

Lemma required_vars_read_config (env : gmap string string) :
  required_vars (read_config env) = map (fun name => (name, env !! name)) required_names.
Proof. reflexivity. Qed.

Lemma missing_vars_not_nil (env : gmap string string) (name : string) :
  In name required_names ->
  falsy (env !! name) = true ->
  missing_vars (read_config env) <> [].
Proof.
  intros Hin Hfalsy Hnil.
  assert (Hkv : In (name, env !! name)
                   (List.filter (fun kv => falsy (snd kv)) (required_vars (read_config env)))).
  { apply filter_In. split; [|exact Hfalsy].
    rewrite required_vars_read_config.
    apply (in_map (fun n => (n, env !! n))), Hin. }
  apply (in_map fst) in Hkv. fold (missing_vars (read_config env)) in Hkv.
  rewrite Hnil in Hkv. exact Hkv.
Qed.

(** What [__init__] does when a required variable is missing. *)
Lemma init_missing (environ dotenv : gmap string string) (P : platform) (name : string) :
  In name required_names ->
  falsy ((environ ∪ dotenv) !! name) = true ->
  __init__ environ dotenv P
  = ([LoadDotenv;
      Print Stderr ("Error: Missing required environment variables: "
                    +:+ Py.join ", " (missing_vars (read_config (environ ∪ dotenv)))) nl],
     Exited 1).
Proof.
  intros Hin Hfalsy.
  pose proof (missing_vars_not_nil _ _ Hin Hfalsy) as Hne.
  unfold __init__.
  destruct (missing_vars (read_config (environ ∪ dotenv))) as [|v vs] eqn:E;
    [contradiction|].
  reflexivity.
Qed.

(** The manager [__init__] returns is the one read from the environment. *)
Lemma init_returns (environ dotenv : gmap string string) (P : platform)
    (self : AgentManager) :
  result_of (__init__ environ dotenv P) = Returned self ->
  self = read_config (environ ∪ dotenv).
Proof.
  unfold __init__.
  destruct (missing_vars (read_config (environ ∪ dotenv))) as [|v vs]; [|discriminate].
  unfold mbind, M_bind, try_except, call, bind, print, print_err, tell, raise, sys_exit.
  cbn.
  destruct (vertexai_init P _ _ _) as [e|[]]; cbn; [discriminate|].
  intros [= <-]. reflexivity.
Qed.

End DeploymentFacts.

(** ** Configuration and resource names *)
Section ConfigurationClaims.

(** C2: when a required configuration value (project, location, staging
    bucket, package name, display name) is unset or empty, the process
    prints the missing names on the error stream and exits with status 1;
    the only event before that is the reading of the [.env] file, so no
    call reaches the remote platform, whatever the command. *)
Theorem missing_configuration_exits_before_any_remote_call
    (environ dotenv : gmap string string) (P : Deployment.platform)
    (argv : list string) (cmd : Deployment.command) (name : string) :
  In name Deployment.required_names ->
  Deployment.falsy ((environ ∪ dotenv) !! name) = true ->
  Deployment.result_of (Deployment.main environ dotenv P argv cmd) = Deployment.Exited 1
  /\ forallb (fun e => negb (Deployment.is_remote_call e))
             (Deployment.trace (Deployment.main environ dotenv P argv cmd)) = true
  /\ exists message,
       Deployment.trace (Deployment.main environ dotenv P argv cmd)
       = [Deployment.LoadDotenv; Deployment.Print Deployment.Stderr message Deployment.nl].
Proof.
  intros Hin Hfalsy.
  unfold Deployment.main.
  rewrite (init_missing environ dotenv P name Hin Hfalsy).
  repeat split; eauto.
Qed.

End ConfigurationClaims.

Section ConfigurationExamples.

Lemma missing_configuration_witness :
  In "AGENT_DISPLAY_NAME" Deployment.required_names
  /\ Deployment.falsy ((Sample.environ_without_name ∪ ∅) !! "AGENT_DISPLAY_NAME") = true
  /\ Deployment.result_of
       (Deployment.main Sample.environ_without_name ∅ Sample.cloud
          ["remote.py"; "create"] Deployment.Create)
     = Deployment.Exited 1.
Proof.
  assert (Hin : In "AGENT_DISPLAY_NAME" Deployment.required_names)
    by (simpl; tauto).
  assert (Hfalsy : Deployment.falsy
                     ((Sample.environ_without_name ∪ ∅) !! "AGENT_DISPLAY_NAME") = true)
    by (vm_compute; reflexivity).
  split; [exact Hin|]. split; [exact Hfalsy|].
  exact (proj1 (missing_configuration_exits_before_any_remote_call
                  Sample.environ_without_name ∅ Sample.cloud
                  ["remote.py"; "create"] Deployment.Create
                  "AGENT_DISPLAY_NAME" Hin Hfalsy)).
Defined.

End ConfigurationExamples.

Section ResourceNameClaims.

(** C9: [_get_full_resource_name] is idempotent: applied to its own
    output it returns that output unchanged; and an engine id whose text
    contains "projects/" is returned as it is. *)
Theorem get_full_resource_name_idempotent
    (self : Deployment.AgentManager) (engine_id : Deployment.arg) :
  Deployment._get_full_resource_name self
    (Deployment.AStr (Deployment._get_full_resource_name self engine_id))
  = Deployment._get_full_resource_name self engine_id
  /\ (Py.contains "projects/" (Deployment.str engine_id) = true ->
      Deployment._get_full_resource_name self engine_id = Deployment.str engine_id).
Proof.
  unfold Deployment._get_full_resource_name.
  destruct (Py.contains "projects/" (Deployment.str engine_id)) eqn:E.
  - cbn [Deployment.str]. rewrite E. split; reflexivity.
  - cbn [Deployment.str]. rewrite contains_append. split; [reflexivity | discriminate].
Qed.

Lemma get_full_resource_name_witness :
  Py.contains "projects/"
    (Deployment.str (Deployment.AStr "projects/p/locations/l/reasoningEngines/7")) = true
  /\ Deployment._get_full_resource_name Sample.manager
       (Deployment.AStr "projects/p/locations/l/reasoningEngines/7")
     = "projects/p/locations/l/reasoningEngines/7"
  /\ Deployment._get_full_resource_name Sample.manager
       (Deployment.AStr (Deployment._get_full_resource_name Sample.manager (Deployment.AInt 7)))
     = "projects/demo-project/locations/us-central1/reasoningEngines/7".
Proof.
  assert (H : Py.contains "projects/"
                (Deployment.str (Deployment.AStr "projects/p/locations/l/reasoningEngines/7"))
              = true) by reflexivity.
  split; [exact H|]. split.
  - exact (proj2 (get_full_resource_name_idempotent Sample.manager
                    (Deployment.AStr "projects/p/locations/l/reasoningEngines/7")) H).
  - rewrite (proj1 (get_full_resource_name_idempotent Sample.manager (Deployment.AInt 7))).
    reflexivity.
Defined.

End ResourceNameClaims.

Section DeleteClaims.

(** C10: a delete whose engine id is falsy (the empty text, or the
    number 0) prints "Error: engine_id is required." on the error stream
    and returns; nothing else happens, so no remote call is made and no
    deletion is attempted. *)
Theorem delete_requires_engine_id
    (self : Deployment.AgentManager) (P : Deployment.platform) (argv : list string)
    (engine_id : Deployment.arg) (force : bool) :
  Deployment.arg_truthy engine_id = false ->
  Deployment.delete self P argv engine_id force
  = ([Deployment.Print Deployment.Stderr "Error: engine_id is required." Deployment.nl],
     Deployment.Returned tt)
  /\ forallb (fun e => negb (Deployment.is_remote_call e))
             (Deployment.trace (Deployment.delete self P argv engine_id force)) = true.
Proof.
  intros Hfalsy. unfold Deployment.delete. rewrite Hfalsy.
  split; reflexivity.
Qed.

Lemma delete_requires_engine_id_witness :
  Deployment.arg_truthy (Deployment.AStr "") = false
  /\ Deployment.delete Sample.manager Sample.cloud ["remote.py"; "delete"; ""]
       (Deployment.AStr "") true
     = ([Deployment.Print Deployment.Stderr "Error: engine_id is required." Deployment.nl],
        Deployment.Returned tt).
Proof.
  split; [reflexivity|].
  exact (proj1 (delete_requires_engine_id Sample.manager Sample.cloud
                  ["remote.py"; "delete"; ""] (Deployment.AStr "") true eq_refl)).
Defined.

(** C3: a delete with [force=false] whose removal the platform refuses
    with a precondition-failed error makes that one call and then
    reports on the error stream: that the agent cannot be deleted
    because it has sessions or child resources, that the force flag is
    needed, and an example command, the command line as typed without
    any [--force...] argument and with [--force=True] added. It prints
    no success message and returns normally. *)
Theorem delete_reports_failed_precondition
    (self : Deployment.AgentManager) (P : Deployment.platform) (argv : list string)
    (engine_id : Deployment.arg) (code message text : string) :
  Deployment.arg_truthy engine_id = true ->
  Deployment.engines_delete P (Deployment._get_full_resource_name self engine_id) false
  = inl (Deployment.ApiError Deployment.FailedPrecondition code message text) ->
  Deployment.delete self P argv engine_id false
  = ([ Deployment.Print Deployment.Stdout
         ("Deleting agent: " +:+ Deployment._get_full_resource_name self engine_id +:+ "...")
         Deployment.nl;
       Deployment.EnginesDelete (Deployment._get_full_resource_name self engine_id) false;
       Deployment.Print Deployment.Stderr
         (Deployment.nl +:+ "Error: Agent '" +:+ Deployment.str engine_id
          +:+ "' cannot be deleted because it has existing sessions or other child resources.")
         Deployment.nl;
       Deployment.Print Deployment.Stderr
         "To proceed, you must delete the agent and all its resources by using the --force flag."
         Deployment.nl;
       Deployment.Print Deployment.Stderr (Deployment.nl +:+ "Example command:")
         Deployment.nl;
       Deployment.Print Deployment.Stderr
         ("   " +:+ Py.join " " (List.filter (fun a => negb (Py.startswith "--force" a)) argv)
          +:+ " --force=True")
         Deployment.nl ],
     Deployment.Returned tt).
Proof.
  intros Htruthy Hrefused.
  unfold Deployment.delete. rewrite Htruthy. cbn [negb]. cbv zeta.
  unfold Deployment.call. rewrite Hrefused.
  reflexivity.
Qed.

Lemma delete_reports_failed_precondition_witness :
  Deployment.arg_truthy (Deployment.AInt 42) = true
  /\ Deployment.engines_delete Sample.cloud
       (Deployment._get_full_resource_name Sample.manager (Deployment.AInt 42)) false
     = inl (Deployment.ApiError Deployment.FailedPrecondition "412"
              "The agent has sessions." "412 The agent has sessions.")
  /\ Deployment.trace
       (Deployment.delete Sample.manager Sample.cloud
          ["remote.py"; "delete"; "42"; "--force=False"] (Deployment.AInt 42) false)
     = [ Deployment.Print Deployment.Stdout
           "Deleting agent: projects/demo-project/locations/us-central1/reasoningEngines/42..."
           Deployment.nl;
         Deployment.EnginesDelete
           "projects/demo-project/locations/us-central1/reasoningEngines/42" false;
         Deployment.Print Deployment.Stderr
           (Deployment.nl +:+ "Error: Agent '42' cannot be deleted because it has existing sessions or other child resources.")
           Deployment.nl;
         Deployment.Print Deployment.Stderr
           "To proceed, you must delete the agent and all its resources by using the --force flag."
           Deployment.nl;
         Deployment.Print Deployment.Stderr (Deployment.nl +:+ "Example command:")
           Deployment.nl;
         Deployment.Print Deployment.Stderr "   remote.py delete 42 --force=True"
           Deployment.nl ].
Proof.
  split; [reflexivity|]. split; [reflexivity|].
  rewrite (delete_reports_failed_precondition Sample.manager Sample.cloud
             ["remote.py"; "delete"; "42"; "--force=False"] (Deployment.AInt 42)
             "412" "The agent has sessions." "412 The agent has sessions."
             eq_refl eq_refl).
  reflexivity.
Defined.

End DeleteClaims.

Section CreateClaims.

Lemma agent_display_name_is_not_a_global :
  Deployment.module_globals !! "AGENT_DISPLAY_NAME" = None.
Proof. vm_compute. reflexivity. Qed.

(** C1: what [create] does instead. It reads the global name
    AGENT_DISPLAY_NAME, which the module never binds (the configured
    values are attributes of the manager): once the agent is imported
    and packaged, the run ends in the handler for unexpected errors with
    the message of a [NameError]; and on every platform and for every
    manager, the run of [create] holds no call to the remote platform,
    so nothing is submitted and no resource name or engine id is
    reported. *)
Theorem create_never_submits
    (self : Deployment.AgentManager) (P : Deployment.platform) :
  forallb (fun e => negb (Deployment.is_remote_call e))
          (Deployment.trace (Deployment.create self P)) = true
  /\ (Deployment.import_root_agent P = inr tt ->
      Deployment.adk_app P = inr tt ->
      Deployment.create self P
      = ([ Deployment.ImportRootAgent;
           Deployment.Print Deployment.Stdout "Packaging agent..." Deployment.nl;
           Deployment.AdkApp;
           Deployment.Print Deployment.Stdout "Deploying agent to Vertex AI..." Deployment.nl;
           Deployment.Print Deployment.Stderr
             (Deployment.nl +:+ "An unexpected error occurred during deployment: "
              +:+ "name 'AGENT_DISPLAY_NAME' is not defined")
             Deployment.nl ],
         Deployment.Returned tt)).
Proof.
  unfold Deployment.create, Deployment.load_global.
  rewrite agent_display_name_is_not_a_global.
  split.
  - destruct (Deployment.import_root_agent P) as [e|[]];
      [destruct e|]; try reflexivity.
    destruct (Deployment.adk_app P) as [e|[]]; reflexivity.
  - intros -> ->. reflexivity.
Qed.

Lemma create_never_submits_witness :
  Deployment.import_root_agent Sample.cloud = inr tt
  /\ Deployment.adk_app Sample.cloud = inr tt
  /\ Deployment.result_of (Deployment.create Sample.manager Sample.cloud)
     = Deployment.Returned tt.
Proof.
  split; [reflexivity|]. split; [reflexivity|].
  rewrite (proj2 (create_never_submits Sample.manager Sample.cloud) eq_refl eq_refl).
  reflexivity.
Defined.

End CreateClaims.

(** ** The reader *)
Section ReaderFacts.
Import Json Reader.

Lemma final_append (st : state) (a b : string) :
  final st (a +:+ b) = final (final st a) b.
Proof.
  revert st. induction a as [|c a IH]; intros st; [reflexivity|].
  rewrite append_cons. simpl. apply IH.
Qed.

Lemma literals_append (st : state) (a b : string) :
  literals st (a +:+ b) = literals st a ++ literals (final st a) b.
Proof.
  revert st. induction a as [|c a IH]; intros st; [reflexivity|].
  rewrite append_cons. simpl. rewrite IH, app_assoc. reflexivity.
Qed.

Lemma one_line_append (a b : string) :
  one_line (a +:+ b) = one_line a && one_line b.
Proof.
  induction a as [|c a IH]; [reflexivity|].
  rewrite append_cons. simpl. rewrite IH, andb_assoc. reflexivity.
Qed.

Lemma one_line_steady (s : string) : one_line s = true -> steady s.
Proof.
  unfold steady. induction s as [|c s IH]; simpl; [intros _; split; reflexivity|].
  intros [Hc Hs]%andb_prop. apply negb_true_iff in Hc. rewrite Hc. auto.
Qed.

Lemma quiet_steady (s : string) : quiet s -> steady s.
Proof. intros H. apply (H InBody). reflexivity. Qed.

Lemma token_quiet (s : string) : token s = true -> quiet s.
Proof.
  destruct s as [|c s]; [discriminate|].
  unfold token. simpl one_line.
  intros [Hsp [Hnl Hs]%andb_prop]%andb_prop st Hst.
  apply negb_true_iff in Hsp, Hnl.
  destruct (one_line_steady s Hs) as [Hf Hl].
  destruct st as [n| | |]; try discriminate; simpl in *.
  - rewrite Hsp, Hnl.
    apply negb_true_iff in Hst. rewrite Hst, andb_false_r. auto.
  - rewrite Hnl. auto.
Qed.

Lemma steady_append (a b : string) : steady a -> steady b -> steady (a +:+ b).
Proof.
  unfold steady. intros [Ha1 Ha2] [Hb1 Hb2].
  rewrite final_append, literals_append, Ha1, Ha2, Hb1, Hb2. auto.
Qed.

Lemma quiet_append (a b : string) : quiet a -> steady b -> quiet (a +:+ b).
Proof.
  intros Ha [Hb1 Hb2] st Hst. destruct (Ha st Hst) as [Ha1 Ha2].
  rewrite final_append, literals_append, Ha1, Ha2, Hb1, Hb2. auto.
Qed.

Lemma spaces_run (n m : nat) :
  final (LineStart n) (Py.spaces m) = LineStart (n + m)
  /\ literals (LineStart n) (Py.spaces m) = [].
Proof.
  revert n. induction m as [|m IH]; intros n; simpl.
  - rewrite Nat.add_0_r. auto.
  - destruct (IH (S n)) as [H1 H2]. rewrite H1, H2.
    rewrite Nat.add_succ_r. auto.
Qed.

Lemma newline_indent_run (indent level : nat) :
  final InBody (newline_indent indent level) = LineStart (indent * level)
  /\ literals InBody (newline_indent indent level) = [].
Proof.
  unfold newline_indent. simpl.
  apply (spaces_run 0 (indent * level)).
Qed.

End ReaderFacts.

(** ** String literals *)
Section LiteralFacts.
Import Json Reader.

(** An escaped character holds no line break. *)
Lemma escape_char_one_line (c : ascii) : one_line (escape_char c) = true.
Proof. destruct c as [[] [] [] [] [] [] [] []]; reflexivity. Qed.

(** Inside a literal the reader takes an escaped character whole. *)
Lemma escape_char_in_key (c : ascii) (acc : string) :
  final (InKey acc) (escape_char c) = InKey (String.rev_app (escape_char c) acc)
  /\ literals (InKey acc) (escape_char c) = [].
Proof. destruct c as [[] [] [] [] [] [] [] []]; split; reflexivity. Qed.

(** An escaped character stands for the character. *)
Lemma unescape_escape_char (c : ascii) (rest : string) :
  unescape (escape_char c +:+ rest) = String c (unescape rest).
Proof. destruct c as [[] [] [] [] [] [] [] []]; reflexivity. Qed.

Lemma escape_body_one_line (s : string) : one_line (escape_body s) = true.
Proof.
  induction s as [|c s IH]; [reflexivity|].
  simpl. rewrite one_line_append, escape_char_one_line, IH. reflexivity.
Qed.

Lemma escape_body_in_key (s acc : string) :
  final (InKey acc) (escape_body s) = InKey (String.rev_app (escape_body s) acc)
  /\ literals (InKey acc) (escape_body s) = [].
Proof.
  revert acc. induction s as [|c s IH]; intros acc; [split; reflexivity|].
  simpl. destruct (escape_char_in_key c acc) as [Hc1 Hc2].
  destruct (IH (String.rev_app (escape_char c) acc)) as [Hs1 Hs2].
  rewrite final_append, literals_append, Hc1, Hc2, Hs1, Hs2, rev_app_append.
  auto.
Qed.

(** Unescaping undoes escaping. *)
Lemma unescape_escape_body (s : string) : unescape (escape_body s) = s.
Proof.
  induction s as [|c s IH]; [reflexivity|].
  simpl. rewrite unescape_escape_char, IH. reflexivity.
Qed.

Lemma literal_token (s : string) : token (encode_basestring_ascii s) = true.
Proof.
  unfold encode_basestring_ascii, token. simpl.
  rewrite one_line_append, escape_body_one_line. reflexivity.
Qed.

(** At four spaces the reader collects the literal. *)
Lemma literal_at_four (k : string) :
  final (LineStart 4) (encode_basestring_ascii k) = InBody
  /\ literals (LineStart 4) (encode_basestring_ascii k) = [escape_body k].
Proof.
  unfold encode_basestring_ascii. simpl.
  destruct (escape_body_in_key k EmptyString) as [H1 H2].
  rewrite final_append, literals_append, H1, H2. simpl.
  split; [reflexivity|].
  fold (String.rev (escape_body k)). rewrite rev_rev. reflexivity.
Qed.

Lemma uint_one_line (d : Decimal.uint) :
  one_line (NilEmpty.string_of_uint d) = true.
Proof. induction d; simpl; auto. Qed.

Lemma str_of_int_token (n : Z) : token (Py.str_of_int n) = true.
Proof.
  unfold Py.str_of_int, NilZero.string_of_int, NilZero.string_of_uint.
  destruct (Z.to_int n) as [d|d]; destruct d; simpl;
    rewrite ?uint_one_line; reflexivity.
Qed.

End LiteralFacts.

(** ** The encoder *)
Section EncoderFacts.
Import Json Reader.

(** Induction over objects, with the property at hand for every item of
    a list and every value of a dictionary. *)
Lemma pyval_nested_ind (P : pyval -> Prop) :
  P PNone ->
  (forall b, P (PBool b)) ->
  (forall n, P (PInt n)) ->
  (forall s, P (PStr s)) ->
  (forall items, Forall P items -> P (PList items)) ->
  (forall items, Forall (fun kv => P (snd kv)) items -> P (PDict items)) ->
  (forall type_name, P (PObject type_name)) ->
  forall o, P o.
Proof.
  intros HNone HBool HInt HStr HList HDict HObject.
  fix self 1. intros [ |b|n|s|items|items|type_name].
  - exact HNone.
  - apply HBool.
  - apply HInt.
  - apply HStr.
  - apply HList. induction items as [|o items IH]; constructor; [apply self | exact IH].
  - apply HDict. induction items as [|[k v] items IH]; constructor; [apply self | exact IH].
  - apply HObject.
Qed.

(** The loop gives a text when every item has one. *)
Lemma encode_items_total {A : Type} (enc : A -> result) (nli : string)
    (first : bool) (l : list A) :
  Forall (fun x => exists s, enc x = Encoded s) l ->
  exists body, encode_items enc nli first l = Encoded body.
Proof.
  revert first. induction l as [|x l IH]; intros first Hl; simpl; [eauto|].
  inversion Hl as [|? ? [s Hs] Hl']; subst.
  rewrite Hs. destruct (IH false Hl') as [rest ->]. eauto.
Qed.

(** The encoder has a text for every serializable object. *)
Lemma iterencode_total (indent : nat) (o : pyval) :
  forall level, serializable o = true -> exists s, iterencode indent level o = Encoded s.
Proof.
  induction o as [ |b|n|s|items IH|items IH|type_name] using pyval_nested_ind;
    intros level Hser.
  - simpl; eauto.
  - destruct b; simpl; eauto.
  - simpl; eauto.
  - simpl; eauto.
  - destruct items as [|o items]; [simpl; eauto|].
    assert (Hall : Forall (fun x => exists s, iterencode indent (S level) x = Encoded s)
                          (o :: items)).
    { change (forallb serializable (o :: items) = true) in Hser.
      rewrite forallb_forall in Hser.
      apply List.Forall_forall. intros x Hx.
      rewrite List.Forall_forall in IH. apply (IH x Hx). apply Hser. exact Hx. }
    destruct (encode_items_total _ (newline_indent indent (S level)) true _ Hall)
      as [body Hbody].
    cbn [iterencode]. rewrite Hbody. eauto.
  - destruct items as [|kv items]; [simpl; eauto|].
    assert (Hall : Forall (fun kv => exists s,
                             match kv with
                             | (key, value) =>
                                 encode_member key (iterencode indent (S level) value)
                             end = Encoded s) (kv :: items)).
    { change (forallb (fun kv => match kv with
                                 | (key, value) => bool_decide (is_Some (key_text key))
                                                   && serializable value
                                 end) (kv :: items) = true) in Hser.
      rewrite forallb_forall in Hser.
      apply List.Forall_forall. intros [k v] Hx.
      rewrite List.Forall_forall in IH.
      specialize (Hser (k, v) Hx). cbn beta iota in Hser.
      apply andb_prop in Hser as [Hk Hv].
      apply bool_decide_eq_true in Hk. destruct Hk as [kt Hkt].
      destruct (IH (k, v) Hx (S level) Hv) as [chunk Hchunk]. cbn [snd] in Hchunk.
      unfold encode_member. rewrite Hkt, Hchunk. eauto. }
    destruct (encode_items_total _ (newline_indent indent (S level)) true _ Hall)
      as [body Hbody].
    cbn [iterencode]. rewrite Hbody. eauto.
  - discriminate.
Qed.

End EncoderFacts.

(** ** What the reader sees in an encoded object *)
Section NestingFacts.
Import Json Reader.

(** Below the outermost level a line starts with eight spaces or more,
    or with four spaces and a closing bracket. *)
Lemma deeper_indent_calm (level : nat) : calm (LineStart (4 * S (S level))) = true.
Proof.
  unfold calm. apply negb_true_iff, Nat.eqb_neq. lia.
Qed.

Lemma separator_run (first : bool) (level : nat) :
  final InBody (if first then newline_indent 4 level
                else String "," (newline_indent 4 level)) = LineStart (4 * level)
  /\ literals InBody (if first then newline_indent 4 level
                      else String "," (newline_indent 4 level)) = [].
Proof. destruct first; apply (newline_indent_run 4 level). Qed.

(** The items of a nested list or dictionary pass unnoticed. *)
Lemma nested_items_steady {A : Type} (enc : A -> result) (level : nat)
    (first : bool) (l : list A) (body : string) :
  Forall (fun x => forall s, enc x = Encoded s -> quiet s) l ->
  encode_items enc (newline_indent 4 (S (S level))) first l = Encoded body ->
  steady body.
Proof.
  revert first body. induction l as [|x l IH]; intros first body Hl; simpl.
  - intros [= <-]. split; reflexivity.
  - inversion Hl as [|? ? Hx Hl']; subst.
    destruct (enc x) as [chunk|] eqn:Ex; [|discriminate].
    destruct (encode_items enc _ false l) as [rest|] eqn:Er; [|discriminate].
    intros [= <-].
    destruct (separator_run first (S (S level))) as [Hs1 Hs2].
    destruct (Hx chunk eq_refl _ (deeper_indent_calm level)) as [Hc1 Hc2].
    destruct (IH false rest Hl' Er) as [Hr1 Hr2].
    unfold steady.
    rewrite !final_append, !literals_append, Hs1, Hs2, Hc1, Hc2, Hr1, Hr2.
    auto.
Qed.

(** A container of a nested level, given that its items pass unnoticed. *)
Lemma container_quiet (open close : ascii) (level : nat) (body : string) :
  Ascii.eqb open " " = false -> Ascii.eqb open newline = false ->
  Ascii.eqb open dquote = false ->
  Ascii.eqb close " " = false -> Ascii.eqb close newline = false ->
  Ascii.eqb close dquote = false ->
  steady body ->
  quiet (String open (body +:+ newline_indent 4 (S level) +:+ String close EmptyString)).
Proof.
  intros Ho1 Ho2 Ho3 Hc1 Hc2 Hc3 [Hb1 Hb2] st Hst.
  assert (Hopen : next st open = InBody /\ emit st open = []).
  { destruct st as [n| | |]; try discriminate; simpl.
    - rewrite Ho1, Ho2, Ho3. auto.
    - rewrite Ho2. auto. }
  destruct Hopen as [Hn He].
  destruct (newline_indent_run 4 (S level)) as [Hi1 Hi2].
  simpl. rewrite Hn, He.
  rewrite !final_append, !literals_append, Hb1, Hb2, Hi1, Hi2.
  simpl. rewrite Hc1, Hc2, Hc3. auto.
Qed.

(** One member of a nested dictionary. *)
Lemma nested_member_quiet (key : pyval) (value : result) (s : string) :
  (forall chunk, value = Encoded chunk -> quiet chunk) ->
  encode_member key value = Encoded s -> quiet s.
Proof.
  intros Hvalue. unfold encode_member.
  destruct (key_text key) as [k|]; [|discriminate].
  destruct value as [chunk|]; [|discriminate].
  intros [= <-].
  apply quiet_append; [apply token_quiet, literal_token|].
  apply steady_append; [apply one_line_steady; reflexivity|].
  apply quiet_steady, Hvalue. reflexivity.
Qed.

(** Inside the outermost object the reader collects nothing: every
    value passes unnoticed. *)
Lemma iterencode_quiet (o : pyval) :
  forall level s, iterencode 4 (S level) o = Encoded s -> quiet s.
Proof.
  induction o as [ |b|n|str|items IH|items IH|type_name] using pyval_nested_ind;
    intros level s.
  - intros [= <-]. apply token_quiet. reflexivity.
  - destruct b; intros [= <-]; apply token_quiet; reflexivity.
  - intros [= <-]. apply token_quiet, str_of_int_token.
  - intros [= <-]. apply token_quiet, literal_token.
  - destruct items as [|o items]; [intros [= <-]; apply token_quiet; reflexivity|].
    cbn [iterencode].
    destruct (encode_items _ _ true (o :: items)) as [body|] eqn:Eb; [|discriminate].
    intros [= <-].
    apply container_quiet; try reflexivity.
    eapply nested_items_steady; [|exact Eb].
    eapply List.Forall_impl; [|exact IH].
    intros x Hx chunk. apply Hx.
  - destruct items as [|kv items]; [intros [= <-]; apply token_quiet; reflexivity|].
    cbn [iterencode].
    destruct (encode_items _ _ true (kv :: items)) as [body|] eqn:Eb; [|discriminate].
    intros [= <-].
    apply container_quiet; try reflexivity.
    eapply nested_items_steady; [|exact Eb].
    eapply List.Forall_impl; [|exact IH].
    intros [k v] Hv chunk. cbn [snd] in Hv.
    apply nested_member_quiet. intros c. apply Hv.
  - discriminate.
Qed.

End NestingFacts.

(** ** The characters of an encoded object *)
Section AsciiFacts.
Import Json Reader.

Lemma ascii_only_append (a b : string) :
  ascii_only (a +:+ b) = ascii_only a && ascii_only b.
Proof.
  induction a as [|c a IH]; [reflexivity|].
  rewrite append_cons. simpl. rewrite IH, andb_assoc. reflexivity.
Qed.

Lemma escape_char_ascii (c : ascii) : ascii_only (escape_char c) = true.
Proof. destruct c as [[] [] [] [] [] [] [] []]; reflexivity. Qed.

Lemma escape_body_ascii (s : string) : ascii_only (escape_body s) = true.
Proof.
  induction s as [|c s IH]; [reflexivity|].
  simpl. rewrite ascii_only_append, escape_char_ascii, IH. reflexivity.
Qed.

Lemma literal_ascii (s : string) : ascii_only (encode_basestring_ascii s) = true.
Proof.
  unfold encode_basestring_ascii. simpl.
  rewrite ascii_only_append, escape_body_ascii. reflexivity.
Qed.

Lemma newline_indent_ascii (indent level : nat) :
  ascii_only (newline_indent indent level) = true.
Proof.
  unfold newline_indent. simpl.
  induction (indent * level)%nat as [|n IH]; [reflexivity | exact IH].
Qed.

Lemma uint_ascii (d : Decimal.uint) : ascii_only (NilEmpty.string_of_uint d) = true.
Proof. induction d; simpl; auto. Qed.

Lemma str_of_int_ascii (n : Z) : ascii_only (Py.str_of_int n) = true.
Proof.
  unfold Py.str_of_int, NilZero.string_of_int, NilZero.string_of_uint.
  destruct (Z.to_int n) as [d|d]; destruct d; simpl;
    rewrite ?uint_ascii; reflexivity.
Qed.

Lemma encode_items_ascii {A : Type} (enc : A -> result) (nli : string)
    (first : bool) (l : list A) (body : string) :
  ascii_only nli = true ->
  Forall (fun x => forall s, enc x = Encoded s -> ascii_only s = true) l ->
  encode_items enc nli first l = Encoded body ->
  ascii_only body = true.
Proof.
  intros Hnli. revert first body.
  induction l as [|x l IH]; intros first body Hl; simpl.
  - intros [= <-]. reflexivity.
  - inversion Hl as [|? ? Hx Hl']; subst.
    destruct (enc x) as [chunk|] eqn:Ex; [|discriminate].
    destruct (encode_items enc nli false l) as [rest|] eqn:Er; [|discriminate].
    intros [= <-].
    rewrite !ascii_only_append, (Hx chunk eq_refl), (IH false rest Hl' Er).
    destruct first; simpl; rewrite Hnli; reflexivity.
Qed.

Lemma member_ascii (key : pyval) (value : result) (s : string) :
  (forall chunk, value = Encoded chunk -> ascii_only chunk = true) ->
  encode_member key value = Encoded s -> ascii_only s = true.
Proof.
  intros Hvalue. unfold encode_member.
  destruct (key_text key) as [k|]; [|discriminate].
  destruct value as [chunk|]; [|discriminate].
  intros [= <-].
  rewrite !ascii_only_append, literal_ascii, (Hvalue chunk eq_refl). reflexivity.
Qed.

(** With [ensure_ascii] the encoder writes ASCII only. *)
Lemma iterencode_ascii (indent : nat) (o : pyval) :
  forall level s, iterencode indent level o = Encoded s -> ascii_only s = true.
Proof.
  induction o as [ |b|n|str|items IH|items IH|type_name] using pyval_nested_ind;
    intros level s.
  - intros [= <-]. reflexivity.
  - destruct b; intros [= <-]; reflexivity.
  - intros [= <-]. apply str_of_int_ascii.
  - intros [= <-]. apply literal_ascii.
  - destruct items as [|o items]; [intros [= <-]; reflexivity|].
    cbn [iterencode].
    destruct (encode_items _ _ true (o :: items)) as [body|] eqn:Eb; [|discriminate].
    intros [= <-]. simpl.
    rewrite !ascii_only_append, newline_indent_ascii, andb_true_r.
    eapply encode_items_ascii; [apply newline_indent_ascii| |exact Eb].
    eapply List.Forall_impl; [|exact IH].
    intros x Hx chunk. apply Hx.
  - destruct items as [|kv items]; [intros [= <-]; reflexivity|].
    cbn [iterencode].
    destruct (encode_items _ _ true (kv :: items)) as [body|] eqn:Eb; [|discriminate].
    intros [= <-]. simpl.
    rewrite !ascii_only_append, newline_indent_ascii, andb_true_r.
    eapply encode_items_ascii; [apply newline_indent_ascii| |exact Eb].
    eapply List.Forall_impl; [|exact IH].
    intros [k v] Hv chunk. cbn [snd] in Hv.
    apply member_ascii. intros c. apply Hv.
  - discriminate.
Qed.

End AsciiFacts.

(** ** The layout of an encoded object *)
Section LayoutFacts.
Import Json Reader.

Lemma column_final_append (col : column) (a b : string) :
  column_final col (a +:+ b) = column_final (column_final col a) b.
Proof.
  revert col. induction a as [|c a IH]; intros col; [reflexivity|].
  rewrite append_cons. simpl. apply IH.
Qed.

Lemma indented_append (indent : nat) (col : column) (a b : string) :
  indented indent col (a +:+ b)
  = indented indent col a && indented indent (column_final col a) b.
Proof.
  revert col. induction a as [|c a IH]; intros col; [reflexivity|].
  rewrite append_cons. simpl. rewrite IH, andb_assoc. reflexivity.
Qed.

Lemma one_line_inside (s : string) : one_line s = true -> inside s.
Proof.
  unfold inside. induction s as [|c s IH]; simpl; [auto|].
  intros [Hc Hs]%andb_prop. apply negb_true_iff in Hc.
  unfold column_next. rewrite Hc. auto.
Qed.

Lemma grid_ok (k : nat) : Nat.eqb ((4 * k) mod 4) 0 = true.
Proof. apply Nat.eqb_eq. rewrite Nat.mul_comm. apply Nat.Div0.mod_mul. Qed.

Lemma token_aligned (s : string) : token s = true -> aligned s.
Proof.
  destruct s as [|c s]; [discriminate|].
  unfold token. simpl one_line.
  intros [Hsp [Hnl Hs]%andb_prop]%andb_prop col Hcol.
  apply negb_true_iff in Hsp, Hnl.
  destruct (one_line_inside s Hs) as [Hi Hf].
  cbn [indented column_final].
  destruct Hcol as [->|[k ->]]; unfold column_next, column_ok; rewrite Hnl.
  - rewrite Hi, Hf. auto.
  - rewrite Hsp, grid_ok, Hi, Hf. auto.
Qed.

Lemma aligned_inside (s : string) : aligned s -> inside s.
Proof. intros H. apply (H Inside). left. reflexivity. Qed.

Lemma inside_append (a b : string) : inside a -> inside b -> inside (a +:+ b).
Proof.
  unfold inside. intros [Ha1 Ha2] [Hb1 Hb2].
  rewrite indented_append, column_final_append, Ha1, Ha2, Hb1, Hb2. auto.
Qed.

Lemma aligned_append (a b : string) : aligned a -> inside b -> aligned (a +:+ b).
Proof.
  intros Ha [Hb1 Hb2] col Hcol. destruct (Ha col Hcol) as [Ha1 Ha2].
  rewrite indented_append, column_final_append, Ha1, Ha2, Hb1, Hb2. auto.
Qed.

Lemma spaces_column (indent n m : nat) :
  indented indent (AtStart n) (Py.spaces m) = true
  /\ column_final (AtStart n) (Py.spaces m) = AtStart (n + m).
Proof.
  revert n. induction m as [|m IH]; intros n; simpl.
  - rewrite Nat.add_0_r. auto.
  - destruct (IH (S n)) as [H1 H2]. unfold column_next. simpl.
    rewrite H1, H2, Nat.add_succ_r. auto.
Qed.

Lemma newline_indent_column (level : nat) :
  indented 4 Inside (newline_indent 4 level) = true
  /\ column_final Inside (newline_indent 4 level) = AtStart (4 * level).
Proof.
  unfold newline_indent. simpl. unfold column_next. simpl.
  apply (spaces_column 4 0 (4 * level)).
Qed.

Lemma separator_column (first : bool) (level : nat) :
  indented 4 Inside (if first then newline_indent 4 level
                     else String "," (newline_indent 4 level)) = true
  /\ column_final Inside (if first then newline_indent 4 level
                          else String "," (newline_indent 4 level)) = AtStart (4 * level).
Proof. destruct first; apply (newline_indent_column level). Qed.

Lemma items_inside {A : Type} (enc : A -> result) (level : nat)
    (first : bool) (l : list A) (body : string) :
  Forall (fun x => forall s, enc x = Encoded s -> aligned s) l ->
  encode_items enc (newline_indent 4 level) first l = Encoded body ->
  inside body.
Proof.
  revert first body. induction l as [|x l IH]; intros first body Hl; simpl.
  - intros [= <-]. split; reflexivity.
  - inversion Hl as [|? ? Hx Hl']; subst.
    destruct (enc x) as [chunk|] eqn:Ex; [|discriminate].
    destruct (encode_items enc _ false l) as [rest|] eqn:Er; [|discriminate].
    intros [= <-].
    destruct (separator_column first level) as [Hs1 Hs2].
    assert (Hgrid : on_grid (AtStart (4 * level))) by (right; eauto).
    destruct (Hx chunk eq_refl _ Hgrid) as [Hc1 Hc2].
    destruct (IH false rest Hl' Er) as [Hr1 Hr2].
    unfold inside.
    rewrite !indented_append, !column_final_append, Hs1, Hs2, Hc1, Hc2, Hr1, Hr2.
    auto.
Qed.

Lemma container_aligned (open close : ascii) (level : nat) (body : string) :
  Ascii.eqb open " " = false -> Ascii.eqb open newline = false ->
  Ascii.eqb close " " = false -> Ascii.eqb close newline = false ->
  inside body ->
  aligned (String open (body +:+ newline_indent 4 level +:+ String close EmptyString)).
Proof.
  intros Ho1 Ho2 Hc1 Hc2 [Hb1 Hb2] col Hcol.
  destruct (newline_indent_column level) as [Hi1 Hi2].
  assert (Hopen : column_ok 4 col open = true /\ column_next col open = Inside).
  { destruct Hcol as [->|[k ->]]; unfold column_next, column_ok; rewrite Ho2; [auto|].
    rewrite Ho1, grid_ok. auto. }
  destruct Hopen as [Hok Hnext].
  cbn [indented column_final]. rewrite Hok, Hnext.
  rewrite !indented_append, !column_final_append, Hb1, Hb2, Hi1, Hi2.
  cbn [indented column_final]. unfold column_next, column_ok.
  rewrite Hc1, Hc2, grid_ok. auto.
Qed.

Lemma member_aligned (key : pyval) (value : result) (s : string) :
  (forall chunk, value = Encoded chunk -> aligned chunk) ->
  encode_member key value = Encoded s -> aligned s.
Proof.
  intros Hvalue. unfold encode_member.
  destruct (key_text key) as [k|]; [|discriminate].
  destruct value as [chunk|]; [|discriminate].
  intros [= <-].
  apply aligned_append; [apply token_aligned, literal_token|].
  apply inside_append; [apply one_line_inside; reflexivity|].
  apply aligned_inside, Hvalue. reflexivity.
Qed.

(** With [indent=4] every line of the text of an object starts after a
    multiple of four spaces. *)
Lemma iterencode_aligned (o : pyval) :
  forall level s, iterencode 4 level o = Encoded s -> aligned s.
Proof.
  induction o as [ |b|n|str|items IH|items IH|type_name] using pyval_nested_ind;
    intros level s.
  - intros [= <-]. apply token_aligned. reflexivity.
  - destruct b; intros [= <-]; apply token_aligned; reflexivity.
  - intros [= <-]. apply token_aligned, str_of_int_token.
  - intros [= <-]. apply token_aligned, literal_token.
  - destruct items as [|o items]; [intros [= <-]; apply token_aligned; reflexivity|].
    cbn [iterencode].
    destruct (encode_items _ _ true (o :: items)) as [body|] eqn:Eb; [|discriminate].
    intros [= <-].
    apply container_aligned; try reflexivity.
    eapply items_inside; [|exact Eb].
    eapply List.Forall_impl; [|exact IH].
    intros x Hx chunk. apply Hx.
  - destruct items as [|kv items]; [intros [= <-]; apply token_aligned; reflexivity|].
    cbn [iterencode].
    destruct (encode_items _ _ true (kv :: items)) as [body|] eqn:Eb; [|discriminate].
    intros [= <-].
    apply container_aligned; try reflexivity.
    eapply items_inside; [|exact Eb].
    eapply List.Forall_impl; [|exact IH].
    intros [k v] Hv chunk. cbn [snd] in Hv.
    apply member_aligned. intros c. apply Hv.
  - discriminate.
Qed.

End LayoutFacts.

(** ** format_as_json *)
Section FormatFacts.
Import Json Reader Tools.

(** One member at four spaces: the reader collects its name. *)
Lemma member_at_four (k chunk : string) :
  steady chunk ->
  final (LineStart 4) (encode_basestring_ascii k +:+ ": " +:+ chunk) = InBody
  /\ literals (LineStart 4) (encode_basestring_ascii k +:+ ": " +:+ chunk)
     = [escape_body k].
Proof.
  intros Hchunk.
  destruct (literal_at_four k) as [Hk1 Hk2].
  destruct (steady_append ": " chunk (one_line_steady ": " eq_refl) Hchunk) as [Hc1 Hc2].
  rewrite final_append, literals_append, Hk1, Hk2, Hc1, Hc2.
  split; reflexivity.
Qed.

(** The members of the outermost object: the reader collects the name of
    each, in order, and nothing else. *)
Lemma members_read_back (first : bool) (kw : kwargs) (body : string) :
  encode_items (fun kv => match kv with
                          | (key, value) => encode_member key (iterencode 4 1 value)
                          end)
               (newline_indent 4 1) first
               (map (fun kv => (PStr (fst kv), snd kv)) kw) = Encoded body ->
  final InBody body = InBody
  /\ map unescape (literals InBody body) = map fst kw.
Proof.
  revert first body. induction kw as [|[k v] kw IH]; intros first body; simpl.
  - intros [= <-]. split; reflexivity.
  - unfold encode_member. cbn [key_text].
    destruct (iterencode 4 1 v) as [chunk|] eqn:Ev; [|discriminate].
    destruct (encode_items _ _ false _) as [rest|] eqn:Er; [|discriminate].
    intros [= <-].
    destruct (separator_run first 1) as [Hs1 Hs2].
    change (4 * 1)%nat with 4%nat in Hs1.
    destruct (member_at_four k chunk (quiet_steady _ (iterencode_quiet v 0 chunk Ev)))
      as [Hm1 Hm2].
    destruct (IH false rest Er) as [Hr1 Hr2].
    set (member := encode_basestring_ascii k +:+ ": " +:+ chunk) in *.
    rewrite !final_append, !literals_append.
    rewrite Hs1, Hs2, Hm1, Hm2, Hr1. split; [reflexivity|].
    rewrite !map_app, Hr2. cbn [map app].
    rewrite unescape_escape_body. reflexivity.
Qed.

(** Every text [format_as_json] gives reads back to the names of the
    keyword arguments. *)
Lemma format_as_json_read_back (kw : kwargs) (out : string) :
  format_as_json kw = Encoded out -> top_level_keys out = map fst kw.
Proof.
  unfold format_as_json, dumps, as_dict, top_level_keys.
  destruct kw as [|kv kw]; [intros [= <-]; reflexivity|].
  cbn [map iterencode].
  destruct (encode_items _ _ true _) as [body|] eqn:Eb; [|discriminate].
  intros [= <-].
  destruct (members_read_back true (kv :: kw) body Eb) as [Hb1 Hb2].
  simpl literals. rewrite literals_append, Hb1, map_app, Hb2.
  simpl. rewrite app_nil_r. reflexivity.
Qed.

(** [format_as_json] has a text for serializable values. *)
Lemma format_as_json_total (kw : kwargs) :
  Forall (fun kv => serializable (snd kv) = true) kw ->
  exists out, format_as_json kw = Encoded out.
Proof.
  intros Hkw. apply iterencode_total.
  unfold as_dict.
  change (forallb (fun kv => match kv with
                             | (key, value) => bool_decide (is_Some (key_text key))
                                               && serializable value
                             end) (map (fun kv => (PStr (fst kv), snd kv)) kw) = true).
  induction Hkw as [|[k v] kw Hv Hkw IH]; [reflexivity|].
  simpl in *. rewrite Hv, IH. reflexivity.
Qed.

(** The text is laid out on the grid of four spaces. *)
Lemma format_as_json_indented (kw : kwargs) (out : string) :
  format_as_json kw = Encoded out -> indented 4 (AtStart 0) out = true.
Proof.
  intros Hout.
  apply (iterencode_aligned (as_dict kw) 0 out Hout (AtStart 0)).
  right. exists O. reflexivity.
Qed.

(** The text is ASCII, so its UTF-8 bytes are its characters. *)
Lemma format_as_json_ascii (kw : kwargs) (out : string) :
  format_as_json kw = Encoded out -> ascii_only out = true.
Proof. apply iterencode_ascii. Qed.

End FormatFacts.

Section FormatClaims.
Import Json Reader Tools.

(** C5: for keyword arguments with serializable values,
    [format_as_json] gives a text, and reading the text back (the string
    literals that open a line after exactly four spaces, which is where
    the members of the outermost object stand) gives the names of the
    keyword arguments: every name, once for each argument, in the order
    the caller wrote them, none dropped; every line of the text is
    indented by a multiple of four spaces; and as the names of keyword
    arguments are distinct, each is read back exactly once. *)
Theorem format_as_json_preserves_keys (kw : kwargs) :
  Forall (fun kv => serializable (snd kv) = true) kw ->
  exists out,
    format_as_json kw = Encoded out
    /\ top_level_keys out = map fst kw
    /\ indented 4 (AtStart 0) out = true
    /\ (List.NoDup (map fst kw) ->
        forall kv, In kv kw ->
          count_occ string_dec (top_level_keys out) (fst kv) = 1%nat).
Proof.
  intros Hkw. destruct (format_as_json_total kw Hkw) as [out Hout].
  exists out. split; [exact Hout|].
  pose proof (format_as_json_read_back kw out Hout) as Hkeys.
  split; [exact Hkeys|]. split; [exact (format_as_json_indented kw out Hout)|].
  intros Hdistinct kv Hkv. rewrite Hkeys.
  apply (proj1 (NoDup_count_occ' string_dec (map fst kw)) Hdistinct).
  apply in_map, Hkv.
Qed.

End FormatClaims.

(** ** chat *)
Section ChatFacts.
Import Json.

(** What the raw mode prints for the chunks of a stream. *)
Lemma raw_loop (l : list pyval) (texts : list string) (closing : option Deployment.exn) :
  Forall2 (fun chunk text => dumps 2 chunk = Encoded text) l texts ->
  Deployment.for_each Deployment.print_raw l closing
  = (flat_map (fun text => [Deployment.StreamNext;
                            Deployment.Print Deployment.Stdout text Deployment.nl]) texts,
     match closing with
     | None => Deployment.Returned tt
     | Some e => Deployment.Raised e
     end).
Proof.
  induction 1 as [|chunk text l texts Hchunk Hl IH]; cbn [Deployment.for_each].
  - destruct closing; reflexivity.
  - rewrite IH. unfold Deployment.print_raw. rewrite Hchunk.
    destruct closing; reflexivity.
Qed.

Lemma dumps_all (l : list pyval) :
  Forall (fun chunk => serializable chunk = true) l ->
  exists texts, Forall2 (fun chunk text => dumps 2 chunk = Encoded text) l texts.
Proof.
  induction 1 as [|chunk l Hchunk Hl [texts IH]].
  - exists []. constructor.
  - destruct (iterencode_total 2 chunk 0 Hchunk) as [text Htext].
    exists (text :: texts). constructor; assumption.
Qed.

Lemma raw_loop_breaks (good rest : list pyval) (bad : pyval) (texts : list string)
    (closing : option Deployment.exn) (message : string) :
  Forall2 (fun chunk text => dumps 2 chunk = Encoded text) good texts ->
  dumps 2 bad = NotSerializable message ->
  Deployment.for_each Deployment.print_raw (good ++ bad :: rest) closing
  = (flat_map (fun text => [Deployment.StreamNext;
                            Deployment.Print Deployment.Stdout text Deployment.nl]) texts
     ++ [Deployment.StreamNext],
     Deployment.Raised (Deployment.TypeError message)).
Proof.
  intros Hgood Hbad.
  induction Hgood as [|chunk text good texts Hchunk Hgood IH];
    cbn [Deployment.for_each app].
  - unfold Deployment.print_raw. rewrite Hbad. reflexivity.
  - rewrite IH. unfold Deployment.print_raw. rewrite Hchunk. reflexivity.
Qed.

(** Every list of chunks is written in full, or up to a first chunk that
    [json.dumps] cannot write. *)
Lemma dumps_prefix (l : list pyval) :
  exists good texts,
    Forall2 (fun chunk text => dumps 2 chunk = Encoded text) good texts
    /\ (l = good
        \/ exists bad rest reason,
             l = good ++ bad :: rest /\ dumps 2 bad = NotSerializable reason).
Proof.
  induction l as [|chunk l (good & texts & Htexts & IH)].
  - exists [], []. split; [constructor | left; reflexivity].
  - destruct (dumps 2 chunk) as [text|reason] eqn:Echunk.
    + exists (chunk :: good), (text :: texts). split; [constructor; assumption|].
      destruct IH as [->|(bad & rest & reason & -> & Hbad)]; [left; reflexivity|].
      right. exists bad, rest, reason. split; [reflexivity | exact Hbad].
    + exists [], []. split; [constructor|].
      right. exists chunk, l, reason. split; [reflexivity | exact Echunk].
Qed.

End ChatFacts.

Section ChatClaims.
Import Json.

(** C7, as the code has it: in raw mode, once the agent is found and the
    stream is open, [chat] prints the opening line and then, for the
    chunks of the stream in the order of arrival, one line each that is
    [json.dumps(chunk, indent=2)] of that chunk alone, for as long as
    [json.dumps] can write them. When it can write them all, the closing
    line follows (or, when the stream breaks off with an error, what the
    handlers of [chat] print). The first chunk it cannot write gets no
    record and ends the output: the error is reported as unexpected on
    the error stream, no later chunk is taken from the stream and the
    closing line is not printed. *)
Theorem chat_raw_records_until_unserializable
    (self : Deployment.AgentManager) (P : Deployment.platform)
    (engine_id session_id : Deployment.arg) (message user_id : string) (debug : bool)
    (s : Deployment.stream) :
  Deployment.engines_get P (Deployment.str engine_id) = inr tt ->
  Deployment.stream_query P (Deployment.str engine_id) user_id
    (Deployment.str session_id) message = inr s ->
  exists good texts,
    Forall2 (fun chunk text => dumps 2 chunk = Encoded text) good texts
    /\ ((Deployment.chunks s = good
         /\ Deployment.trace
              (Deployment.chat self P engine_id session_id message user_id true debug)
            = [ Deployment.Print Deployment.Stdout
                  ("Sending message to session '" +:+ Deployment.str session_id +:+ "'...")
                  Deployment.nl;
                Deployment.Print Deployment.Stdout ("   User: '" +:+ message +:+ "'")
                  Deployment.nl;
                Deployment.EnginesGet (Deployment.str engine_id);
                Deployment.StreamQuery user_id (Deployment.str session_id) message;
                Deployment.Print Deployment.Stdout
                  (Deployment.nl +:+ "--- RAW AGENT STREAM ---") Deployment.nl ]
              ++ flat_map (fun text => [Deployment.StreamNext;
                                        Deployment.Print Deployment.Stdout text
                                          Deployment.nl])
                          texts
              ++ match Deployment.closing s with
                 | None => [Deployment.Print Deployment.Stdout
                              "--- END RAW AGENT STREAM ---" Deployment.nl]
                 | Some e => Deployment.trace (Deployment.chat_except debug e)
                 end)
        \/ (exists bad rest reason,
               Deployment.chunks s = good ++ bad :: rest
               /\ dumps 2 bad = NotSerializable reason
               /\ Deployment.trace
                    (Deployment.chat self P engine_id session_id message user_id true debug)
                  = [ Deployment.Print Deployment.Stdout
                        ("Sending message to session '" +:+ Deployment.str session_id
                         +:+ "'...")
                        Deployment.nl;
                      Deployment.Print Deployment.Stdout ("   User: '" +:+ message +:+ "'")
                        Deployment.nl;
                      Deployment.EnginesGet (Deployment.str engine_id);
                      Deployment.StreamQuery user_id (Deployment.str session_id) message;
                      Deployment.Print Deployment.Stdout
                        (Deployment.nl +:+ "--- RAW AGENT STREAM ---") Deployment.nl ]
                    ++ flat_map (fun text => [Deployment.StreamNext;
                                              Deployment.Print Deployment.Stdout text
                                                Deployment.nl])
                                texts
                    ++ [ Deployment.StreamNext;
                         Deployment.Print Deployment.Stderr
                           (Deployment.nl
                            +:+ "An unexpected error occurred during chat session: "
                            +:+ reason) Deployment.nl ]
                    ++ (if debug then [Deployment.PrintExc] else []))).
Proof.
  intros Hget Hquery.
  destruct (dumps_prefix (Deployment.chunks s))
    as (good & texts & Htexts & [Hall | (bad & rest & reason & Hsplit & Hbad)]);
    exists good, texts; (split; [exact Htexts|]).
  - left. split; [exact Hall|].
    unfold Deployment.chat, Deployment._get_remote_agent, Deployment.call.
    rewrite Hget, Hquery.
    unfold mbind, Deployment.M_bind, Deployment.try_except, Deployment.bind at 1 2 3 4 5 6.
    cbn [Deployment.tell Deployment.print Deployment.ret Deployment.bind negb].
    rewrite Hall, (raw_loop _ _ (Deployment.closing s) Htexts).
    destruct (Deployment.closing s) as [e|]; cbn.
    + destruct (Deployment.chat_except debug e) as [t r]. reflexivity.
    + rewrite ?app_nil_r. reflexivity.
  - right. exists bad, rest, reason.
    split; [exact Hsplit|]. split; [exact Hbad|].
    unfold Deployment.chat, Deployment._get_remote_agent, Deployment.call.
    rewrite Hget, Hquery.
    unfold mbind, Deployment.M_bind, Deployment.try_except, Deployment.bind at 1 2 3 4 5 6.
    cbn [Deployment.tell Deployment.print Deployment.ret Deployment.bind negb].
    rewrite Hsplit.
    rewrite (raw_loop_breaks good rest bad texts (Deployment.closing s) reason Htexts Hbad).
    destruct debug; cbn; rewrite <- ?app_assoc; reflexivity.
Qed.

End ChatClaims.

Section ChatExamples.
Import Json.

Lemma chat_raw_witness :
  Deployment.engines_get Sample.cloud (Deployment.str (Deployment.AInt 42)) = inr tt
  /\ Deployment.stream_query Sample.cloud (Deployment.str (Deployment.AInt 42))
       "default-user" (Deployment.str (Deployment.AInt 7)) "hello" = inr Sample.two_chunks
  /\ exists texts,
       length texts = 2%nat
       /\ Forall2 (fun chunk text => dumps 2 chunk = Encoded text)
            (Deployment.chunks Sample.two_chunks) texts.
Proof.
  split; [reflexivity|]. split; [reflexivity|].
  destruct (chat_raw_records_until_unserializable Sample.manager Sample.cloud
              (Deployment.AInt 42) (Deployment.AInt 7) "hello" "default-user" false
              Sample.two_chunks eq_refl eq_refl)
    as (good & texts & Htexts & [[Hall _] | (bad & rest & reason & Hsplit & Hbad & _)]).
  - exists texts. rewrite Hall. split; [|exact Htexts].
    apply Forall2_length in Htexts. rewrite <- Htexts, <- Hall. reflexivity.
  - exfalso.
    assert (Hin : In bad (Deployment.chunks Sample.two_chunks))
      by (rewrite Hsplit; apply in_elt).
    cbn in Hin. destruct Hin as [<-|[<-|[]]]; vm_compute in Hbad; discriminate Hbad.
Defined.

(** C7, as it is worded, fails on a stream with a chunk that [json.dumps]
    cannot write: of the three chunks of the stream two are taken, one
    record is printed, and no list of records holds one for every
    chunk. *)
Lemma chat_raw_chunk_without_record :
  (exists text,
     dumps 2 (Cases.text_chunk "Hi") = Encoded text
     /\ Deployment.trace
          (Deployment.chat Sample.manager Cases.with_broken_stream (Deployment.AInt 42)
             (Deployment.AInt 7) "hello" "default-user" true false)
        = [ Deployment.Print Deployment.Stdout "Sending message to session '7'..."
              Deployment.nl;
            Deployment.Print Deployment.Stdout "   User: 'hello'" Deployment.nl;
            Deployment.EnginesGet "42";
            Deployment.StreamQuery "default-user" "7" "hello";
            Deployment.Print Deployment.Stdout
              (Deployment.nl +:+ "--- RAW AGENT STREAM ---") Deployment.nl;
            Deployment.StreamNext;
            Deployment.Print Deployment.Stdout text Deployment.nl;
            Deployment.StreamNext;
            Deployment.Print Deployment.Stderr
              (Deployment.nl +:+ "An unexpected error occurred during chat session: "
               +:+ "Object of type bytes is not JSON serializable") Deployment.nl ])
  /\ length (Deployment.chunks Cases.broken_stream) = 3%nat
  /\ ~ (exists texts,
          Forall2 (fun chunk text => dumps 2 chunk = Encoded text)
            (Deployment.chunks Cases.broken_stream) texts
          /\ Deployment.trace
               (Deployment.chat Sample.manager Cases.with_broken_stream (Deployment.AInt 42)
                  (Deployment.AInt 7) "hello" "default-user" true false)
             = [ Deployment.Print Deployment.Stdout "Sending message to session '7'..."
                   Deployment.nl;
                 Deployment.Print Deployment.Stdout "   User: 'hello'" Deployment.nl;
                 Deployment.EnginesGet "42";
                 Deployment.StreamQuery "default-user" "7" "hello";
                 Deployment.Print Deployment.Stdout
                   (Deployment.nl +:+ "--- RAW AGENT STREAM ---") Deployment.nl ]
               ++ flat_map (fun text => [Deployment.StreamNext;
                                         Deployment.Print Deployment.Stdout text
                                           Deployment.nl])
                           texts
               ++ [Deployment.Print Deployment.Stdout "--- END RAW AGENT STREAM ---"
                     Deployment.nl]).
Proof.
  split; [|split; [reflexivity|]].
  - eexists. split; vm_compute; reflexivity.
  - intros (texts & Htexts & _).
    inversion Htexts as [|chunk text l texts' _ Hrest]; subst.
    inversion Hrest as [|bad text' l' texts'' Hbad _]; subst.
    vm_compute in Hbad. discriminate Hbad.
Defined.

End ChatExamples.

Section ToolClaims.
Import Json Reader Tools.

Lemma format_as_json_preserves_keys_witness :
  Forall (fun kv => serializable (snd kv) = true) Sample.envelope
  /\ exists out,
       format_as_json Sample.envelope = Encoded out
       /\ top_level_keys out
          = ["original_character_count"; "new_character_count"; "new_message"].
Proof.
  assert (H : Forall (fun kv => serializable (snd kv) = true) Sample.envelope)
    by (repeat constructor).
  split; [exact H|].
  destruct (format_as_json_preserves_keys Sample.envelope H) as [out (Hout & Hkeys & _)].
  exists out. split; [exact Hout | exact Hkeys].
Defined.

Lemma format_as_json_envelope : format_as_json Sample.envelope = Encoded Sample.envelope_text.
Proof. vm_compute. reflexivity. Qed.

(** C6: [count_characters] of a text is its length, a non-negative
    integer, 0 for the empty text; it is a function of the text alone. *)
Theorem count_characters_is_length (s : string) :
  count_characters s = Z.of_nat (String.length s)
  /\ 0 <= count_characters s
  /\ count_characters EmptyString = 0.
Proof.
  unfold count_characters. repeat split; try reflexivity. lia.
Qed.

(** The count of a text put together from two is the sum of the counts. *)
Lemma count_characters_append (a b : string) :
  count_characters (a +:+ b) = count_characters a + count_characters b.
Proof. unfold count_characters. rewrite length_append. lia. Qed.

End ToolClaims.

(** * More of the deployment manager *)

(** ** delete, whatever the platform answers *)
Section DeleteFacts.

(** X1: With an engine id, [delete] makes exactly one call to the platform,
    a deletion of the full resource name with the force flag as given. It
    returns normally unless the platform answers with an API error that is
    neither a failed precondition nor a missing resource: the handler of
    those errors calls [e.code()], so [delete] ends with a [TypeError] and
    nothing is printed about the failure. *)
Theorem delete_makes_one_call
    (self : Deployment.AgentManager) (P : Deployment.platform) (argv : list string)
    (engine_id : Deployment.arg) (force : bool) :
  Deployment.arg_truthy engine_id = true ->
  List.filter Deployment.is_remote_call
    (Deployment.trace (Deployment.delete self P argv engine_id force))
  = [Deployment.EnginesDelete
       (Deployment._get_full_resource_name self engine_id) force]
  /\ ((forall code message text,
          Deployment.engines_delete P
            (Deployment._get_full_resource_name self engine_id) force
          <> inl (Deployment.ApiError Deployment.GoogleAPICallError code message text))
      -> Deployment.result_of (Deployment.delete self P argv engine_id force)
         = Deployment.Returned tt)
  /\ (forall code message text,
         Deployment.engines_delete P
           (Deployment._get_full_resource_name self engine_id) force
         = inl (Deployment.ApiError Deployment.GoogleAPICallError code message text)
         -> Deployment.is_type_error
              (Deployment.result_of (Deployment.delete self P argv engine_id force))
            = true
            /\ forall line end_,
                 ~ In (Deployment.Print Deployment.Stderr line end_)
                      (Deployment.trace
                         (Deployment.delete self P argv engine_id force))).
Proof.
  intros Htruthy.
  unfold Deployment.delete. rewrite Htruthy. cbn [negb]. cbv zeta.
  unfold Deployment.call.
  destruct (Deployment.engines_delete P _ force) as [e|[]].
  - destruct e as [[| |] code message text|text|name|text|text|text].
    all: split; [destruct force; reflexivity|].
    all: split; [intros Hother; try (destruct force; reflexivity);
                 exfalso; eapply Hother; reflexivity
                |intros code' message' text' Heq; try discriminate Heq].
    split; [destruct force; reflexivity|].
    intros line end_ Hin.
    destruct force; cbn in Hin;
      repeat (destruct Hin as [Hin|Hin]; [discriminate Hin|]); destruct Hin.
  - split; [destruct force; reflexivity|].
    split; [intros _; destruct force; reflexivity|].
    intros code message text Heq. discriminate Heq.
Qed.

Lemma delete_makes_one_call_witness :
  Deployment.arg_truthy (Deployment.AInt 42) = true
  /\ List.filter Deployment.is_remote_call
       (Deployment.trace
          (Deployment.delete Sample.manager Sample.cloud
             ["remote.py"; "delete"; "42"; "--force"] (Deployment.AInt 42) true))
     = [Deployment.EnginesDelete
          "projects/demo-project/locations/us-central1/reasoningEngines/42" true]
  /\ Deployment.result_of
       (Deployment.delete Sample.manager Sample.cloud
          ["remote.py"; "delete"; "42"; "--force"] (Deployment.AInt 42) true)
     = Deployment.Returned tt
  /\ Deployment.is_type_error
       (Deployment.result_of
          (Deployment.delete Sample.manager Cases.without_permission
             ["remote.py"; "delete"; "42"; "--force"] (Deployment.AInt 42) true))
     = true.
Proof.
  split; [reflexivity|].
  destruct (delete_makes_one_call Sample.manager Sample.cloud
              ["remote.py"; "delete"; "42"; "--force"] (Deployment.AInt 42) true
              eq_refl) as [Hcall [Hreturns _]].
  split; [exact Hcall|].
  split; [apply Hreturns; intros code message text H; discriminate H|].
  destruct (delete_makes_one_call Sample.manager Cases.without_permission
              ["remote.py"; "delete"; "42"; "--force"] (Deployment.AInt 42) true
              eq_refl) as [_ [_ Hraises]].
  exact (proj1 (Hraises "403" "Permission denied." "403 Permission denied." eq_refl)).
Defined.

(** X2: The line "Agent deleted successfully." is printed exactly when the
    platform accepted the deletion. *)
Theorem delete_reports_success_only_when_deleted
    (self : Deployment.AgentManager) (P : Deployment.platform) (argv : list string)
    (engine_id : Deployment.arg) (force : bool) :
  Deployment.arg_truthy engine_id = true ->
  (In (Deployment.Print Deployment.Stdout
         (Deployment.nl +:+ "Agent deleted successfully.") Deployment.nl)
      (Deployment.trace (Deployment.delete self P argv engine_id force))
   <-> Deployment.engines_delete P
         (Deployment._get_full_resource_name self engine_id) force = inr tt).
Proof.
  intros Htruthy.
  unfold Deployment.delete. rewrite Htruthy. cbn [negb]. cbv zeta.
  unfold Deployment.call.
  destruct (Deployment.engines_delete P _ force) as [e|[]].
  - split; [|discriminate].
    destruct e as [[| |] code message text|text|name|text|text|text];
      destruct force; cbn; intros H;
      repeat (destruct H as [H|H]; [discriminate H|]); destruct H.
  - split; [reflexivity|]. intros _.
    destruct force; cbn; tauto.
Qed.

Lemma delete_reports_success_witness :
  Deployment.arg_truthy (Deployment.AInt 42) = true
  /\ In (Deployment.Print Deployment.Stdout
           (Deployment.nl +:+ "Agent deleted successfully.") Deployment.nl)
        (Deployment.trace
           (Deployment.delete Sample.manager Sample.cloud
              ["remote.py"; "delete"; "42"; "--force"] (Deployment.AInt 42) true)).
Proof.
  split; [reflexivity|].
  apply (delete_reports_success_only_when_deleted Sample.manager Sample.cloud
           ["remote.py"; "delete"; "42"; "--force"] (Deployment.AInt 42) true eq_refl).
  reflexivity.
Defined.

End DeleteFacts.

(** ** create and the constructor *)
Section CreateAndInitFacts.

(** X3: [create] ends with an uncaught exception exactly when the import of
    the agent fails with something other than an [ImportError], or the
    packaging ([AdkApp]) fails: those two steps stand outside the
    handlers. *)
Theorem create_raises_only_outside_its_handlers
    (self : Deployment.AgentManager) (P : Deployment.platform) (e : Deployment.exn) :
  Deployment.result_of (Deployment.create self P) = Deployment.Raised e
  <-> (Deployment.import_root_agent P = inl e
       /\ forall text, e <> Deployment.ImportError text)
      \/ (Deployment.import_root_agent P = inr tt /\ Deployment.adk_app P = inl e).
Proof.
  unfold Deployment.create, Deployment.load_global.
  rewrite agent_display_name_is_not_a_global.
  destruct (Deployment.import_root_agent P) as [e0|[]].
  - destruct e0; cbn; (split; [intros H | intros [[H Hne]|[H _]]]);
      try discriminate H; try (injection H as <-).
    all: try (left; split; [reflexivity | discriminate]).
    all: try reflexivity.
    exfalso. eapply Hne. reflexivity.
  - destruct (Deployment.adk_app P) as [e0|[]]; cbn;
      (split; [intros H | intros [[H _]|[_ H]]]); try discriminate H.
    + injection H as <-. right. split; reflexivity.
    + injection H as <-. reflexivity.
Qed.

(** X4: When the agent cannot be imported, [create] prints two lines of
    guidance on the error stream and returns: nothing is packaged. *)
Theorem create_without_the_agent_package
    (self : Deployment.AgentManager) (P : Deployment.platform) (text : string) :
  Deployment.import_root_agent P = inl (Deployment.ImportError text) ->
  Deployment.result_of (Deployment.create self P) = Deployment.Returned tt
  /\ ~ In Deployment.AdkApp (Deployment.trace (Deployment.create self P))
  /\ forallb (fun ev => match ev with
                        | Deployment.Print Deployment.Stdout _ _ => false
                        | _ => true
                        end)
             (Deployment.trace (Deployment.create self P)) = true.
Proof.
  intros Himport. unfold Deployment.create. rewrite Himport. cbn.
  split; [reflexivity|]. split; [|reflexivity].
  intros H. repeat (destruct H as [H|H]; [discriminate H|]). destruct H.
Qed.

End CreateAndInitFacts.

Section CreateAndInitExamples.

Lemma create_without_the_agent_package_witness :
  Deployment.import_root_agent Cases.without_agent_package
  = inl (Deployment.ImportError "No module named 'adk_short_bot'")
  /\ Deployment.result_of (Deployment.create Sample.manager Cases.without_agent_package)
     = Deployment.Returned tt.
Proof.
  split; [reflexivity|].
  exact (proj1 (create_without_the_agent_package Sample.manager
                  Cases.without_agent_package _ eq_refl)).
Defined.

End CreateAndInitExamples.

Section InitFacts.

Lemma filter_nil_all {A : Type} (f : A -> bool) (l : list A) :
  List.filter f l = [] -> Forall (fun x => f x = false) l.
Proof.
  induction l as [|x l IH]; simpl; [constructor|].
  destruct (f x) eqn:E; [discriminate|]. intros H. constructor; auto.
Qed.

(** X5: The constructor ends with a manager or with exit status 1; it never
    lets an exception out. *)
Theorem init_returns_or_exits_with_1
    (environ dotenv : gmap string string) (P : Deployment.platform) :
  (exists self,
      Deployment.result_of (Deployment.__init__ environ dotenv P) = Deployment.Returned self)
  \/ Deployment.result_of (Deployment.__init__ environ dotenv P) = Deployment.Exited 1.
Proof.
  unfold Deployment.__init__.
  destruct (Deployment.missing_vars _) as [|v vs]; [|right; reflexivity].
  unfold mbind, Deployment.M_bind, Deployment.try_except, Deployment.call,
    Deployment.bind, Deployment.print, Deployment.print_err, Deployment.tell,
    Deployment.raise, Deployment.sys_exit.
  cbn.
  destruct (Deployment.vertexai_init P _ _ _) as [e|[]]; cbn; eauto.
Qed.

(** X6: A manager the constructor returns has every required value set and
    not empty, and was built with exactly one call to the platform:
    [vertexai.init] with its project, location and bucket, which
    succeeded. *)
Theorem init_returns_a_complete_manager
    (environ dotenv : gmap string string) (P : Deployment.platform)
    (self : Deployment.AgentManager) :
  Deployment.result_of (Deployment.__init__ environ dotenv P) = Deployment.Returned self ->
  Forall (fun kv => Deployment.falsy (snd kv) = false) (Deployment.required_vars self)
  /\ Deployment.vertexai_init P (Deployment.project_id self) (Deployment.location self)
       (Deployment.bucket self) = inr tt
  /\ List.filter Deployment.is_remote_call
       (Deployment.trace (Deployment.__init__ environ dotenv P))
     = [Deployment.VertexaiInit (Deployment.project_id self) (Deployment.location self)
          (Deployment.bucket self)].
Proof.
  intros Hret. pose proof (init_returns _ _ _ _ Hret) as ->.
  revert Hret. unfold Deployment.__init__.
  destruct (Deployment.missing_vars _) as [|v vs] eqn:Emissing; [|discriminate].
  unfold mbind, Deployment.M_bind, Deployment.try_except, Deployment.call,
    Deployment.bind, Deployment.print, Deployment.print_err, Deployment.tell,
    Deployment.raise, Deployment.sys_exit.
  cbn.
  destruct (Deployment.vertexai_init P _ _ _) as [e|[]] eqn:Einit; cbn; [discriminate|].
  intros _. split; [|split; reflexivity].
  apply filter_nil_all.
  unfold Deployment.missing_vars in Emissing.
  destruct (List.filter _ _); [reflexivity | discriminate].
Qed.

Lemma init_returns_a_complete_manager_witness :
  Deployment.result_of (Deployment.__init__ Sample.environ ∅ Sample.cloud)
  = Deployment.Returned Sample.manager
  /\ Deployment.vertexai_init Sample.cloud (Deployment.project_id Sample.manager)
       (Deployment.location Sample.manager) (Deployment.bucket Sample.manager) = inr tt.
Proof.
  assert (H : Deployment.result_of (Deployment.__init__ Sample.environ ∅ Sample.cloud)
              = Deployment.Returned Sample.manager) by (vm_compute; reflexivity).
  split; [exact H|].
  exact (proj1 (proj2 (init_returns_a_complete_manager Sample.environ ∅ Sample.cloud
                         Sample.manager H))).
Defined.

(** X7: The names the constructor reports as missing are exactly the
    required names whose value is unset or empty. *)
Theorem missing_vars_are_the_unset_required_names
    (env : gmap string string) (name : string) :
  In name (Deployment.missing_vars (Deployment.read_config env))
  <-> In name Deployment.required_names /\ Deployment.falsy (env !! name) = true.
Proof.
  unfold Deployment.missing_vars. rewrite required_vars_read_config.
  rewrite List.in_map_iff. split.
  - intros ([n v] & <- & H). apply filter_In in H as [H Hfalsy].
    apply List.in_map_iff in H as (n' & [= <- <-] & Hin). auto.
  - intros [Hin Hfalsy]. exists (name, env !! name). split; [reflexivity|].
    apply filter_In. split; [|exact Hfalsy].
    apply (in_map (fun n => (n, env !! n))), Hin.
Qed.

End InitFacts.

(** ** Looking an agent up, and chat around its stream *)
Section ChatMoreFacts.
Import Json.

(** X8: [_get_remote_agent] asks the platform once, for the engine id as
    given (not the full resource name), and prints nothing on the output
    stream. It answers true when the agent was retrieved and false when it
    is missing or the lookup failed outside the API; on any other API
    error its handler calls [e.code()], and the lookup ends with a
    [TypeError], nothing printed. *)
Theorem get_remote_agent_asks_once
    (P : Deployment.platform) (engine_id : Deployment.arg) :
  List.filter Deployment.is_remote_call
    (Deployment.trace (Deployment._get_remote_agent P engine_id))
  = [Deployment.EnginesGet (Deployment.str engine_id)]
  /\ forallb (fun ev => match ev with
                        | Deployment.Print Deployment.Stdout _ _ => false
                        | _ => true
                        end)
             (Deployment.trace (Deployment._get_remote_agent P engine_id)) = true
  /\ match Deployment.engines_get P (Deployment.str engine_id) with
     | inr _ =>
         Deployment.result_of (Deployment._get_remote_agent P engine_id)
         = Deployment.Returned true
     | inl e =>
         if Deployment.reads_code e
         then Deployment.trace (Deployment._get_remote_agent P engine_id)
              = [Deployment.EnginesGet (Deployment.str engine_id)]
              /\ Deployment.is_type_error
                   (Deployment.result_of (Deployment._get_remote_agent P engine_id))
                 = true
         else Deployment.result_of (Deployment._get_remote_agent P engine_id)
              = Deployment.Returned false
     end.
Proof.
  unfold Deployment._get_remote_agent, Deployment.call.
  destruct (Deployment.engines_get P _) as [e|[]];
    [destruct e as [[| |] code message text|text|name|text|text|text]|];
    repeat split; reflexivity.
Qed.

(** X9: When the agent cannot be retrieved, [chat] stops there: the lookup is
    its only call to the platform and no message is sent. It returns
    normally when the agent is missing or the lookup failed outside the
    API; on any other API error the [TypeError] of the lookup, which
    [chat] runs outside its own handlers, ends [chat] too. *)
Theorem chat_sends_nothing_without_the_agent
    (self : Deployment.AgentManager) (P : Deployment.platform)
    (engine_id session_id : Deployment.arg) (message user_id : string)
    (raw_output debug : bool) (e : Deployment.exn) :
  Deployment.engines_get P (Deployment.str engine_id) = inl e ->
  List.filter Deployment.is_remote_call
    (Deployment.trace
       (Deployment.chat self P engine_id session_id message user_id raw_output debug))
  = [Deployment.EnginesGet (Deployment.str engine_id)]
  /\ (if Deployment.reads_code e
      then Deployment.is_type_error
             (Deployment.result_of
                (Deployment.chat self P engine_id session_id message user_id
                   raw_output debug))
           = true
      else Deployment.result_of
             (Deployment.chat self P engine_id session_id message user_id
                raw_output debug)
           = Deployment.Returned tt).
Proof.
  intros Hget.
  unfold Deployment.chat, Deployment._get_remote_agent, Deployment.call.
  rewrite Hget.
  destruct e as [[| |] code message' text|text|name|text|text|text];
    split; reflexivity.
Qed.

Lemma chat_sends_nothing_witness :
  Deployment.engines_get Cases.without_agent (Deployment.str (Deployment.AInt 42))
  = inl Cases.not_found
  /\ List.filter Deployment.is_remote_call
       (Deployment.trace
          (Deployment.chat Sample.manager Cases.without_agent (Deployment.AInt 42)
             (Deployment.AInt 7) "hello" "default-user" false false))
     = [Deployment.EnginesGet "42"]
  /\ Deployment.result_of
       (Deployment.chat Sample.manager Cases.without_agent (Deployment.AInt 42)
          (Deployment.AInt 7) "hello" "default-user" false false)
     = Deployment.Returned tt
  /\ Deployment.is_type_error
       (Deployment.result_of
          (Deployment.chat Sample.manager Cases.without_permission (Deployment.AInt 42)
             (Deployment.AInt 7) "hello" "default-user" false false))
     = true.
Proof.
  split; [reflexivity|].
  destruct (chat_sends_nothing_without_the_agent Sample.manager Cases.without_agent
              (Deployment.AInt 42) (Deployment.AInt 7) "hello" "default-user"
              false false Cases.not_found eq_refl) as [Hcall Hreturns].
  split; [exact Hcall|]. split; [exact Hreturns|].
  exact (proj2 (chat_sends_nothing_without_the_agent Sample.manager
                  Cases.without_permission (Deployment.AInt 42) (Deployment.AInt 7)
                  "hello" "default-user" false false Cases.forbidden eq_refl)).
Defined.

End ChatMoreFacts.

(** ** How chat ends *)
Section ChatTotalFacts.
Import Json.

(** A computation that prints no traceback and does not leave the
    process. *)
Definition tame {A : Type} (m : Deployment.M A) : Prop :=
  ~ In Deployment.PrintExc (Deployment.trace m)
  /\ forall code, Deployment.result_of m <> Deployment.Exited code.

Lemma tame_bind {A B : Type} (m : Deployment.M A) (k : A -> Deployment.M B) :
  tame m -> (forall a, tame (k a)) -> tame (Deployment.bind m k).
Proof.
  intros [Hm1 Hm2] Hk. destruct m as [t [a|e|code]]; cbn in *.
  - destruct (Hk a) as [Hk1 Hk2]. destruct (k a) as [t' r]. cbn in *.
    split; [|exact Hk2].
    intros [H|H]%in_app_or; auto.
  - split; [exact Hm1 | discriminate].
  - exfalso. apply (Hm2 code). reflexivity.
Qed.

Lemma tame_print (text : string) : tame (Deployment.print text).
Proof.
  split; [|discriminate].
  cbn. intros [H|[]]. discriminate H.
Qed.

Lemma tame_print_raw (chunk : pyval) : tame (Deployment.print_raw chunk).
Proof.
  unfold Deployment.print_raw. destruct (dumps 2 chunk); [apply tame_print|].
  split; [intros [] | discriminate].
Qed.

Lemma tame_print_text (chunk : pyval) : tame (Deployment.print_text chunk).
Proof.
  assert (Hret : tame (Deployment.ret tt)) by (split; [intros [] | discriminate]).
  assert (Hraise : forall e, tame (@Deployment.raise unit e))
    by (intros e; split; [intros [] | discriminate]).
  assert (Htell : forall o, tame (Deployment.tell (Deployment.PrintObj o EmptyString))).
  { intros o. split; [|discriminate]. cbn. intros [H|[]]. discriminate H. }
  unfold Deployment.print_text.
  repeat match goal with
         | |- tame (match ?x with _ => _ end) => destruct x
         | |- tame (if ?x then _ else _) => destruct x
         end; auto.
Qed.

Lemma tame_for_each (body : pyval -> Deployment.M unit) (l : list pyval)
    (closing : option Deployment.exn) :
  (forall chunk, tame (body chunk)) -> tame (Deployment.for_each body l closing).
Proof.
  intros Hbody. induction l as [|chunk l IH]; cbn [Deployment.for_each].
  - destruct closing; (split; [intros [] | discriminate]).
  - apply tame_bind.
    + split; [|discriminate]. cbn. intros [H|[]]. discriminate H.
    + intros _. apply tame_bind; [apply Hbody | intros _; exact IH].
Qed.

(** A computation that lets out no exception for which a handler would
    call [e.code()]. *)
Definition mild {A : Type} (m : Deployment.M A) : Prop :=
  forall e, Deployment.result_of m = Deployment.Raised e ->
            Deployment.reads_code e = false.

Lemma mild_bind {A B : Type} (m : Deployment.M A) (k : A -> Deployment.M B) :
  mild m ->
  (forall a, Deployment.result_of m = Deployment.Returned a -> mild (k a)) ->
  mild (Deployment.bind m k).
Proof.
  intros Hm Hk. destruct m as [t [a|e|code]]; cbn in *.
  - specialize (Hk a eq_refl). destruct (k a) as [t' r]. exact Hk.
  - intros e' H. injection H as <-. apply Hm. reflexivity.
  - intros e H. discriminate H.
Qed.

Lemma mild_print (text : string) : mild (Deployment.print text).
Proof. intros e H. discriminate H. Qed.

Lemma mild_print_raw (chunk : pyval) : mild (Deployment.print_raw chunk).
Proof.
  unfold Deployment.print_raw. destruct (dumps 2 chunk); [apply mild_print|].
  intros e H. injection H as <-. reflexivity.
Qed.

Lemma mild_print_text (chunk : pyval) : mild (Deployment.print_text chunk).
Proof.
  assert (Hret : mild (Deployment.ret tt)) by (intros e H; discriminate H).
  assert (Hraise : forall text, mild (@Deployment.raise unit (Deployment.AttributeError text)))
    by (intros text e H; injection H as <-; reflexivity).
  assert (Htell : forall o, mild (Deployment.tell (Deployment.PrintObj o EmptyString)))
    by (intros o e H; discriminate H).
  unfold Deployment.print_text.
  repeat match goal with
         | |- mild (match ?x with _ => _ end) => destruct x
         | |- mild (if ?x then _ else _) => destruct x
         end; auto.
Qed.

Lemma mild_for_each (body : pyval -> Deployment.M unit) (l : list pyval)
    (closing : option Deployment.exn) :
  (forall chunk, mild (body chunk)) ->
  (forall e, closing = Some e -> Deployment.reads_code e = false) ->
  mild (Deployment.for_each body l closing).
Proof.
  intros Hbody Hclosing. induction l as [|chunk l IH]; cbn [Deployment.for_each].
  - destruct closing as [e0|]; intros e H; [|discriminate H].
    injection H as <-. apply Hclosing. reflexivity.
  - apply mild_bind; [intros e H; discriminate H|]. intros _ _.
    apply mild_bind; [apply Hbody | intros _ _; exact IH].
Qed.

(** What the [except] clauses of [chat] make of an exception. *)
Lemma chat_except_outcome (debug : bool) (e : Deployment.exn) :
  Deployment.result_of (Deployment.chat_except debug e)
  = (if Deployment.reads_code e
     then Deployment.Raised Deployment.not_callable
     else Deployment.Returned tt)
  /\ (debug = false -> ~ In Deployment.PrintExc
                            (Deployment.trace (Deployment.chat_except debug e))).
Proof.
  destruct e as [[| |] code message text|text|name|text|text|text];
    destruct debug; (split; [reflexivity|]); try discriminate;
    intros _ H; cbn in H;
    repeat (destruct H as [H|H]; [discriminate H|]); destruct H.
Qed.

(** A tame computation under the handlers of [chat] returns, or ends with
    the [TypeError] of a handler. *)
Lemma try_chat_outcome (debug : bool) (body : Deployment.M unit) :
  tame body ->
  (Deployment.result_of (Deployment.try_except body (Deployment.chat_except debug))
   = Deployment.Returned tt
   \/ Deployment.result_of (Deployment.try_except body (Deployment.chat_except debug))
      = Deployment.Raised Deployment.not_callable)
  /\ (debug = false ->
      ~ In Deployment.PrintExc
          (Deployment.trace (Deployment.try_except body (Deployment.chat_except debug))))
  /\ (mild body ->
      Deployment.result_of (Deployment.try_except body (Deployment.chat_except debug))
      = Deployment.Returned tt).
Proof.
  intros [Hb1 Hb2]. destruct body as [t [[]|e|code]]; cbn in *.
  - split; [left; reflexivity|]. split; [intros _; exact Hb1 | reflexivity].
  - destruct (chat_except_outcome debug e) as [He1 He2].
    destruct (Deployment.chat_except debug e) as [t' r]. cbn in *.
    split; [destruct (Deployment.reads_code e); [right|left]; exact He1|].
    split.
    + intros Hd [H|H]%in_app_or; [auto | exact (He2 Hd H)].
    + intros Hmild. rewrite (Hmild e eq_refl) in He1. exact He1.
  - exfalso. apply (Hb2 code). reflexivity.
Qed.

(** X10: [chat] never leaves the process, and prints a traceback only in
    debug mode. It either returns normally or ends with the [TypeError]
    of a handler that calls [e.code()]; it returns normally whenever no
    API error other than a missing resource comes from the lookup of the
    agent, from the query or from the stream. *)
Theorem chat_returns_or_raises_type_error
    (self : Deployment.AgentManager) (P : Deployment.platform)
    (engine_id session_id : Deployment.arg) (message user_id : string)
    (raw_output debug : bool) :
  (Deployment.result_of
     (Deployment.chat self P engine_id session_id message user_id raw_output debug)
   = Deployment.Returned tt
   \/ Deployment.is_type_error
        (Deployment.result_of
           (Deployment.chat self P engine_id session_id message user_id raw_output debug))
      = true)
  /\ (debug = false ->
      ~ In Deployment.PrintExc
          (Deployment.trace
             (Deployment.chat self P engine_id session_id message user_id raw_output debug)))
  /\ ((forall e, Deployment.engines_get P (Deployment.str engine_id) = inl e ->
                 Deployment.reads_code e = false) ->
      (forall e, Deployment.stream_query P (Deployment.str engine_id) user_id
                   (Deployment.str session_id) message = inl e ->
                 Deployment.reads_code e = false) ->
      (forall s e, Deployment.stream_query P (Deployment.str engine_id) user_id
                     (Deployment.str session_id) message = inr s ->
                   Deployment.closing s = Some e ->
                   Deployment.reads_code e = false) ->
      Deployment.result_of
        (Deployment.chat self P engine_id session_id message user_id raw_output debug)
      = Deployment.Returned tt).
Proof.
  unfold Deployment.chat.
  destruct (Deployment.engines_get P (Deployment.str engine_id)) as [e|[]] eqn:Eget.
  - unfold Deployment._get_remote_agent, Deployment.call. rewrite Eget.
    split; [|split].
    + destruct e as [[| |] code message' text|text|name|text|text|text];
        first [left; reflexivity | right; reflexivity].
    + destruct e as [[| |] code message' text|text|name|text|text|text];
        intros _ H; cbn in H;
        repeat (destruct H as [H|H]; [discriminate H|]); destruct H.
    + intros Hget _ _. specialize (Hget e eq_refl).
      destruct e as [[| |] code message' text|text|name|text|text|text];
        first [reflexivity | discriminate Hget].
  - set (body := mbind _ (Deployment.call _ _)).
    assert (Hbody : tame body).
    { unfold body, Deployment.call. apply tame_bind.
      - apply tame_bind.
        + split; [|discriminate]. cbn. intros [H|[]]. discriminate H.
        + intros _. destruct (Deployment.stream_query P _ _ _ _);
            (split; [intros [] | discriminate]).
      - intros s. destruct raw_output.
        + apply tame_bind; [apply tame_print|]. intros _.
          apply tame_bind; [apply tame_for_each, tame_print_raw|]. intros _.
          apply tame_print.
        + apply tame_bind; [apply tame_print|]. intros _.
          apply tame_bind; [apply tame_for_each, tame_print_text|]. intros _.
          apply tame_print. }
    assert (Hmild :
      (forall e, Deployment.stream_query P (Deployment.str engine_id) user_id
                   (Deployment.str session_id) message = inl e ->
                 Deployment.reads_code e = false) ->
      (forall s e, Deployment.stream_query P (Deployment.str engine_id) user_id
                     (Deployment.str session_id) message = inr s ->
                   Deployment.closing s = Some e ->
                   Deployment.reads_code e = false) ->
      mild body).
    { intros Hquery Hclosing. unfold body, Deployment.call. apply mild_bind.
      - apply mild_bind; [intros e H; discriminate H|]. intros _ _.
        destruct (Deployment.stream_query P _ _ _ _) as [e0|s0].
        + intros e H. injection H as <-. apply Hquery. reflexivity.
        + intros e H. discriminate H.
      - intros s Hs.
        assert (Hsome : Deployment.stream_query P (Deployment.str engine_id) user_id
                          (Deployment.str session_id) message = inr s).
        { destruct (Deployment.stream_query P _ _ _ _) as [e0|s0]; cbn in Hs;
            [discriminate Hs | injection Hs as ->; reflexivity]. }
        destruct raw_output.
        + apply mild_bind; [apply mild_print|]. intros _ _.
          apply mild_bind;
            [apply mild_for_each; [apply mild_print_raw | exact (fun e => Hclosing s e Hsome)]|].
          intros _ _. apply mild_print.
        + apply mild_bind; [apply mild_print|]. intros _ _.
          apply mild_bind;
            [apply mild_for_each; [apply mild_print_text | exact (fun e => Hclosing s e Hsome)]|].
          intros _ _. apply mild_print. }
    destruct (try_chat_outcome debug body Hbody) as [Hr [Ht Hm]].
    unfold Deployment._get_remote_agent, Deployment.call. rewrite Eget.
    destruct (Deployment.try_except body (Deployment.chat_except debug)) as [t r].
    cbn in *. split; [destruct Hr as [->| ->]; [left|right]; reflexivity|]. split.
    + intros Hd H.
      repeat (destruct H as [H|H]; [discriminate H|]). exact (Ht Hd H).
    + intros _ Hquery Hclosing. exact (Hm (Hmild Hquery Hclosing)).
Qed.

End ChatTotalFacts.

(** ** The two display modes of chat *)
Section ChatModeFacts.
Import Json.

(** X11: In raw mode a chunk that [json.dumps] cannot write ends the output:
    the chunks before it have their records, the chunk itself has none,
    the error is reported as unexpected with the message of the
    [TypeError], no later chunk is taken from the stream and the closing
    line is not printed. *)
Theorem chat_raw_stops_at_unserializable_chunk
    (self : Deployment.AgentManager) (P : Deployment.platform)
    (engine_id session_id : Deployment.arg) (message user_id : string) (debug : bool)
    (s : Deployment.stream) (good rest : list pyval) (bad : pyval) (reason : string) :
  Deployment.engines_get P (Deployment.str engine_id) = inr tt ->
  Deployment.stream_query P (Deployment.str engine_id) user_id
    (Deployment.str session_id) message = inr s ->
  Deployment.chunks s = good ++ bad :: rest ->
  Forall (fun chunk => serializable chunk = true) good ->
  dumps 2 bad = NotSerializable reason ->
  exists texts,
    Forall2 (fun chunk text => dumps 2 chunk = Encoded text) good texts
    /\ Deployment.trace
         (Deployment.chat self P engine_id session_id message user_id true debug)
       = [ Deployment.Print Deployment.Stdout
             ("Sending message to session '" +:+ Deployment.str session_id +:+ "'...")
             Deployment.nl;
           Deployment.Print Deployment.Stdout ("   User: '" +:+ message +:+ "'")
             Deployment.nl;
           Deployment.EnginesGet (Deployment.str engine_id);
           Deployment.StreamQuery user_id (Deployment.str session_id) message;
           Deployment.Print Deployment.Stdout
             (Deployment.nl +:+ "--- RAW AGENT STREAM ---") Deployment.nl ]
         ++ flat_map (fun text => [Deployment.StreamNext;
                                   Deployment.Print Deployment.Stdout text Deployment.nl])
                     texts
         ++ [ Deployment.StreamNext;
              Deployment.Print Deployment.Stderr
                (Deployment.nl +:+ "An unexpected error occurred during chat session: "
                 +:+ reason) Deployment.nl ]
         ++ (if debug then [Deployment.PrintExc] else []).
Proof.
  intros Hget Hquery Hchunks Hgood Hbad.
  destruct (dumps_all _ Hgood) as [texts Htexts].
  exists texts. split; [exact Htexts|].
  unfold Deployment.chat, Deployment._get_remote_agent, Deployment.call.
  rewrite Hget, Hquery.
  unfold mbind, Deployment.M_bind, Deployment.try_except, Deployment.bind at 1 2 3 4 5 6.
  cbn [Deployment.tell Deployment.print Deployment.ret Deployment.bind negb].
  rewrite Hchunks.
  rewrite (raw_loop_breaks good rest bad texts (Deployment.closing s) reason Htexts Hbad).
  destruct debug; cbn; rewrite <- ?app_assoc; reflexivity.
Qed.

Lemma chat_raw_stops_witness :
  Deployment.chunks Cases.broken_stream
  = [Cases.text_chunk "Hi"] ++ PDict [(PStr "raw", PObject "bytes")]
    :: [Cases.text_chunk "there"]
  /\ dumps 2 (PDict [(PStr "raw", PObject "bytes")])
     = NotSerializable "Object of type bytes is not JSON serializable"
  /\ exists texts,
       length texts = 1%nat
       /\ Forall2 (fun chunk text => dumps 2 chunk = Encoded text)
            [Cases.text_chunk "Hi"] texts.
Proof.
  split; [reflexivity|]. split; [reflexivity|].
  destruct (chat_raw_stops_at_unserializable_chunk Sample.manager Cases.with_broken_stream
              (Deployment.AInt 42) (Deployment.AInt 7) "hello" "default-user" false
              Cases.broken_stream [Cases.text_chunk "Hi"] [Cases.text_chunk "there"]
              (PDict [(PStr "raw", PObject "bytes")])
              "Object of type bytes is not JSON serializable"
              eq_refl eq_refl eq_refl ltac:(repeat constructor) eq_refl)
    as [texts [Htexts _]].
  exists texts. split; [|exact Htexts].
  apply Forall2_length in Htexts. symmetry. exact Htexts.
Defined.




(** X13: Of the parts of a chunk, text mode reads the first only: two chunks
    whose first parts are the same print the same, whatever else they
    hold. *)
Theorem print_text_reads_the_first_part_only
    (items1 items2 content1 content2 : list (pyval * pyval))
    (part : pyval) (parts1 parts2 : list pyval) :
  dict_get "content" items1 = Some (PDict content1) ->
  dict_get "parts" content1 = Some (PList (part :: parts1)) ->
  dict_get "content" items2 = Some (PDict content2) ->
  dict_get "parts" content2 = Some (PList (part :: parts2)) ->
  Deployment.print_text (PDict items1) = Deployment.print_text (PDict items2).
Proof.
  intros Hc1 Hp1 Hc2 Hp2. unfold Deployment.print_text.
  rewrite Hc1, Hc2.
  destruct content1 as [|kv1 content1]; [discriminate|].
  destruct content2 as [|kv2 content2]; [discriminate|].
  rewrite Hp1, Hp2. reflexivity.
Qed.

Lemma print_text_first_part_witness :
  Deployment.print_text
    (PDict [(PStr "content",
             PDict [(PStr "role", PStr "model");
                    (PStr "parts", PList [PDict [(PStr "text", PStr "Hi")];
                                          PDict [(PStr "text", PStr "there")]])])])
  = Deployment.print_text (Cases.text_chunk "Hi").
Proof.
  apply (print_text_reads_the_first_part_only _ _
           [(PStr "role", PStr "model");
            (PStr "parts", PList [PDict [(PStr "text", PStr "Hi")];
                                  PDict [(PStr "text", PStr "there")]])]
           [(PStr "parts", PList [PDict [(PStr "text", PStr "Hi")]])]
           (PDict [(PStr "text", PStr "Hi")])
           [PDict [(PStr "text", PStr "there")]] []); reflexivity.
Defined.

End ChatModeFacts.

(** ** Listing deployments *)
Section ListFacts.
Import Json.

(** The three lines [list] prints for the deployment at index [k]. *)
Definition deployment_block (k : Z) (d : Console.deployment) : list Console.action :=
  [ Console.Did (Deployment.Print Deployment.Stdout
                   ("[" +:+ Py.str_of_int (k + 1) +:+ "] " +:+ Console.display_name d)
                   Deployment.nl);
    Console.Did (Deployment.Print Deployment.Stdout
                   ("    Engine ID: "
                    +:+ Py.last_piece (Py.split "/" (Console.name d)))
                   Deployment.nl);
    Console.Did (Deployment.Print Deployment.Stdout
                   ("    Created: " +:+ Console.created d +:+ Deployment.nl)
                   Deployment.nl) ].

Lemma show_deployments_runs (i : Z) (l : list Console.deployment) :
  Console.show_deployments i l
  = (concat (imap (fun k d => deployment_block (i + Z.of_nat k) d) l),
     Deployment.Returned tt).
Proof.
  revert i. induction l as [|d l IH]; intros i; [reflexivity|].
  cbn [Console.show_deployments]. rewrite IH.
  assert (Hshift : imap (fun k d0 => deployment_block (i + 1 + Z.of_nat k) d0) l
                   = imap ((fun k d0 => deployment_block (i + Z.of_nat k) d0) ∘ S) l).
  { apply imap_ext. intros k d0 _. cbn [compose]. f_equal. lia. }
  rewrite Hshift. cbn [imap concat].
  replace (i + Z.of_nat 0) with i by lia.
  reflexivity.
Qed.

Lemma show_deployments_local (l : list Console.deployment) (i : Z) :
  List.filter Console.is_remote (Console.actions (Console.show_deployments i l)) = [].
Proof.
  revert i. induction l as [|d l IH]; intros i; [reflexivity|].
  cbn [Console.show_deployments].
  specialize (IH (i + 1)).
  destruct (Console.show_deployments (i + 1) l) as [t r]. cbn in *.
  exact IH.
Qed.

Lemma show_deployments_returns (l : list Console.deployment) (i : Z) :
  Console.ending (Console.show_deployments i l) = Deployment.Returned tt.
Proof. rewrite show_deployments_runs. reflexivity. Qed.

Lemma list_with_deployments
    (self : Deployment.AgentManager) (Q : Console.api)
    (d : Console.deployment) (l : list Console.deployment) :
  Console.engines_list Q = inr (d :: l) ->
  Console.list self Q
  = ([ Console.Did (Deployment.Print Deployment.Stdout
                      "Listing available agent deployments..." Deployment.nl);
       Console.EnginesList;
       Console.Did (Deployment.Print Deployment.Stdout
                      (Deployment.nl +:+ "--- Available Agents ---") Deployment.nl) ]
     ++ Console.actions (Console.show_deployments 0 (d :: l))
     ++ [ Console.Did (Deployment.Print Deployment.Stdout
                         "------------------------" Deployment.nl) ],
     Deployment.Returned tt).
Proof.
  intros Hlist. unfold Console.list, Console.ask. rewrite Hlist.
  pose proof (show_deployments_returns (d :: l) 0) as Hret.
  unfold mbind, Console.Run_bind. cbn -[Console.show_deployments].
  revert Hret. generalize (Console.show_deployments 0 (d :: l)) as loop.
  intros [t r] Hret. cbn in Hret. subst r.
  reflexivity.
Qed.

(** X14: [list] prints one block of three lines for every deployment, in the
    order the platform gives them and numbered from 1, between a heading
    and a closing rule; the engine id of a block is the last segment of
    the resource name. *)
Theorem list_numbers_the_deployments
    (self : Deployment.AgentManager) (Q : Console.api) (l : list Console.deployment) :
  Console.engines_list Q = inr l ->
  l <> [] ->
  Console.list self Q
  = ([ Console.Did (Deployment.Print Deployment.Stdout
                      "Listing available agent deployments..." Deployment.nl);
       Console.EnginesList;
       Console.Did (Deployment.Print Deployment.Stdout
                      (Deployment.nl +:+ "--- Available Agents ---") Deployment.nl) ]
     ++ concat (imap (fun k d => deployment_block (Z.of_nat k) d) l)
     ++ [ Console.Did (Deployment.Print Deployment.Stdout
                         "------------------------" Deployment.nl) ],
     Deployment.Returned tt).
Proof.
  intros Hlist Hne.
  destruct l as [|d l]; [contradiction|].
  rewrite (list_with_deployments self Q d l Hlist), show_deployments_runs.
  reflexivity.
Qed.

Lemma list_numbers_the_deployments_witness :
  Console.engines_list Cases.console = inr Cases.two_deployments
  /\ Cases.two_deployments <> []
  /\ length (Console.actions (Console.list Sample.manager Cases.console)) = 10%nat.
Proof.
  assert (Hne : Cases.two_deployments <> []) by discriminate.
  split; [reflexivity|]. split; [exact Hne|].
  rewrite (list_numbers_the_deployments Sample.manager Cases.console
             Cases.two_deployments eq_refl Hne).
  reflexivity.
Defined.

(** X15: With no deployment, [list] says so and prints no table. *)
Theorem list_of_no_deployments
    (self : Deployment.AgentManager) (Q : Console.api) :
  Console.engines_list Q = inr [] ->
  Console.list self Q
  = ([ Console.Did (Deployment.Print Deployment.Stdout
                      "Listing available agent deployments..." Deployment.nl);
       Console.EnginesList;
       Console.Did (Deployment.Print Deployment.Stdout "No deployments found."
                      Deployment.nl) ],
     Deployment.Returned tt).
Proof.
  intros Hlist. unfold Console.list, Console.ask. rewrite Hlist. reflexivity.
Qed.

Lemma list_of_no_deployments_witness :
  Console.engines_list Cases.empty_console = inr []
  /\ Console.ending (Console.list Sample.manager Cases.empty_console)
     = Deployment.Returned tt.
Proof.
  split; [reflexivity|].
  rewrite (list_of_no_deployments Sample.manager Cases.empty_console eq_refl).
  reflexivity.
Defined.

(** X16: [list] makes exactly one call to the platform. It returns normally
    unless that call fails with an API error: the handler of those calls
    [e.code()], so [list] ends with a [TypeError], and nothing is printed
    after the opening line. *)
Theorem list_makes_one_call
    (self : Deployment.AgentManager) (Q : Console.api) :
  List.filter Console.is_remote (Console.actions (Console.list self Q))
  = [Console.EnginesList]
  /\ match Console.engines_list Q with
     | inr _ => Console.ending (Console.list self Q) = Deployment.Returned tt
     | inl e =>
         if Deployment.is_api_error e
         then Console.actions (Console.list self Q)
              = [Console.Did (Deployment.Print Deployment.Stdout
                                "Listing available agent deployments..."
                                Deployment.nl);
                 Console.EnginesList]
              /\ Deployment.is_type_error (Console.ending (Console.list self Q)) = true
         else Console.ending (Console.list self Q) = Deployment.Returned tt
     end.
Proof.
  destruct (Console.engines_list Q) as [e|l] eqn:Hlist.
  - unfold Console.list, Console.ask. rewrite Hlist.
    destruct e as [[| |] code message text|text|name|text|text|text];
      repeat split; reflexivity.
  - destruct l as [|d l].
    + unfold Console.list, Console.ask. rewrite Hlist. split; reflexivity.
    + rewrite (list_with_deployments self Q d l Hlist).
      split; [|reflexivity].
      unfold Console.actions at 1. cbn [fst].
      rewrite !List.filter_app, show_deployments_local. reflexivity.
Qed.

End ListFacts.

(** ** Sessions *)
Section SessionFacts.
Import Json.

(** X17: Without the agent, neither [create_session] nor [list_sessions] asks
    the platform for anything more: no session is created or listed. Both
    return normally when the agent is missing or the lookup failed outside
    the API; on any other API error the [TypeError] of the lookup, which
    they run outside their own handlers, ends them too. *)
Theorem sessions_need_the_agent
    (self : Deployment.AgentManager) (P : Deployment.platform) (Q : Console.api)
    (engine_id : Deployment.arg) (user_id : string) (e : Deployment.exn) :
  Deployment.engines_get P (Deployment.str engine_id) = inl e ->
  (List.filter Console.is_remote
     (Console.actions (Console.create_session self P Q engine_id user_id))
   = [Console.Did (Deployment.EnginesGet (Deployment.str engine_id))]
   /\ (if Deployment.reads_code e
       then Deployment.is_type_error
              (Console.ending (Console.create_session self P Q engine_id user_id))
            = true
       else Console.ending (Console.create_session self P Q engine_id user_id)
            = Deployment.Returned tt))
  /\ (List.filter Console.is_remote
        (Console.actions (Console.list_sessions self P Q engine_id user_id))
      = [Console.Did (Deployment.EnginesGet (Deployment.str engine_id))]
      /\ (if Deployment.reads_code e
          then Deployment.is_type_error
                 (Console.ending (Console.list_sessions self P Q engine_id user_id))
               = true
          else Console.ending (Console.list_sessions self P Q engine_id user_id)
               = Deployment.Returned tt)).
Proof.
  intros Hget.
  unfold Console.create_session, Console.list_sessions, Console.lift,
    Deployment._get_remote_agent, Deployment.call.
  rewrite Hget.
  destruct e as [[| |] code message text|text|name|text|text|text];
    repeat split; reflexivity.
Qed.

Lemma sessions_need_the_agent_witness :
  Deployment.engines_get Cases.without_agent (Deployment.str (Deployment.AInt 42))
  = inl Cases.not_found
  /\ List.filter Console.is_remote
       (Console.actions
          (Console.create_session Sample.manager Cases.without_agent Cases.console
             (Deployment.AInt 42) "default-user"))
     = [Console.Did (Deployment.EnginesGet "42")]
  /\ Console.ending
       (Console.create_session Sample.manager Cases.without_agent Cases.console
          (Deployment.AInt 42) "default-user")
     = Deployment.Returned tt
  /\ Deployment.is_type_error
       (Console.ending
          (Console.list_sessions Sample.manager Cases.without_permission Cases.console
             (Deployment.AInt 42) "default-user"))
     = true.
Proof.
  split; [reflexivity|].
  destruct (sessions_need_the_agent Sample.manager Cases.without_agent
              Cases.console (Deployment.AInt 42) "default-user"
              Cases.not_found eq_refl) as [[Hcall Hreturns] _].
  split; [exact Hcall|]. split; [exact Hreturns|].
  exact (proj2 (proj2 (sessions_need_the_agent Sample.manager Cases.without_permission
                         Cases.console (Deployment.AInt 42) "default-user"
                         Cases.forbidden eq_refl))).
Defined.

(** X18: When the platform answers [create_session] with a dictionary, the
    session id shown is its "id", or N/A when it has none. *)
Theorem create_session_shows_the_id_or_NA
    (self : Deployment.AgentManager) (P : Deployment.platform) (Q : Console.api)
    (engine_id : Deployment.arg) (user_id : string) (items : list (pyval * pyval)) :
  Deployment.engines_get P (Deployment.str engine_id) = inr tt ->
  Console.agent_create_session Q (Deployment.str engine_id) user_id = inr (PDict items) ->
  Console.create_session self P Q engine_id user_id
  = ([ Console.Did (Deployment.Print Deployment.Stdout
                      ("Creating new session for user '" +:+ user_id +:+ "'...")
                      Deployment.nl);
       Console.Did (Deployment.EnginesGet (Deployment.str engine_id));
       Console.CreateSession (Deployment.str engine_id) user_id;
       Console.Did (Deployment.Print Deployment.Stdout
                      (Deployment.nl +:+ "Session created:") Deployment.nl);
       Console.PrintField "   Session ID: "
         (match dict_get "id" items with
          | Some session_id => session_id
          | None => PStr "N/A"
          end);
       Console.Did (Deployment.Print Deployment.Stdout ("   User ID: " +:+ user_id)
                      Deployment.nl) ],
     Deployment.Returned tt).
Proof.
  intros Hget Hcreate.
  unfold Console.create_session, Console.lift, Console.ask,
    Deployment._get_remote_agent, Deployment.call.
  rewrite Hget, Hcreate.
  unfold mbind, Console.Run_bind, Console.py_get. cbn.
  destruct (dict_get "id" items) as [session_id|]; reflexivity.
Qed.

Lemma create_session_shows_the_id_witness :
  Deployment.engines_get Sample.cloud (Deployment.str (Deployment.AInt 42)) = inr tt
  /\ Console.agent_create_session Cases.console (Deployment.str (Deployment.AInt 42))
       "default-user"
     = inr (PDict [(PStr "id", PStr "s-1"); (PStr "userId", PStr "default-user")])
  /\ In (Console.PrintField "   Session ID: " (PStr "s-1"))
        (Console.actions
           (Console.create_session Sample.manager Sample.cloud Cases.console
              (Deployment.AInt 42) "default-user")).
Proof.
  split; [reflexivity|]. split; [reflexivity|].
  rewrite (create_session_shows_the_id_or_NA Sample.manager Sample.cloud Cases.console
             (Deployment.AInt 42) "default-user" _ eq_refl eq_refl).
  cbn. tauto.
Defined.

Lemma show_sessions_dicts (dicts : list (list (pyval * pyval))) :
  Console.show_sessions (map PDict dicts)
  = (map (fun d => Console.PrintField "- "
                     (match dict_get "id" d with
                      | Some session_id => session_id
                      | None => PNone
                      end)) dicts,
     Deployment.Returned tt).
Proof.
  induction dicts as [|d dicts IH]; [reflexivity|].
  cbn [map Console.show_sessions]. rewrite IH.
  unfold Console.py_get. destruct (dict_get "id" d); reflexivity.
Qed.

(** X19: When the answer of the platform holds a list of sessions that is not
    empty, each a dictionary, [list_sessions] prints one line for every
    session, in the order given, with its "id" (or None when it has
    none), between a heading and a closing rule. *)
Theorem list_sessions_shows_every_session
    (self : Deployment.AgentManager) (P : Deployment.platform) (Q : Console.api)
    (engine_id : Deployment.arg) (user_id : string)
    (items : list (pyval * pyval)) (dicts : list (list (pyval * pyval))) :
  Deployment.engines_get P (Deployment.str engine_id) = inr tt ->
  Console.agent_list_sessions Q (Deployment.str engine_id) user_id = inr (PDict items) ->
  dict_get "sessions" items = Some (PList (map PDict dicts)) ->
  dicts <> [] ->
  Console.list_sessions self P Q engine_id user_id
  = ([ Console.Did (Deployment.Print Deployment.Stdout
                      ("Listing sessions for user '" +:+ user_id +:+ "'...")
                      Deployment.nl);
       Console.Did (Deployment.EnginesGet (Deployment.str engine_id));
       Console.ListSessions (Deployment.str engine_id) user_id;
       Console.Did (Deployment.Print Deployment.Stdout
                      (Deployment.nl +:+ "--- Sessions for " +:+ user_id +:+ " ---")
                      Deployment.nl) ]
     ++ map (fun d => Console.PrintField "- "
                        (match dict_get "id" d with
                         | Some session_id => session_id
                         | None => PNone
                         end)) dicts
     ++ [ Console.Did (Deployment.Print Deployment.Stdout
                         "--------------------------" Deployment.nl) ],
     Deployment.Returned tt).
Proof.
  intros Hget Hlist Hsessions Hne.
  unfold Console.list_sessions, Console.lift, Console.ask,
    Deployment._get_remote_agent, Deployment.call.
  rewrite Hget, Hlist.
  destruct dicts as [|d dicts]; [contradiction|].
  pose proof (show_sessions_dicts (d :: dicts)) as Hloop. cbn [map] in Hloop.
  unfold mbind, Console.Run_bind, Console.py_get. cbn -[Console.show_sessions].
  rewrite Hsessions. cbn -[Console.show_sessions].
  rewrite Hloop. cbn. rewrite ?app_nil_r. reflexivity.
Qed.

Lemma list_sessions_shows_every_session_witness :
  Deployment.engines_get Sample.cloud (Deployment.str (Deployment.AInt 42)) = inr tt
  /\ [[(PStr "id", PStr "s-1")]; [(PStr "id", PStr "s-2")]] <> []
  /\ List.filter (fun a => match a with Console.PrintField _ _ => true | _ => false end)
       (Console.actions
          (Console.list_sessions Sample.manager Sample.cloud Cases.console
             (Deployment.AInt 42) "default-user"))
     = [Console.PrintField "- " (PStr "s-1"); Console.PrintField "- " (PStr "s-2")].
Proof.
  assert (Hne : [[(PStr "id", PStr "s-1")]; [(PStr "id", PStr "s-2")]] <> [])
    by discriminate.
  split; [reflexivity|]. split; [exact Hne|].
  rewrite (list_sessions_shows_every_session Sample.manager Sample.cloud Cases.console
             (Deployment.AInt 42) "default-user" _
             [[(PStr "id", PStr "s-1")]; [(PStr "id", PStr "s-2")]]
             eq_refl eq_refl eq_refl Hne).
  reflexivity.
Defined.

(** X20: When the answer of the platform is a dictionary whose "sessions" is
    missing, empty or otherwise falsy, [list_sessions] says that no
    session was found and prints no table. *)
Theorem list_sessions_without_sessions
    (self : Deployment.AgentManager) (P : Deployment.platform) (Q : Console.api)
    (engine_id : Deployment.arg) (user_id : string) (items : list (pyval * pyval)) :
  Deployment.engines_get P (Deployment.str engine_id) = inr tt ->
  Console.agent_list_sessions Q (Deployment.str engine_id) user_id = inr (PDict items) ->
  truthy (match dict_get "sessions" items with
          | Some sessions_list => sessions_list
          | None => PList []
          end) = false ->
  Console.list_sessions self P Q engine_id user_id
  = ([ Console.Did (Deployment.Print Deployment.Stdout
                      ("Listing sessions for user '" +:+ user_id +:+ "'...")
                      Deployment.nl);
       Console.Did (Deployment.EnginesGet (Deployment.str engine_id));
       Console.ListSessions (Deployment.str engine_id) user_id;
       Console.Did (Deployment.Print Deployment.Stdout
                      ("No sessions found for user '" +:+ user_id +:+ "'.")
                      Deployment.nl) ],
     Deployment.Returned tt).
Proof.
  intros Hget Hlist Hfalsy.
  unfold Console.list_sessions, Console.lift, Console.ask,
    Deployment._get_remote_agent, Deployment.call.
  rewrite Hget, Hlist.
  unfold mbind, Console.Run_bind, Console.py_get. cbn -[truthy].
  destruct (dict_get "sessions" items) as [sessions_list|];
    cbn -[truthy] in *; rewrite Hfalsy; reflexivity.
Qed.

Lemma list_sessions_without_sessions_witness :
  Deployment.engines_get Sample.cloud (Deployment.str (Deployment.AInt 42)) = inr tt
  /\ Console.agent_list_sessions Cases.empty_console (Deployment.str (Deployment.AInt 42))
       "default-user" = inr (PDict [])
  /\ Console.ending
       (Console.list_sessions Sample.manager Sample.cloud Cases.empty_console
          (Deployment.AInt 42) "default-user")
     = Deployment.Returned tt.
Proof.
  split; [reflexivity|]. split; [reflexivity|].
  rewrite (list_sessions_without_sessions Sample.manager Sample.cloud Cases.empty_console
             (Deployment.AInt 42) "default-user" [] eq_refl eq_refl eq_refl).
  reflexivity.
Defined.

End SessionFacts.

(** ** How the session operations end *)
Section SessionTotalFacts.
Import Json.

(** A computation that does not leave the process. *)
Definition stays {A : Type} (m : Console.Run A) : Prop :=
  forall code, Console.ending m <> Deployment.Exited code.

Lemma stays_then {A B : Type} (m : Console.Run A) (k : A -> Console.Run B) :
  stays m -> (forall a, stays (k a)) -> stays (Console.then_ m k).
Proof.
  intros Hm Hk code. destruct m as [t [a|e|c]]; cbn.
  - specialize (Hk a code). destruct (k a) as [t' r]. exact Hk.
  - discriminate.
  - exfalso. apply (Hm c). reflexivity.
Qed.

Lemma stays_pair {A : Type} (t : list Console.action) (r : Deployment.outcome A) :
  (forall code, r <> Deployment.Exited code) -> stays (t, r).
Proof. intros H code. apply H. Qed.

Lemma stays_say (text : string) : stays (Console.say text).
Proof. apply stays_pair. discriminate. Qed.

Lemma stays_act (a : Console.action) : stays (Console.act a).
Proof. apply stays_pair. discriminate. Qed.

Lemma stays_ask {A : Type} (a : Console.action) (answer : Deployment.exn + A) :
  stays (Console.ask a answer).
Proof. destruct answer; apply stays_pair; discriminate. Qed.

Lemma stays_py_get (o : pyval) (key : string) (default_ : pyval) :
  stays (Console.py_get o key default_).
Proof. destruct o; apply stays_pair; discriminate. Qed.

Lemma stays_py_iter (o : pyval) : stays (Console.py_iter o).
Proof. destruct o; apply stays_pair; discriminate. Qed.

Lemma stays_show_sessions (l : list pyval) : stays (Console.show_sessions l).
Proof.
  induction l as [|o l IH]; [apply stays_pair; discriminate|].
  cbn [Console.show_sessions].
  apply stays_then; [apply stays_py_get|]. intros session_id.
  apply stays_then; [apply stays_act|]. intros _. exact IH.
Qed.

Lemma guarded_returns (body : Console.Run unit)
    (handler : Deployment.exn -> Console.Run unit) :
  stays body ->
  (forall e, Console.ending (handler e) = Deployment.Returned tt) ->
  Console.ending (Console.guarded body handler) = Deployment.Returned tt.
Proof.
  intros Hbody Hhandler. destruct body as [t [[]|e|code]]; cbn.
  - reflexivity.
  - specialize (Hhandler e). destruct (handler e) as [t' r]. exact Hhandler.
  - exfalso. apply (Hbody code). reflexivity.
Qed.

Lemma ending_then {A B : Type} (m : Console.Run A) (k : A -> Console.Run B)
    (t : list Console.action) (a : A) :
  m = (t, Deployment.Returned a) ->
  Console.ending (Console.then_ m k) = Console.ending (k a).
Proof. intros ->. cbn. destruct (k a). reflexivity. Qed.

Lemma found_agent (P : Deployment.platform) (engine_id : Deployment.arg) :
  Deployment.engines_get P (Deployment.str engine_id) = inr tt ->
  Console.lift (Deployment._get_remote_agent P engine_id)
  = ([Console.Did (Deployment.EnginesGet (Deployment.str engine_id))],
     Deployment.Returned true).
Proof.
  intros Hget. unfold Console.lift, Deployment._get_remote_agent, Deployment.call.
  rewrite Hget. reflexivity.
Qed.

Lemma ending_raised {A B : Type} (m : Console.Run A) (k : A -> Console.Run B)
    (t : list Console.action) (e : Deployment.exn) :
  m = (t, Deployment.Raised e) ->
  Console.ending (Console.then_ m k) = Deployment.Raised e.
Proof. intros ->. reflexivity. Qed.

Lemma missing_agent (P : Deployment.platform) (engine_id : Deployment.arg)
    (e : Deployment.exn) :
  Deployment.engines_get P (Deployment.str engine_id) = inl e ->
  exists t, Console.lift (Deployment._get_remote_agent P engine_id)
            = (t, if Deployment.reads_code e
                  then Deployment.Raised Deployment.not_callable
                  else Deployment.Returned false).
Proof.
  intros Hget. unfold Console.lift, Deployment._get_remote_agent, Deployment.call.
  rewrite Hget.
  destruct e as [[| |] code message text|text|name|text|text|text]; eexists; reflexivity.
Qed.

(** X21: How [create_session] and [list_sessions] end depends on the lookup
    of the agent alone. Once the agent is retrieved they return normally
    whatever the platform answers about sessions, also when the answer is
    not of the shape they read; so they do when the agent is missing or
    the lookup failed outside the API. Only an API error of the lookup
    other than a missing resource ends them, with the [TypeError] of
    [e.code()]. *)
Theorem session_operations_end_as_the_lookup
    (self : Deployment.AgentManager) (P : Deployment.platform) (Q : Console.api)
    (engine_id : Deployment.arg) (user_id : string) :
  match Deployment.engines_get P (Deployment.str engine_id) with
  | inl e =>
      if Deployment.reads_code e
      then Deployment.is_type_error
             (Console.ending (Console.create_session self P Q engine_id user_id)) = true
           /\ Deployment.is_type_error
                (Console.ending (Console.list_sessions self P Q engine_id user_id)) = true
      else Console.ending (Console.create_session self P Q engine_id user_id)
           = Deployment.Returned tt
           /\ Console.ending (Console.list_sessions self P Q engine_id user_id)
              = Deployment.Returned tt
  | inr _ =>
      Console.ending (Console.create_session self P Q engine_id user_id)
      = Deployment.Returned tt
      /\ Console.ending (Console.list_sessions self P Q engine_id user_id)
         = Deployment.Returned tt
  end.
Proof.
  unfold Console.create_session, Console.list_sessions, mbind, Console.Run_bind.
  destruct (Deployment.engines_get P (Deployment.str engine_id)) as [e|[]] eqn:Eget.
  - destruct (missing_agent P engine_id e Eget) as [t Ht].
    destruct (Deployment.reads_code e); split.
    + erewrite ending_then; [|reflexivity]. erewrite ending_raised; [|exact Ht].
      reflexivity.
    + erewrite ending_then; [|reflexivity]. erewrite ending_raised; [|exact Ht].
      reflexivity.
    + erewrite ending_then; [|reflexivity]. erewrite ending_then; [|exact Ht].
      reflexivity.
    + erewrite ending_then; [|reflexivity]. erewrite ending_then; [|exact Ht].
      reflexivity.
  - pose proof (found_agent P engine_id Eget) as Ht.
    split.
    + erewrite ending_then; [|reflexivity]. erewrite ending_then; [|exact Ht].
      cbn [negb]. apply guarded_returns; [|intros e; reflexivity].
      apply stays_then; [apply stays_ask|]. intros session.
      apply stays_then; [apply stays_say|]. intros _.
      apply stays_then; [apply stays_py_get|]. intros session_id.
      apply stays_then; [apply stays_act|]. intros _. apply stays_say.
    + erewrite ending_then; [|reflexivity]. erewrite ending_then; [|exact Ht].
      cbn [negb]. apply guarded_returns; [|intros e; reflexivity].
      apply stays_then; [apply stays_ask|]. intros response_data.
      apply stays_then; [apply stays_py_get|]. intros sessions_list.
      destruct (negb (truthy sessions_list)); [apply stays_say|].
      apply stays_then; [apply stays_say|]. intros _.
      apply stays_then; [apply stays_py_iter|]. intros sessions.
      apply stays_then; [apply stays_show_sessions|]. intros _. apply stays_say.
Qed.

End SessionTotalFacts.

(** ** format_as_json: when it fails, and what its text holds *)
Section FormatMoreFacts.
Import Json Reader Tools.

Lemma encode_items_each {A : Type} (enc : A -> result) (nli : string)
    (first : bool) (l : list A) (body : string) :
  encode_items enc nli first l = Encoded body ->
  Forall (fun x => exists s, enc x = Encoded s) l.
Proof.
  revert first body. induction l as [|x l IH]; intros first body; simpl; [constructor|].
  destruct (enc x) as [chunk|] eqn:Ex; [|discriminate].
  destruct (encode_items enc nli false l) as [rest|] eqn:Er; [|discriminate].
  intros _. constructor; [eauto | exact (IH false rest Er)].
Qed.

(** Only a serializable object has a text. *)
Lemma iterencode_serializable (indent : nat) (o : pyval) :
  forall level s, iterencode indent level o = Encoded s -> serializable o = true.
Proof.
  induction o as [ |b|n|str|items IH|items IH|type_name] using pyval_nested_ind;
    intros level s; try reflexivity.
  - destruct items as [|o items]; [reflexivity|].
    cbn [iterencode].
    destruct (encode_items _ _ true (o :: items)) as [body|] eqn:Eb; [|discriminate].
    intros _. apply encode_items_each in Eb.
    change (forallb serializable (o :: items) = true).
    apply forallb_forall. intros x Hx.
    rewrite List.Forall_forall in IH, Eb.
    destruct (Eb x Hx) as [chunk Hchunk]. exact (IH x Hx _ _ Hchunk).
  - destruct items as [|kv items]; [reflexivity|].
    cbn [iterencode].
    destruct (encode_items _ _ true (kv :: items)) as [body|] eqn:Eb; [|discriminate].
    intros _. apply encode_items_each in Eb.
    change (forallb (fun kv => match kv with
                               | (key, value) => bool_decide (is_Some (key_text key))
                                                 && serializable value
                               end) (kv :: items) = true).
    apply forallb_forall. intros [k v] Hx.
    rewrite List.Forall_forall in IH, Eb.
    destruct (Eb (k, v) Hx) as [chunk Hchunk]. cbn beta iota in Hchunk.
    unfold encode_member in Hchunk.
    destruct (key_text k) as [kt|] eqn:Ek; [|discriminate].
    destruct (iterencode indent (S level) v) as [c|] eqn:Ev; [|discriminate].
    apply andb_true_intro. split.
    + apply bool_decide_eq_true. eauto.
    + exact (IH (k, v) Hx _ _ Ev).
  - discriminate.
Qed.

(** X22: [format_as_json] gives a text exactly when every value is
    serializable; otherwise it raises the [TypeError] of [json.dumps]. *)
Theorem format_as_json_succeeds_exactly_on_serializable_values (kw : kwargs) :
  (exists out, format_as_json kw = Encoded out)
  <-> Forall (fun kv => serializable (snd kv) = true) kw.
Proof.
  split; [|apply format_as_json_total].
  intros [out Hout]. apply iterencode_serializable in Hout.
  unfold as_dict in Hout.
  change (forallb (fun kv => match kv with
                             | (key, value) => bool_decide (is_Some (key_text key))
                                               && serializable value
                             end) (map (fun kv => (PStr (fst kv), snd kv)) kw) = true)
    in Hout.
  rewrite forallb_forall in Hout.
  apply List.Forall_forall. intros [k v] Hkv.
  specialize (Hout (PStr k, v)). cbn beta iota in Hout.
  apply andb_prop in Hout as [_ Hv]; [exact Hv|].
  apply (in_map (fun kv => (PStr (fst kv), snd kv)) kw (k, v)), Hkv.
Qed.

(** X23: Two calls that give the same text were given the same argument names
    in the same order: reordering or renaming keyword arguments always
    changes the text. *)
Theorem format_as_json_text_determines_the_names (kw1 kw2 : kwargs) (out : string) :
  format_as_json kw1 = Encoded out ->
  format_as_json kw2 = Encoded out ->
  map fst kw1 = map fst kw2.
Proof.
  intros H1 H2.
  rewrite <- (format_as_json_read_back kw1 out H1).
  apply (format_as_json_read_back kw2 out H2).
Qed.

Lemma format_as_json_text_determines_the_names_witness :
  format_as_json Sample.envelope = Encoded Sample.envelope_text
  /\ map fst Sample.envelope = map fst Sample.envelope.
Proof.
  split; [exact format_as_json_envelope|].
  exact (format_as_json_text_determines_the_names Sample.envelope Sample.envelope
           Sample.envelope_text format_as_json_envelope format_as_json_envelope).
Defined.

End FormatMoreFacts.

(** ** format_as_json writes plain text *)
Section PlainTextFacts.
Import Json Reader Tools.

(** A line break or a printable ASCII character (space to tilde). *)
Definition plain_char (c : ascii) : bool :=
  Ascii.eqb c newline || ((32 <=? N_of_ascii c) && (N_of_ascii c <=? 126))%N.

Fixpoint plain (s : string) : bool :=
  match s with
  | EmptyString => true
  | String c s' => plain_char c && plain s'
  end.

Lemma plain_append (a b : string) : plain (a +:+ b) = plain a && plain b.
Proof.
  induction a as [|c a IH]; [reflexivity|].
  rewrite append_cons. simpl. rewrite IH, andb_assoc. reflexivity.
Qed.

Lemma escape_char_plain (c : ascii) : plain (escape_char c) = true.
Proof. destruct c as [[] [] [] [] [] [] [] []]; reflexivity. Qed.

Lemma escape_body_plain (s : string) : plain (escape_body s) = true.
Proof.
  induction s as [|c s IH]; [reflexivity|].
  simpl. rewrite plain_append, escape_char_plain, IH. reflexivity.
Qed.

Lemma literal_plain (s : string) : plain (encode_basestring_ascii s) = true.
Proof.
  unfold encode_basestring_ascii. simpl.
  rewrite plain_append, escape_body_plain. reflexivity.
Qed.

Lemma newline_indent_plain (indent level : nat) :
  plain (newline_indent indent level) = true.
Proof.
  unfold newline_indent. simpl.
  induction (indent * level)%nat as [|n IH]; [reflexivity | exact IH].
Qed.

Lemma uint_plain (d : Decimal.uint) : plain (NilEmpty.string_of_uint d) = true.
Proof. induction d; simpl; auto. Qed.

Lemma str_of_int_plain (n : Z) : plain (Py.str_of_int n) = true.
Proof.
  unfold Py.str_of_int, NilZero.string_of_int, NilZero.string_of_uint.
  destruct (Z.to_int n) as [d|d]; destruct d; simpl;
    rewrite ?uint_plain; reflexivity.
Qed.

Lemma encode_items_plain {A : Type} (enc : A -> result) (nli : string)
    (first : bool) (l : list A) (body : string) :
  plain nli = true ->
  Forall (fun x => forall s, enc x = Encoded s -> plain s = true) l ->
  encode_items enc nli first l = Encoded body ->
  plain body = true.
Proof.
  intros Hnli. revert first body.
  induction l as [|x l IH]; intros first body Hl; simpl.
  - intros [= <-]. reflexivity.
  - inversion Hl as [|? ? Hx Hl']; subst.
    destruct (enc x) as [chunk|] eqn:Ex; [|discriminate].
    destruct (encode_items enc nli false l) as [rest|] eqn:Er; [|discriminate].
    intros [= <-].
    rewrite !plain_append, (Hx chunk eq_refl), (IH false rest Hl' Er).
    destruct first; simpl; rewrite Hnli; reflexivity.
Qed.

Lemma member_plain (key : pyval) (value : result) (s : string) :
  (forall chunk, value = Encoded chunk -> plain chunk = true) ->
  encode_member key value = Encoded s -> plain s = true.
Proof.
  intros Hvalue. unfold encode_member.
  destruct (key_text key) as [k|]; [|discriminate].
  destruct value as [chunk|]; [|discriminate].
  intros [= <-].
  rewrite !plain_append, literal_plain, (Hvalue chunk eq_refl). reflexivity.
Qed.

Lemma iterencode_plain (indent : nat) (o : pyval) :
  forall level s, iterencode indent level o = Encoded s -> plain s = true.
Proof.
  induction o as [ |b|n|str|items IH|items IH|type_name] using pyval_nested_ind;
    intros level s.
  - intros [= <-]. reflexivity.
  - destruct b; intros [= <-]; reflexivity.
  - intros [= <-]. apply str_of_int_plain.
  - intros [= <-]. apply literal_plain.
  - destruct items as [|o items]; [intros [= <-]; reflexivity|].
    cbn [iterencode].
    destruct (encode_items _ _ true (o :: items)) as [body|] eqn:Eb; [|discriminate].
    intros [= <-]. simpl.
    rewrite !plain_append, newline_indent_plain, andb_true_r.
    eapply encode_items_plain; [apply newline_indent_plain| |exact Eb].
    eapply List.Forall_impl; [|exact IH].
    intros x Hx chunk. apply Hx.
  - destruct items as [|kv items]; [intros [= <-]; reflexivity|].
    cbn [iterencode].
    destruct (encode_items _ _ true (kv :: items)) as [body|] eqn:Eb; [|discriminate].
    intros [= <-]. simpl.
    rewrite !plain_append, newline_indent_plain, andb_true_r.
    eapply encode_items_plain; [apply newline_indent_plain| |exact Eb].
    eapply List.Forall_impl; [|exact IH].
    intros [k v] Hv chunk. cbn [snd] in Hv.
    apply member_plain. intros c. apply Hv.
  - discriminate.
Qed.

(** X24: The text [format_as_json] gives holds only line breaks and printable
    ASCII characters: no tab, carriage return or other control character
    and nothing outside ASCII, whatever the texts among the arguments
    hold. *)
Theorem format_as_json_writes_plain_text (kw : kwargs) (out : string) :
  format_as_json kw = Encoded out -> plain out = true.
Proof. apply iterencode_plain. Qed.

Lemma format_as_json_writes_plain_text_witness :
  format_as_json Sample.envelope = Encoded Sample.envelope_text
  /\ plain Sample.envelope_text = true.
Proof.
  split; [exact format_as_json_envelope|].
  exact (format_as_json_writes_plain_text Sample.envelope Sample.envelope_text
           format_as_json_envelope).
Defined.

End PlainTextFacts.

(** ** Engine ids and resource names *)
Section EngineIdFacts.

Lemma prefix_split (p s : string) :
  String.prefix p s = true -> exists rest, s = p +:+ rest.
Proof.
  revert s. induction p as [|a p IH]; intros s; [exists s; reflexivity|].
  destruct s as [|b s]; simpl; [discriminate|].
  destruct (ascii_dec a b) as [->|]; [|discriminate].
  intros H. destruct (IH s H) as [rest ->]. exists rest. reflexivity.
Qed.

(** A text that holds another holds at least its characters. *)
Lemma contains_count (c : ascii) (p s : string) :
  Py.contains p s = true -> (Py.count_char c p <= Py.count_char c s)%nat.
Proof.
  induction s as [|x s IH]; cbn [Py.contains].
  - rewrite orb_false_r. intros H. destruct (prefix_split _ _ H) as [rest Hrest].
    rewrite Hrest, count_char_append. lia.
  - intros [H|H]%orb_prop.
    + destruct (prefix_split _ _ H) as [rest Hrest].
      rewrite Hrest, count_char_append. lia.
    + specialize (IH H). simpl. lia.
Qed.

Lemma split_free (sep : ascii) (s : string) :
  Py.count_char sep s = O -> Py.split sep s = [s].
Proof.
  induction s as [|c s IH]; simpl; [reflexivity|].
  destruct (Ascii.eqb c sep); [discriminate|].
  intros H. rewrite (IH H). reflexivity.
Qed.

Lemma split_after_separator (sep : ascii) (a b : string) :
  exists piece pieces,
    Py.split sep (a +:+ String sep b) = (piece :: pieces) ++ Py.split sep b.
Proof.
  induction a as [|c a (piece & pieces & IH)].
  - exists EmptyString, []. simpl. rewrite Ascii.eqb_refl. reflexivity.
  - rewrite append_cons. simpl. rewrite IH.
    destruct (Ascii.eqb c sep).
    + exists EmptyString, (piece :: pieces). reflexivity.
    + exists (String c piece), pieces. reflexivity.
Qed.

Lemma last_piece_after (front back : list string) :
  back <> [] -> Py.last_piece (front ++ back) = Py.last_piece back.
Proof.
  intros Hback. unfold Py.last_piece.
  induction front as [|x front IH]; [reflexivity|].
  simpl. rewrite IH.
  destruct (front ++ back) eqn:E; [|reflexivity].
  apply app_eq_nil in E as [_ ->]. contradiction.
Qed.

(** X25: The engine id that [create] and [list] cut out of a resource name
    (the text after the last slash) is the short id the name was built
    from: for an id without a slash, the last segment of
    [_get_full_resource_name] of the id is the id. *)
Theorem engine_id_of_full_resource_name
    (self : Deployment.AgentManager) (engine_id : Deployment.arg) :
  Py.count_char "/" (Deployment.str engine_id) = O ->
  Py.last_piece (Py.split "/" (Deployment._get_full_resource_name self engine_id))
  = Deployment.str engine_id.
Proof.
  intros Hfree. unfold Deployment._get_full_resource_name.
  destruct (Py.contains "projects/" (Deployment.str engine_id)) eqn:E.
  - apply (contains_count "/"%char) in E. rewrite Hfree in E.
    cbn in E. lia.
  - change ("/reasoningEngines/" +:+ Deployment.str engine_id)
      with ("/reasoningEngines" +:+ String "/" (Deployment.str engine_id)).
    rewrite <- !append_assoc.
    destruct (split_after_separator "/"%char
                ((("projects/" +:+ Deployment.fmt (Deployment.project_id self))
                  +:+ "/locations/") +:+ Deployment.fmt (Deployment.location self)
                 +:+ "/reasoningEngines")
                (Deployment.str engine_id)) as (piece & pieces & Hsplit).
    rewrite <- !append_assoc in Hsplit. rewrite Hsplit.
    rewrite last_piece_after by apply split_not_nil.
    rewrite (split_free _ _ Hfree). reflexivity.
Qed.

Lemma engine_id_of_full_resource_name_witness :
  Py.count_char "/" (Deployment.str (Deployment.AInt 42)) = O
  /\ Py.last_piece
       (Py.split "/" (Deployment._get_full_resource_name Sample.manager (Deployment.AInt 42)))
     = "42".
Proof.
  split; [reflexivity|].
  exact (engine_id_of_full_resource_name Sample.manager (Deployment.AInt 42) eq_refl).
Defined.

End EngineIdFacts.

(** ** The entries of the requirements list *)
Section StripFacts.

Lemma lstrip_lstrip (s : string) : Py.lstrip (Py.lstrip s) = Py.lstrip s.
Proof.
  induction s as [|c s IH]; [reflexivity|].
  simpl. destruct (Py.is_space c) eqn:E; [exact IH|].
  simpl. rewrite E. reflexivity.
Qed.

Lemma rstrip_rstrip (s : string) : Py.rstrip (Py.rstrip s) = Py.rstrip s.
Proof. unfold Py.rstrip. rewrite rev_rev, lstrip_lstrip. reflexivity. Qed.

Lemma rev_app_append_acc (a acc b : string) :
  String.rev_app a acc +:+ b = String.rev_app a (acc +:+ b).
Proof.
  revert acc. induction a as [|x a IH]; intros acc; [reflexivity|].
  simpl. rewrite IH. reflexivity.
Qed.

Lemma rev_app_to_append (s acc : string) :
  String.rev_app s acc = String.rev s +:+ acc.
Proof. unfold String.rev. rewrite rev_app_append_acc. reflexivity. Qed.

(** Before a text that starts with another character, stripping on the
    left takes spaces of the front only. *)
Lemma lstrip_append_kept (u v : string) (c : ascii) :
  Py.is_space c = false ->
  exists w, Py.lstrip (u +:+ String c v) = w +:+ String c v.
Proof.
  intros Hc. induction u as [|x u [w IH]].
  - exists EmptyString. simpl. rewrite Hc. reflexivity.
  - rewrite append_cons. simpl. destruct (Py.is_space x).
    + exists w. exact IH.
    + exists (String x u). reflexivity.
Qed.

(** Stripping on the right keeps a first character that is not a space. *)
Lemma rstrip_keeps_start (c : ascii) (s : string) :
  Py.is_space c = false ->
  exists rest, Py.rstrip (String c s) = String c rest.
Proof.
  intros Hc. unfold Py.rstrip.
  change (String.rev (String c s)) with (String.rev_app s (String c EmptyString)).
  rewrite (rev_app_to_append s (String c EmptyString)).
  destruct (lstrip_append_kept (String.rev s) EmptyString c Hc) as [w Hw].
  rewrite Hw. unfold String.rev at 1. rewrite rev_app_append. simpl. eauto.
Qed.

Lemma strip_strip (s : string) : Py.strip (Py.strip s) = Py.strip s.
Proof.
  unfold Py.strip at 1.
  assert (Hstart : Py.lstrip (Py.strip s) = Py.strip s).
  { unfold Py.strip.
    pose proof (lstrip_lstrip s) as Hl.
    destruct (Py.lstrip s) as [|c t] eqn:E; [reflexivity|].
    simpl in Hl. destruct (Py.is_space c) eqn:Ec.
    - exfalso. assert (Hlen : String.length (Py.lstrip t) = S (String.length t))
        by (rewrite Hl; reflexivity).
      clear -Hlen.
      assert (Hle : forall u, (String.length (Py.lstrip u) <= String.length u)%nat).
      { induction u as [|x u IHu]; simpl; [lia|].
        destruct (Py.is_space x); simpl; lia. }
      specialize (Hle t). lia.
    - destruct (rstrip_keeps_start c t Ec) as [rest ->].
      simpl. rewrite Ec. reflexivity. }
  rewrite Hstart. unfold Py.strip. apply rstrip_rstrip.
Qed.

(** X26: No entry of the requirements list has white space around it:
    stripping an entry again changes nothing. *)
Theorem requirements_are_stripped (agent_requirements_str : string) :
  Forall (fun requirement => Py.strip requirement = requirement)
         (Deployment.parse_requirements agent_requirements_str).
Proof.
  unfold Deployment.parse_requirements.
  apply List.Forall_forall. intros requirement Hin.
  apply List.in_map_iff in Hin as (piece & <- & _).
  apply strip_strip.
Qed.

End StripFacts.

(** ** The requirements list, entry by entry *)
Section RequirementsFacts.

(** White space only. *)
Fixpoint all_space (s : string) : bool :=
  match s with
  | EmptyString => true
  | String c s' => Py.is_space c && all_space s'
  end.

(** No white space at the front, at the back. *)
Definition starts_clean (s : string) : bool :=
  match s with
  | EmptyString => true
  | String c _ => negb (Py.is_space c)
  end.

Definition ends_clean (s : string) : bool := starts_clean (String.rev s).

Lemma lstrip_parts (s : string) :
  exists lead, s = lead +:+ Py.lstrip s /\ all_space lead = true.
Proof.
  induction s as [|c s [lead [IH Hlead]]].
  - exists EmptyString. split; reflexivity.
  - simpl. destruct (Py.is_space c) eqn:Ec.
    + exists (String c lead). split; [rewrite append_cons, <- IH; reflexivity|].
      simpl. rewrite Ec. exact Hlead.
    + exists EmptyString. split; reflexivity.
Qed.

Lemma lstrip_starts_clean (s : string) : starts_clean (Py.lstrip s) = true.
Proof.
  induction s as [|c s IH]; [reflexivity|].
  simpl. destruct (Py.is_space c) eqn:Ec; [exact IH|].
  simpl. rewrite Ec. reflexivity.
Qed.

Lemma all_space_rev_app (s acc : string) :
  all_space (String.rev_app s acc) = all_space s && all_space acc.
Proof.
  revert acc. induction s as [|c s IH]; intros acc; [reflexivity|].
  simpl. rewrite IH. simpl. destruct (Py.is_space c), (all_space s); reflexivity.
Qed.

Lemma rev_append (a b : string) :
  String.rev (a +:+ b) = String.rev b +:+ String.rev a.
Proof.
  unfold String.rev at 1. rewrite rev_app_append. apply rev_app_to_append.
Qed.

Lemma rstrip_parts (s : string) :
  exists trail, s = Py.rstrip s +:+ trail /\ all_space trail = true.
Proof.
  destruct (lstrip_parts (String.rev s)) as [lead [Hrev Hlead]].
  exists (String.rev lead). split.
  - unfold Py.rstrip. rewrite <- rev_append, <- Hrev, rev_rev. reflexivity.
  - unfold String.rev. rewrite all_space_rev_app, Hlead. reflexivity.
Qed.

Lemma rstrip_ends_clean (s : string) : ends_clean (Py.rstrip s) = true.
Proof. unfold ends_clean, Py.rstrip. rewrite rev_rev. apply lstrip_starts_clean. Qed.

Lemma rstrip_starts_clean (s : string) :
  starts_clean s = true -> starts_clean (Py.rstrip s) = true.
Proof.
  destruct s as [|c t]; [reflexivity|].
  simpl. intros Hc. apply negb_true_iff in Hc.
  destruct (rstrip_keeps_start c t Hc) as [rest ->].
  simpl. rewrite Hc. reflexivity.
Qed.

(** What [strip] takes away is white space, and what it leaves has none
    at either end. *)
Lemma strip_parts (piece : string) :
  exists lead trail,
    piece = lead +:+ Py.strip piece +:+ trail
    /\ all_space lead = true /\ all_space trail = true
    /\ starts_clean (Py.strip piece) = true /\ ends_clean (Py.strip piece) = true.
Proof.
  destruct (lstrip_parts piece) as [lead [Hpiece Hlead]].
  destruct (rstrip_parts (Py.lstrip piece)) as [trail [Hrest Htrail]].
  exists lead, trail. unfold Py.strip.
  split; [rewrite <- Hrest; exact Hpiece|].
  split; [exact Hlead|]. split; [exact Htrail|].
  split; [apply rstrip_starts_clean, lstrip_starts_clean | apply rstrip_ends_clean].
Qed.

(** The pieces of [split], joined by the separator, are the text. *)
Lemma join_split (sep : ascii) (s : string) :
  Py.join (String sep EmptyString) (Py.split sep s) = s.
Proof.
  unfold Py.join. induction s as [|c s IH]; [reflexivity|].
  cbn [Py.split]. pose proof (split_not_nil sep s) as Hnil.
  destruct (Ascii.eqb c sep) eqn:Ec.
  - apply Ascii.eqb_eq in Ec. subst c.
    destruct (Py.split sep s) as [|piece pieces]; [contradiction|].
    cbn [String.concat]. cbn [String.concat] in IH. rewrite IH. reflexivity.
  - destruct (Py.split sep s) as [|piece pieces]; [contradiction|].
    destruct pieces as [|piece' pieces]; cbn [String.concat] in *.
    + rewrite IH. reflexivity.
    + rewrite append_cons, IH. reflexivity.
Qed.

End RequirementsFacts.

Section RequirementsClaims.

(** C8: when AGENT_REQUIREMENTS is unset, the manager's requirements
    list is the default string split on its one comma, with the two
    entries "google-cloud-aiplatform[adk" and "agent_engines]". For every
    string the parser cuts at every comma, also inside brackets: the
    pieces, put together again with commas, are the string, there is one
    more entry than the string has commas and none holds a comma; and
    every entry is its piece without the white space around it: the piece
    is the entry between two runs of white space, and the entry has none
    at either end. *)
Theorem requirements_split_on_every_comma
    (environ dotenv : gmap string string) (P : Deployment.platform)
    (self : Deployment.AgentManager) (s : string) :
  (environ ∪ dotenv) !! "AGENT_REQUIREMENTS" = None ->
  Deployment.result_of (Deployment.__init__ environ dotenv P) = Deployment.Returned self ->
  Deployment.agent_requirements self = ["google-cloud-aiplatform[adk"; "agent_engines]"]
  /\ Deployment.parse_requirements Deployment.default_requirements
     = ["google-cloud-aiplatform[adk"; "agent_engines]"]
  /\ length (Deployment.parse_requirements s) = S (Py.count_char "," s)
  /\ Forall (fun requirement => Py.count_char "," requirement = O)
            (Deployment.parse_requirements s)
  /\ Py.join "," (Py.split "," s) = s
  /\ Forall2 (fun piece requirement =>
                exists lead trail,
                  piece = lead +:+ requirement +:+ trail
                  /\ all_space lead = true /\ all_space trail = true
                  /\ starts_clean requirement = true
                  /\ ends_clean requirement = true)
             (Py.split "," s) (Deployment.parse_requirements s).
Proof.
  intros Hunset Hret.
  apply init_returns in Hret. subst self.
  split; [|split; [|split; [|split; [|split]]]].
  - unfold Deployment.read_config. cbn [Deployment.agent_requirements].
    rewrite Hunset. reflexivity.
  - reflexivity.
  - unfold Deployment.parse_requirements.
    rewrite length_map. apply split_length.
  - unfold Deployment.parse_requirements.
    apply List.Forall_forall. intros requirement Hr.
    apply List.in_map_iff in Hr as (piece & <- & Hin).
    pose proof (split_pieces_free ","%char s) as Hfree.
    rewrite List.Forall_forall in Hfree. specialize (Hfree piece Hin).
    pose proof (count_char_strip ","%char piece). lia.
  - apply (join_split ","%char).
  - unfold Deployment.parse_requirements.
    induction (Py.split "," s) as [|piece pieces IH]; cbn [map]; constructor.
    + apply strip_parts.
    + exact IH.
Qed.

Lemma requirements_split_witness :
  (Sample.environ ∪ ∅) !! "AGENT_REQUIREMENTS" = None
  /\ Deployment.result_of (Deployment.__init__ Sample.environ ∅ Sample.cloud)
     = Deployment.Returned Sample.manager
  /\ length (Deployment.parse_requirements "a[b,c], d") = 3%nat.
Proof.
  assert (H1 : (Sample.environ ∪ ∅) !! "AGENT_REQUIREMENTS" = None)
    by (vm_compute; reflexivity).
  assert (H2 : Deployment.result_of (Deployment.__init__ Sample.environ ∅ Sample.cloud)
               = Deployment.Returned Sample.manager)
    by (vm_compute; reflexivity).
  split; [exact H1|]. split; [exact H2|].
  exact (proj1 (proj2 (proj2 (requirements_split_on_every_comma
                                Sample.environ ∅ Sample.cloud Sample.manager
                                "a[b,c], d" H1 H2)))).
Defined.

End RequirementsClaims.

Section ChatTotalExamples.

Lemma chat_returns_witness :
  false = false
  /\ ~ In Deployment.PrintExc
         (Deployment.trace
            (Deployment.chat Sample.manager Cases.with_text_stream (Deployment.AInt 42)
               (Deployment.AInt 7) "hello" "default-user" true false))
  /\ Deployment.result_of
       (Deployment.chat Sample.manager Cases.with_text_stream (Deployment.AInt 42)
          (Deployment.AInt 7) "hello" "default-user" true false)
     = Deployment.Returned tt.
Proof.
  split; [reflexivity|].
  destruct (chat_returns_or_raises_type_error Sample.manager Cases.with_text_stream
              (Deployment.AInt 42) (Deployment.AInt 7) "hello" "default-user"
              true false) as [_ [Htrace Hreturns]].
  split; [exact (Htrace eq_refl)|].
  apply Hreturns.
  - intros e H. discriminate H.
  - intros e H. discriminate H.
  - intros s e H Hclosing. injection H as <-. discriminate Hclosing.
Defined.

End ChatTotalExamples.
